(* ===== verification/_CoqProject ===== *)
-Q . S2P
Prelude.v
PyStr.v
PyRepr.v
PyValue.v
Walk.v
Manifest.v
Cached.v
Build.v
TestKind.v
TestGen.v
Signing.v
Parameters.v
