(* ===== verification/Prelude.v ===== *)
(** * secure-proxy's task-graph transforms: a verification development

    The repository's [taskcluster/xpi_taskgraph] package (six Python files
    under src/) extends a CI task graph.  [xpi_manifest.py] discovers the
    sub-projects of the checkout (directories with a [package.json]) and
    validates them; [cached.py] keys each task's cache by a SHA-256 digest
    of the files it depends on; [build.py] and [test.py] expand job
    templates once per sub-project (and per test target); [signing.py]
    turns build tasks into signing tasks; [parameters.py] copies SSH
    secret names from the environment into the graph configuration.
    Discovery feeds the expanders through the memoised [get_manifest];
    the cache transform runs on every expanded task.

    The development models the code as Python 3 runs it: text and bytes
    are distinct, [repr] has no [u] prefix, and dicts keep insertion
    order (the exception texts of [check_manifest] depend on the last
    two).  Under Python 3 [cached.py] cannot run: [check_output] returns
    bytes, which line 49 passes to [bytes.replace] with [str] arguments,
    and line 64 feeds a [str] to [hashlib]; both raise [TypeError], and
    the model says so rather than assume the digest exists.

    ** Files, in dependency order

    - [Prelude] (this file): Python exceptions as values ([result],
      [py_exc]) with a bind notation in [py_scope]; the [xpi] hint
      databases; list, option and string lemmas shared by all files;
      [sorted] of a list ([py_sorted]) and of a Python set
      ([py_sorted_set]), with the lemma that sorting a set forgets order
      and multiplicity.
    - [PyStr]: the Python builtins on strings and paths the code calls,
      modelled from CPython ([str.replace], [startswith], [rstrip],
      [split], posix [os.path.join], [basename], [splitext], [normpath],
      [relpath]); module [PathNames] proves the path round trips
      (split/join, [relpath] below a base, [replace] of a leading
      pattern).
    - [PyRepr]: CPython's [repr] of a string (choice of quote, escapes,
      [\xHH] for non-printable bytes) and [str] of a list of strings, the
      text ["{}".format(list)] gives; its reader [read_list_repr] and the
      round trip [read_list_repr (list_repr l) = Some l].
    - [PyValue]: JSON-decoded Python values and the dict operations of
      the code ([get], [d[k]], [d[k] = v], [setdefault], iteration,
      truthiness); [json.load] is the interface [JsonDecoder].  The
      nested updates the transforms make through aliases ([env = task
      .setdefault("worker", {}).setdefault("env", {})], then
      [env[k] = v]) are operations at a path of the task ([modify_in],
      [set_in], [setdefault_in], [append_in]), with the lemmas that say
      what a write changes and what it leaves ([lookup_back]).
    - [Walk]: the checkout as a tree ([Fs.node], entries in listing
      order); module [Prune] models the loop [for dir_ in subdir_list:
      if dir_ in IGNORE: subdir_list.remove(dir_)] index by index, as
      CPython iterates a list that shrinks, both as one iteration
      [loop_step] on the state (iterator index, list) and as the
      fuel-bounded function [remove_while_iterating]; module [Walk] models
      [os.walk] top-down as the list of [(dirpath, dirnames, filenames)]
      it yields, recursing into what the consumer's pruning left.
    - [Manifest] ([xpi_manifest.py]): [check_manifest] with its messages
      as the strings the code formats and its [Exception] text, the loop
      body [manifest_of_dir] (the record's [install-type] is the string
      ["yarn"] or ["npm"]), [compute_manifest] and the memoised
      [get_manifest] (the memo is explicit state), [get_xpi_config].
    - [Cached] ([cached.py]): [list_files], [cache_files], the running
      hash [update_lines]/[files_digest], [repo_name_of],
      [build_cache_task] and [build_cache] over task dicts.  Python 3's
      [str] and [bytes] are the type [pystr], with the methods line 49
      calls ([py_rstrip], [py_replace], [py_rstrip_char],
      [py_split_last]), [check_output] returning bytes and [hashlib]'s
      [sha256_update] accepting bytes only; SHA-256 is the interface
      [Sha256].
    - [Build] ([build.py]): [build_task] (the loop body, statement by
      statement), [tasks_from_manifest] (the two loops, consumed to the
      first exception) and [build_transform] (with [get_manifest]).
      [deepcopy] makes each task a value of its own.
    - [TestKind] ([test.py]): [str.format(target=...)] as a scanner of
      the format string ([format_go]), [test_task], the loop nest
      [test_items] and [test_loop], which threads the module-level
      [test_count] dict as state across tasks and across calls.
    - [TestGen] ([test.py]): the transform as the generator it is.  A
      suspended generator holds the loop nest's remaining iterations and
      [test_count]; [next_step] is one [next()] call (run the loop body
      to the next [yield], raise, or [StopIteration]), [run] a sequence
      of calls, and [next]/[drive] their executable versions.
    - [Signing] ([signing.py]): [define_signing_flags_task] and
      [build_signing_task_one], the loop bodies of the two transforms,
      over a task dict beside the dependency object it holds;
      [resolve_keyed_by] and [get_artifact_prefix] (taskgraph functions)
      are the interfaces [KeyedBy], whose law says the resolution changes
      only the value at its key, and [ArtifactPrefix].
    - [Parameters] ([parameters.py]): [get_decision_parameters] over the
      graph configuration dict and an environment.

    ** What the theorems show

    - Validation ([Manifest]): [check_manifest] raises exactly when a
      test name has a character outside [a-zA-Z0-9:_-] or a name is
      shared, and its one exception lists every such problem, the
      duplicates with all their directories ([check_manifest_reports],
      [check_manifest_ok]).
    - Discovery: the records of a successful [get_manifest] are exactly
      those of the directories the pruned walk reaches
      ([compute_manifest_reach]); they have distinct names
      ([get_manifest_valid]) and each is well formed, its install type
      ["yarn"] or ["npm"] and its tests legal [test]/[lint] targets
      ([get_manifest_records_wf]); the memo returns the first result
      without reading the tree again, so the build and test transforms
      expand one manifest per process ([transforms_share_manifest]); a
      reachable [package.json] without lock file makes discovery fail
      ([get_manifest_missing_lock]); the name and directory of each
      record ([manifest_of_dir_subproject]); [get_xpi_config]
      ([get_xpi_config_spec]).  Two defects, as general theorems: in any
      reached directory where [node_modules] follows [.git], the walk
      enters [node_modules] ([get_manifest_walks_node_modules]); a
      sub-project whose path contains the base path again gets a
      directory that is not its path ([get_manifest_directory_mangled]).
    - The walk: [os_walk] yields one triple per reachable directory
      ([os_walk_reach]) and its fuel is enough ([walk_fuel_irrel]); the
      pruning loop equals the structural [skip_after_remove]
      ([remove_while_iterating_skip]); as a step relation it terminates
      from every listing and every run that stops ends with
      [skip_after_remove l] ([remove_while_iterating_terminates]); it
      equals [filter] when no two ignored names are adjacent
      ([remove_while_iterating_filter]); it keeps every name that is not
      ignored and removes at least half of the ignored ones
      ([remove_while_iterating_bounds]).
    - Cache ([Cached]): [list_files] is the set of [d/p/f] for the
      non-ignored files of reachable directories ([list_files_spec]);
      under Python 3 [build_cache] raises [TypeError] on every graph
      ([build_cache_raises]), and its loop body raises on every task to
      cache with a non-empty file set, so no cache block is ever
      attached ([build_cache_task_raises]).
    - Build expansion ([Build]): on a well-shaped template and without a
      clone secret, each expansion succeeds and writes exactly the label,
      environment, artifact, [cwd] and [extra] fields, leaving the rest of
      the template ([build_task_spec]); the transform's labels are
      distinct under a validated manifest
      ([build_transform_labels_unique]); with a clone secret configured
      it raises [NameError] ([build_transform_clone_secret]).
    - Test expansion ([TestKind]): one task per (template, entry, sorted
      target) with its target substituted into the command
      ([test_tasks_fanout]); [test_count] grows by the number of tasks
      per name ([test_count_spec]).
    - The generator ([TestGen]): while it is suspended, [test_count] has
      counted exactly the tasks yielded so far ([test_gen_count_prefix]);
      the lemmas [run_refines_test_loop] and [test_gen_eventually_closes]
      relate a full run of [next()] calls to [test_loop].
    - Signing ([Signing]): the task is named after its build task
      ([dependent_job_name]), carries the merged [signed] attributes
      ([define_signing_flags_spec]); an unknown signing type drops every
      task ([build_signing_task_skip]); otherwise each task is wired to
      its build and its artifact ([build_signing_task_spec]); the read
      scope of a private prefix grants the artifact when the two sources
      of the prefix agree ([build_signing_task_scope]) and does not when
      the artifact path is not under the environment's prefix
      ([signing_scope_mismatch]).
    - Parameters ([Parameters]): every repository gets the secret name
      it had or the one of its environment variable, and nothing else
      changes ([get_decision_parameters_spec]).
    - Concrete runs (Examples) show the defects on small checkouts:
      [get_manifest_node_modules_run], [get_manifest_nested_base_run],
      two sub-projects whose test labels clash ([test_labels_clash]), a
      task counted although its expansion raises
      ([test_count_counts_failed_task]), the scopes of
      [signing_scope_mismatch_run], and the remote's bytes on which line
      49 raises ([repo_name_bytes]).

    ** Bounds and fuel

    [Walk.os_walk] runs [walk_fuel] with fuel [S (height tree)]: each
    level of recursion descends one directory, and [walk_fuel_irrel]
    shows any fuel above the height gives the same triples.  The pruning
    loop runs with fuel [length l]: the iterator index grows by one per
    iteration and the list never grows, so [length l - i] is a variant
    of [loop_step]; [remove_while_iterating_terminates] shows the fuel
    reaches the loop's exit, and [remove_while_iterating_fuel_irrel]
    that more fuel changes nothing.  The Prelude's [rtc_det_nf] says a
    deterministic step relation stops in at most one state.
    [str.replace] is structural (a skip counter after each match), and so
    is the [str.format] scanner (one state per character).  The
    generator's [drive] takes fuel, but the step relation needs none: the
    measure [calls_left] (pending iterations plus one) falls by one per
    [next()] call, so [length items + 1] calls always close it.

    ** Not modelled, and why

    - The module headers (imports, [transforms = TransformSequence()],
      the [@transforms.add] registrations, [BASE_DIR = os.getcwd()]) have
      no behaviour of their own: [BASE_DIR] and the graph configuration
      are parameters of the definitions, and each transform is the
      function it registers.
    - SHA-256 and [json.load] are library routines: they are the
      interfaces [Sha256] and [JsonDecoder]; the concrete runs use a
      hex-encoding stand-in and a space-separated script-list decoder.
      The hash state is the bytes fed so far ([h.update(a); h.update(b)]
      hashes [a + b], [hashlib]'s contract); [update] of a [str] raises,
      as Python 3's [hashlib] does (the message of CPython 3.9 and later).
    - Python strings are sequences of Unicode code points; the model's
      strings are of one-byte characters, read as the code points 0 to
      255.  [repr] is exact on that range (its escapes and its
      printable test); wider code points are outside the model.
    - Symbolic links ([realpath], [os.walk]'s [followlinks]) are not
      modelled: the tree has files and directories only.
    - The standard output of [git remote get-url origin] is an input,
      received as bytes; [taskgraph.fast] is a boolean input.
    - The taskgraph engine ([TransformSequence], scheduling, schema
      validation, [resolve_keyed_by], [get_artifact_prefix]) is outside
      the repository: the functions the code calls are interfaces, and
      the concrete runs use a [by-level] resolver and taskgraph's
      [attributes.artifact_prefix or "public/build"].
    - [dict.update] from a sequence of pairs and [str()] of a non-string
      [xpi-name] are outside the model (it raises [TypeError] there); the
      code only meets dicts and strings in those places.
    - In [str.format], replacement fields with a conversion, a format
      spec, an attribute or an index ([{target!r}], [{target:>8}]) are
      outside the model, which raises [ValueError] for them; the other
      fields, the escapes and the errors of unbalanced braces are
      modelled.
    - A transform is a generator the engine consumes; the model consumes
      it to the end or to its first exception.
    - Strings are ASCII ([String.string]); Python's [str] is Unicode. *)

From Stdlib Require Import String Ascii.
From stdpp Require Import base list strings sorting relations.

(** ** Python exceptions as values

    Every function of the program that can raise returns a [result]: [Ok]
    for a normal return and [Err] for an exception that propagates to the
    caller.  [py_exc] names the builtin exception classes the code can
    raise, with the datum Python prints for them, and the plain
    [Exception(msg)] the code raises itself, with its message text. *)

Inductive result (E A : Type) : Type :=
| Ok (a : A)
| Err (e : E).
Arguments Ok {E A} a.
Arguments Err {E A} e.

Inductive py_exc : Type :=
| KeyError (key : string)
| AttributeError (obj attr : string)
| NameError (name : string)
| TypeError (what : string)
| ValueError (what : string)
| IndexError (what : string)
| OSError (path : string)
| Exception (msg : string).

#[export] Instance py_exc_eq_dec : EqDecision py_exc.
Proof. solve_decision. Defined.

Definition res_bind {E A B} (r : result E A) (k : A -> result E B) : result E B :=
  match r with
  | Ok a => k a
  | Err e => Err e
  end.

Definition res_map_err {E E' A} (f : E -> E') (r : result E A) : result E' A :=
  match r with
  | Ok a => Ok a
  | Err e => Err (f e)
  end.

Declare Scope py_scope.
Delimit Scope py_scope with py.
Notation "x <- c ;; k" := (res_bind c (fun x => k))
  (at level 60, c at next level, right associativity) : py_scope.
Notation "'raise' e" := (Err e) (at level 10) : py_scope.

(** [for x in l: body] where [body] may raise: the loop stops at the first
    exception, as a Python [for] does. *)
Fixpoint res_mapM {E A B} (f : A -> result E B) (l : list A) : result E (list B) :=
  match l with
  | [] => Ok []
  | x :: l' =>
      match f x with
      | Ok y => match res_mapM f l' with Ok ys => Ok (y :: ys) | Err e => Err e end
      | Err e => Err e
      end
  end.

Create HintDb xpi discriminated.
Create Rewrite HintDb xpi_rw.

Lemma res_bind_Ok {E A B} (r : result E A) (k : A -> result E B) (b : B) :
  res_bind r k = Ok b <-> exists a, r = Ok a /\ k a = Ok b.
Proof.
  destruct r as [a|e]; simpl; split.
  - eauto.
  - by intros (? & [= ->] & ?).
  - done.
  - by intros (? & ? & ?).
Qed.

Lemma res_bind_ret {E A B} (a : A) (k : A -> result E B) : res_bind (Ok a) k = k a.
Proof. done. Qed.

(** Take a chain of binds that returned [Ok] apart into its steps. *)
Ltac res_inv H :=
  repeat match type of H with
  | res_bind _ _ = Ok _ =>
      let a := fresh "t" in let E := fresh "E" in
      apply res_bind_Ok in H as (a & E & H); cbv beta in H
  end.

Lemma res_mapM_Ok {E A B} (f : A -> result E B) l ys :
  res_mapM f l = Ok ys <-> Forall2 (fun x y => f x = Ok y) l ys.
Proof.
  revert ys; induction l as [|x l IH]; intros ys; simpl.
  - split; [intros [= <-]; constructor | by inversion 1].
  - split.
    + destruct (f x) eqn:Hf; [|done].
      destruct (res_mapM f l) eqn:Hl; [|done]. intros [= <-].
      constructor; [done | by apply IH].
    + inversion 1 as [|? y ? ys' Hy Hl]; subst. rewrite Hy.
      by apply IH in Hl as ->.
Qed.

Lemma omap_map {A B C} (f : B -> option C) (g : A -> B) (l : list A) :
  omap f (map g l) = omap (fun x => f (g x)) l.
Proof. induction l as [|x l IH]; [done|]. csimpl. by rewrite IH. Qed.

Lemma flat_map_nil_iff {A B} (f : A -> list B) (l : list A) :
  flat_map f l = [] <-> Forall (fun x => f x = []) l.
Proof.
  induction l as [|x l IH]; simpl; [split; [constructor|done]|].
  rewrite Forall_cons, <- IH. split; [|intros [-> ->]; done].
  intros H. by apply app_eq_nil in H.
Qed.

Lemma omap_nil_iff {A B} (f : A -> option B) (l : list A) :
  omap f l = [] <-> Forall (fun x => f x = None) l.
Proof.
  induction l as [|x l IH]; csimpl; [split; [constructor|done]|].
  rewrite Forall_cons, <- IH. destruct (f x); [split; [done|]|]; naive_solver.
Qed.

Lemma res_mapM_Err {E A B} (f : A -> result E B) (l : list A) x e :
  In x l -> f x = Err e -> exists e', res_mapM f l = Err e'.
Proof.
  induction l as [|y l IH]; intros Hx Hf; [done|]. simpl.
  destruct Hx as [->|Hx].
  - rewrite Hf. eauto.
  - destruct (f y); [|eauto]. destruct (IH Hx Hf) as [e' ->]. eauto.
Qed.

Lemma res_mapM_elem {E A B} (f : A -> result E B) (l : list A) ys y :
  res_mapM f l = Ok ys -> y ∈ ys <-> exists x, x ∈ l /\ f x = Ok y.
Proof.
  revert ys; induction l as [|x l IH]; intros ys; simpl.
  - intros [= <-]. split; [by intros ?%elem_of_nil | by intros (? & ?%elem_of_nil & _)].
  - destruct (f x) as [y'|] eqn:Hf; [|done].
    destruct (res_mapM f l) as [ys'|] eqn:Hl; [|done]. intros [= <-].
    rewrite elem_of_cons, (IH ys' eq_refl). split.
    + intros [->|(x' & ? & ?)].
      * exists x. split; [by apply elem_of_cons; left|done].
      * exists x'. split; [by apply elem_of_cons; right|done].
    + intros (x' & [->|Hx']%elem_of_cons & Hfx); [left; congruence|]. right. eauto.
Qed.

Lemma res_mapM_ext_in {E A B} (f g : A -> result E B) (l : list A) :
  (forall x, x ∈ l -> f x = g x) -> res_mapM f l = res_mapM g l.
Proof.
  induction l as [|x l IH]; intros Hfg; simpl; [done|].
  rewrite Hfg by (apply elem_of_cons; by left).
  rewrite IH; [done|]. intros y Hy. apply Hfg, elem_of_cons. by right.
Qed.

Lemma NoDup_map_inj {A B} (f : A -> B) (l : list A) :
  (forall x y, f x = f y -> x = y) -> NoDup l -> NoDup (map f l).
Proof.
  intros Hf. induction l as [|x l IH]; simpl; [constructor|].
  rewrite !NoDup_cons. intros [Hx Hl]. split; [|auto].
  rewrite list_elem_of_In, in_map_iff. intros (y & Hy%Hf & Hin). subst y.
  apply Hx. by apply list_elem_of_In.
Qed.

Lemma Forall2_map_eq {A B C} (f : A -> C) (g : B -> C) l k :
  Forall2 (fun a b => g b = f a) l k -> map g k = map f l.
Proof. induction 1; simpl; congruence. Qed.

Lemma Forall_zip {A B} (P : A -> Prop) (Q : B -> Prop) (l1 : list A) (l2 : list B) :
  Forall P l1 -> Forall Q l2 -> Forall (fun e => P e.1 /\ Q e.2) (zip l1 l2).
Proof.
  intros H1. revert l2. induction H1 as [|x l1 Hx H1 IH]; intros [|y l2] H2; simpl; [constructor..|].
  inversion H2; subst. constructor; [by split|]. by apply IH.
Qed.

(** ** Python sets of strings, iterated in sorted order

    [sorted(list(s))] for a Python set [s] of strings: the set is a list
    without duplicates and [sorted] is the code-point order, which on ASCII
    strings is stdpp's [String.le]. *)

Definition py_sorted_set (l : list string) : list string :=
  merge_sort String.le (remove_dups l).

Lemma py_sorted_set_sorted l : StronglySorted String.le (py_sorted_set l).
Proof. apply StronglySorted_merge_sort; apply _. Qed.

Lemma py_sorted_set_elem l x : x ∈ py_sorted_set l <-> x ∈ l.
Proof.
  unfold py_sorted_set. rewrite (merge_sort_Permutation _ _).
  apply elem_of_remove_dups.
Qed.

Lemma py_sorted_set_NoDup l : NoDup (py_sorted_set l).
Proof.
  unfold py_sorted_set. rewrite (merge_sort_Permutation _ _).
  apply NoDup_remove_dups.
Qed.

(** [sorted(l)] for a list of strings: duplicates are kept. *)
Definition py_sorted (l : list string) : list string := merge_sort String.le l.

Lemma py_sorted_Permutation l : py_sorted l ≡ₚ l.
Proof. apply merge_sort_Permutation. Qed.

(** Two lists that denote the same Python set. *)
Definition same_elems (l1 l2 : list string) : Prop := forall x, x ∈ l1 <-> x ∈ l2.

#[export] Instance same_elems_equiv : Equivalence same_elems.
Proof.
  split.
  - by intros l x.
  - intros l1 l2 H x. symmetry. apply H.
  - intros l1 l2 l3 H1 H2 x. rewrite (H1 x). apply H2.
Qed.

(** Sorting a set forgets the order and the multiplicity of its elements:
    two lists with the same members give the same sorted list. *)
Lemma py_sorted_set_ext l1 l2 :
  same_elems l1 l2 -> py_sorted_set l1 = py_sorted_set l2.
Proof.
  intros Hx. apply (Sorted_unique String.le).
  - apply Sorted_merge_sort; apply _.
  - apply Sorted_merge_sort; apply _.
  - unfold py_sorted_set. rewrite !(merge_sort_Permutation _ _).
    apply NoDup_Permutation; [apply NoDup_remove_dups..|].
    intros x. rewrite !elem_of_remove_dups. apply Hx.
Qed.

#[export] Instance py_sorted_set_proper : Proper (same_elems ==> eq) py_sorted_set.
Proof. intros l1 l2. apply py_sorted_set_ext. Qed.

#[export] Hint Resolve py_sorted_set_sorted py_sorted_set_NoDup : xpi.

(** ** Strings

    stdpp declares [String.append] [simpl never]; these equations are the
    rewriting steps the string proofs use instead. *)

Lemma str_app_nil_l (s : string) : ("" ++ s)%string = s.
Proof. reflexivity. Qed.

Lemma str_app_cons (c : ascii) (s1 s2 : string) :
  (String c s1 ++ s2)%string = String c (s1 ++ s2).
Proof. reflexivity. Qed.

Lemma str_app_nil_r (s : string) : (s ++ "")%string = s.
Proof. induction s as [|c s IH]; [done|]. rewrite str_app_cons, IH. done. Qed.

Lemma str_app_assoc (s1 s2 s3 : string) :
  (s1 ++ (s2 ++ s3))%string = ((s1 ++ s2) ++ s3)%string.
Proof. induction s1 as [|c s1 IH]; [done|]. rewrite !str_app_cons, IH. done. Qed.

Lemma str_length_app (s1 s2 : string) :
  String.length (s1 ++ s2) = String.length s1 + String.length s2.
Proof. induction s1 as [|c s1 IH]; [done|]. rewrite str_app_cons. simpl. by rewrite IH. Qed.

Lemma str_prefix_app (p s : string) : String.prefix p (p ++ s) = true.
Proof.
  induction p as [|c p IH]; [by destruct s|].
  rewrite str_app_cons. simpl. rewrite IH. by destruct (ascii_dec c c).
Qed.

Lemma str_prefix_cons (a b : ascii) (s1 s2 : string) :
  String.prefix (String a s1) (String b s2) =
  if ascii_dec a b then String.prefix s1 s2 else false.
Proof. reflexivity. Qed.

Lemma str_app_inj_l (p a b : string) : (p ++ a)%string = (p ++ b)%string -> a = b.
Proof. induction p as [|c p IH]; [done|]. rewrite !str_app_cons. intros [= ?]. by apply IH. Qed.

Lemma str_app_inj_r (a b s : string) : (a ++ s)%string = (b ++ s)%string -> a = b.
Proof.
  revert b. induction a as [|c a IH]; intros [|d b] H; rewrite ?str_app_nil_l, ?str_app_cons in H.
  - done.
  - apply (f_equal String.length) in H. simpl in H. rewrite str_length_app in H. lia.
  - apply (f_equal String.length) in H. simpl in H. rewrite str_length_app in H. lia.
  - injection H as -> H. f_equal. by apply IH.
Qed.

#[export] Hint Rewrite str_app_nil_l str_app_cons str_app_nil_r : xpi_rw.

(** ** Deterministic step relations

    The loops of the code are modelled as step relations whose step is a
    function of the state: a run then stops in at most one state. *)
Section Deterministic.
Context {A : Type} (R : relation A).
Hypothesis R_det : forall x y z, R x y -> R x z -> y = z.

Lemma rtc_det_nf x y z : rtc R x y -> rtc R x z -> nf R y -> nf R z -> y = z.
Proof.
  intros Hy. revert z. induction Hy as [x|x x' y Hx Hy IH]; intros z Hz Hny Hnz;
    inversion Hz as [|? x'' ? Hx'' Hz']; subst.
  - done.
  - destruct Hny. by exists x''.
  - destruct Hnz. by exists x'.
  - rewrite (R_det _ _ _ Hx Hx'') in IH. by apply IH.
Qed.

End Deterministic.
