(* ===== verification/PyStr.v ===== *)
(** * Python string and [os.path] builtins used by the task-graph code

    The code under src/ manipulates paths and names as Python strings.
    This file models, on [String.string] (ASCII), the builtins it calls:
    [str.startswith], [str.replace], [str.rstrip], [str.split], and the
    POSIX [os.path] functions [join], [basename], [splitext], [normpath]
    (through [abspath]) and [relpath], each as CPython's posixpath
    defines it.  The lemmas are the path round trips the components rely
    on: splitting a joined path gives its components back, [relpath]
    strips the base directory, and [replace] removes a leading pattern. *)

From Stdlib Require Import String Ascii.
From stdpp Require Import base list strings.
From S2P Require Import Prelude.

Local Open Scope string_scope.
Local Open Scope list_scope.

Module PyStr.

(** [s.startswith(p)] *)
Definition startswith (s p : string) : bool := String.prefix p s.

(** [s.endswith("/")]: the last character is [c]. *)
Fixpoint ends_with_char (c : ascii) (s : string) : bool :=
  match s with
  | EmptyString => false
  | String d EmptyString => bool_decide (d = c)
  | String _ s' => ends_with_char c s'
  end.

(** [s.replace(old, new)] with a non-empty [old]: scan from the left, and
    after a match skip the [String.length old - 1] further characters the
    match consumed, so that matches do not overlap. *)
Fixpoint replace_from (old new : string) (skip : nat) (s : string) : string :=
  match s with
  | EmptyString => EmptyString
  | String c s' =>
      match skip with
      | S k => replace_from old new k s'
      | O => if String.prefix old s
             then new ++ replace_from old new (String.length old - 1) s'
             else String c (replace_from old new 0 s')
      end
  end.

(** [s.replace("", new)] puts [new] before every character and at the end. *)
Fixpoint replace_empty (new s : string) : string :=
  match s with
  | EmptyString => new
  | String c s' => new ++ String c (replace_empty new s')
  end.

Definition replace (s old new : string) : string :=
  match old with
  | EmptyString => replace_empty new s
  | _ => replace_from old new 0 s
  end.

(** [s.rstrip(chars)] for the characters satisfying [drop]. *)
Fixpoint rstrip_by (drop : ascii -> bool) (s : string) : string :=
  match s with
  | EmptyString => EmptyString
  | String c s' =>
      let r := rstrip_by drop s' in
      match r with
      | EmptyString => if drop c then EmptyString else String c EmptyString
      | _ => String c r
      end
  end.

(** [s.rstrip()] on the bytes [git] prints: ASCII whitespace. *)
Definition rstrip (s : string) : string := rstrip_by Ascii.is_space s.

(** [s.rstrip(c)] for a one-character argument. *)
Definition rstrip_char (c : ascii) (s : string) : string :=
  rstrip_by (fun d => bool_decide (d = c)) s.

(** [s.split(c)]: never empty; the pieces between the separators. *)
Fixpoint split (c : ascii) (s : string) : list string :=
  match s with
  | EmptyString => [EmptyString]
  | String d s' =>
      let r := split c s' in
      if bool_decide (d = c) then EmptyString :: r
      else match r with
           | x :: r' => String d x :: r'
           | [] => [String d EmptyString]
           end
  end.

(** [l[-1]] of a non-empty list of strings. *)
Definition last_piece (l : list string) : string := default EmptyString (last l).

(** [s.split(c)[-1]] *)
Definition split_last (c : ascii) (s : string) : string := last_piece (split c s).

End PyStr.

Module OsPath.
Import PyStr.

(** [os.path.join(a, b)] (posixpath) *)
Definition join2 (a b : string) : string :=
  if startswith b "/" then b
  else match a with
       | EmptyString => b
       | _ => if ends_with_char "/" a then a ++ b else a ++ "/" ++ b
       end.

(** [os.path.join(a, *p)] *)
Definition join (a : string) (p : list string) : string := fold_left join2 p a.

(** [os.path.basename(p)] = [p[p.rfind('/') + 1:]] *)
Definition basename (p : string) : string := split_last "/" p.

(** Index of the last occurrence of [c], as [str.rfind] ([None] for -1). *)
Fixpoint rfind (c : ascii) (s : string) : option nat :=
  match s with
  | EmptyString => None
  | String d s' =>
      match rfind c s' with
      | Some i => Some (S i)
      | None => if bool_decide (d = c) then Some 0 else None
      end
  end.

(** [os.path.splitext(p)]: the extension starts at the last dot, provided
    that dot follows the last separator and some character of the base
    name before it is not a dot (the [while filenameIndex < dotIndex]
    loop of [genericpath._splitext]); otherwise the extension is empty. *)
Definition splitext (p : string) : string * string :=
  match rfind "." p with
  | None => (p, EmptyString)
  | Some dot =>
      let start := match rfind "/" p with Some s => S s | None => O end in
      if bool_decide (start <= dot) &&
         existsb (fun c => negb (bool_decide (c = "."%char)))
                 (list_ascii_of_string (substring start (dot - start) p))
      then (substring 0 dot p, substring dot (String.length p - dot) p)
      else (p, EmptyString)
  end.

(** The component loop of [posixpath.normpath] for a path that starts
    with a slash: empty and [.] components vanish, [..] pops the last
    component and is dropped at the root. *)
Fixpoint norm_comps (acc : list string) (comps : list string) : list string :=
  match comps with
  | [] => rev acc
  | c :: cs =>
      if bool_decide (c = EmptyString) || bool_decide (c = ".") then norm_comps acc cs
      else if bool_decide (c = "..") then
        match acc with
        | [] => norm_comps [] cs
        | _ :: acc' => norm_comps acc' cs
        end
      else norm_comps (c :: acc) cs
  end.

(** [[x for x in abspath(p).split('/') if x]] where [cwd] is
    [os.getcwd()]: a relative [p] is first joined to [cwd]. *)
Definition abs_comps (cwd p : string) : list string :=
  let a := if startswith p "/" then p else join2 cwd p in
  norm_comps [] (split "/" a).

Fixpoint common_prefix_len (l1 l2 : list string) : nat :=
  match l1, l2 with
  | x :: l1', y :: l2' => if bool_decide (x = y) then S (common_prefix_len l1' l2') else O
  | _, _ => O
  end.

(** [os.path.relpath(path, start)] *)
Definition relpath (cwd path start : string) : string :=
  let start_list := abs_comps cwd start in
  let path_list := abs_comps cwd path in
  let i := common_prefix_len start_list path_list in
  let rel_list := replicate (length start_list - i) ".." ++ drop i path_list in
  match rel_list with
  | [] => "."
  | r :: rs => join r rs
  end.

End OsPath.

(** ** Well-formed path components and absolute paths

    A directory listing holds names that are non-empty, contain no slash
    and are neither [.] nor [..]; an absolute path is a slash followed by
    such names joined by slashes.  These predicates are not code: they
    state the shape of the paths the walk builds. *)

Module PathNames.
Import PyStr OsPath.

(** [c in s] *)
Fixpoint has_char (c : ascii) (s : string) : bool :=
  match s with
  | EmptyString => false
  | String d s' => bool_decide (d = c) || has_char c s'
  end.

(** [old in s] for strings *)
Fixpoint contains (old s : string) : bool :=
  String.prefix old s ||
  match s with
  | EmptyString => false
  | String _ s' => contains old s'
  end.

Definition valid_name (n : string) : bool :=
  negb (bool_decide (n = EmptyString)) && negb (has_char "/" n) &&
  negb (bool_decide (n = ".")) && negb (bool_decide (n = "..")).

Definition abs_path (cs : list string) : string := "/" ++ String.concat "/" cs.

Lemma valid_name_spec n :
  valid_name n = true <->
  n <> EmptyString /\ has_char "/" n = false /\ n <> "." /\ n <> "..".
Proof.
  unfold valid_name. rewrite !andb_true_iff, !negb_true_iff, !bool_decide_eq_false.
  tauto.
Qed.

Lemma split_no_char c s : has_char c s = false -> split c s = [s].
Proof.
  induction s as [|d s IH]; simpl; [done|].
  rewrite orb_false_iff. intros [Hd Hs]. rewrite Hd, IH by done. done.
Qed.

Lemma split_app_char c s1 s2 :
  has_char c s1 = false -> split c (s1 ++ String c s2) = s1 :: split c s2.
Proof.
  induction s1 as [|d s1 IH]; simpl.
  - intros _. by rewrite bool_decide_eq_true_2.
  - rewrite orb_false_iff. intros [Hd Hs]. rewrite Hd, IH by done. done.
Qed.

Lemma concat_cons2 (sep x y : string) (l : list string) :
  String.concat sep (x :: y :: l) = (x ++ sep ++ String.concat sep (y :: l))%string.
Proof. reflexivity. Qed.

Lemma split_concat c cs :
  cs <> [] -> Forall (fun x => has_char c x = false) cs ->
  split c (String.concat (String c EmptyString) cs) = cs.
Proof.
  induction cs as [|x [|y cs] IH]; intros Hne Hall; [done| |].
  - inversion Hall. by apply split_no_char.
  - inversion Hall; subst. rewrite concat_cons2, str_app_cons, str_app_nil_l.
    rewrite split_app_char by done. f_equal. apply IH; [done|done].
Qed.

Lemma norm_comps_valid acc cs :
  Forall (fun c => valid_name c = true) cs -> norm_comps acc cs = rev acc ++ cs.
Proof.
  revert acc; induction cs as [|c cs IH]; intros acc Hall; simpl.
  - by rewrite app_nil_r.
  - inversion Hall as [|? ? Hc Hcs]; subst.
    apply valid_name_spec in Hc as (H1 & _ & H2 & H3).
    rewrite !bool_decide_eq_false_2 by done. simpl.
    rewrite IH by done. simpl. by rewrite <- app_assoc.
Qed.

Lemma valid_names_no_slash cs :
  Forall (fun c => valid_name c = true) cs -> Forall (fun x => has_char "/" x = false) cs.
Proof.
  intros H. eapply Forall_impl; [exact H|].
  intros x Hx. by apply valid_name_spec in Hx as (_ & ? & _).
Qed.

Lemma abs_comps_abs_path cwd cs :
  Forall (fun c => valid_name c = true) cs -> abs_comps cwd (abs_path cs) = cs.
Proof.
  intros Hall. unfold abs_comps, abs_path, startswith.
  rewrite str_prefix_app. simpl (split _ _). rewrite str_app_nil_l.
  destruct cs as [|x cs]; [done|].
  rewrite split_concat by (done || by apply valid_names_no_slash).
  change (norm_comps [] ("" :: x :: cs)) with (norm_comps [] (x :: cs)).
  by apply norm_comps_valid.
Qed.

Lemma ends_with_char_app c s1 s2 :
  s2 <> EmptyString -> ends_with_char c (s1 ++ s2) = ends_with_char c s2.
Proof.
  intros Hne. induction s1 as [|d s1 IH]; [done|].
  rewrite str_app_cons. simpl. destruct (s1 ++ s2)%string eqn:E; [|done].
  destruct s1, s2; done.
Qed.

Lemma ends_with_char_no_char c s : has_char c s = false -> ends_with_char c s = false.
Proof.
  induction s as [|d s IH]; simpl; [done|]. rewrite orb_false_iff.
  intros [Hd Hs]. destruct s; [exact Hd | by apply IH].
Qed.

Lemma concat_snoc sep cs n :
  cs <> [] -> String.concat sep (cs ++ [n]) = (String.concat sep cs ++ sep ++ n)%string.
Proof.
  induction cs as [|x [|y cs] IH]; intros Hne; [done|reflexivity|].
  change ((x :: y :: cs) ++ [n]) with (x :: y :: (cs ++ [n])).
  rewrite concat_cons2. change (y :: cs ++ [n]) with ((y :: cs) ++ [n]).
  rewrite IH by done. rewrite concat_cons2. by rewrite !str_app_assoc.
Qed.

Lemma startswith_slash_valid n : valid_name n = true -> startswith n "/" = false.
Proof.
  intros (Hne & Hs & _)%valid_name_spec. unfold startswith.
  destruct n as [|d n]; [done|]. cbn [has_char] in Hs.
  apply orb_false_iff in Hs as [Hd _]. rewrite str_prefix_cons.
  destruct (ascii_dec "/" d) as [<-|]; [|done].
  by rewrite bool_decide_eq_true_2 in Hd.
Qed.

Lemma concat_nonempty sep cs :
  cs <> [] -> Forall (fun c => valid_name c = true) cs ->
  String.concat sep cs <> EmptyString.
Proof.
  destruct cs as [|x [|y cs]]; intros Hne Hall; [done| |].
  - inversion Hall as [|? ? Hx]. apply valid_name_spec in Hx as [Hx _]. exact Hx.
  - inversion Hall as [|? ? Hx]. apply valid_name_spec in Hx as [? _].
    rewrite concat_cons2. destruct x; [done|]. rewrite str_app_cons. discriminate.
Qed.

Lemma concat_last_no_slash cs :
  cs <> [] -> Forall (fun c => valid_name c = true) cs ->
  ends_with_char "/" (String.concat "/" cs) = false.
Proof.
  intros Hne Hall. destruct (exists_last Hne) as (l & n & ->).
  apply Forall_app in Hall as [_ Hn]. inversion Hn as [|? ? Hn']; subst.
  apply valid_name_spec in Hn' as (Hne' & Hs & _).
  destruct l as [|x l].
  - by apply ends_with_char_no_char.
  - rewrite concat_snoc by done. rewrite !str_app_assoc.
    rewrite ends_with_char_app by done. by apply ends_with_char_no_char.
Qed.

(** Joining a valid name to an absolute path appends one component. *)
Lemma join2_abs_path cs n :
  Forall (fun c => valid_name c = true) cs -> valid_name n = true ->
  join2 (abs_path cs) n = abs_path (cs ++ [n]).
Proof.
  intros Hall Hn. unfold join2. rewrite startswith_slash_valid by done.
  unfold abs_path. destruct cs as [|x cs]; [reflexivity|].
  rewrite str_app_cons, str_app_nil_l.
  change (ends_with_char "/" (String "/" (String.concat "/" (x :: cs))))
    with (ends_with_char "/" ("/" ++ String.concat "/" (x :: cs))).
  rewrite ends_with_char_app by (apply concat_nonempty; done).
  rewrite concat_last_no_slash by done.
  rewrite concat_snoc by done. by rewrite !str_app_assoc.
Qed.

(** [os.path.join(r, *rs)] of valid names is the names joined by slashes. *)
Lemma join_valid s rs :
  s <> EmptyString -> ends_with_char "/" s = false ->
  Forall (fun c => valid_name c = true) rs ->
  join s rs = String.concat "/" (s :: rs).
Proof.
  revert s; induction rs as [|r rs IH]; intros s Hne Hend Hall; [done|].
  inversion Hall as [|? ? Hr Hrs]; subst. unfold join; simpl.
  assert (Hj : join2 s r = (s ++ "/" ++ r)%string).
  { unfold join2. rewrite startswith_slash_valid by done.
    destruct s; [done|]. by rewrite Hend. }
  rewrite Hj. fold (join (s ++ "/" ++ r) rs).
  apply valid_name_spec in Hr as (Hrne & Hrs' & _).
  rewrite IH.
  - destruct rs as [|r' rs]; [done|]. rewrite !concat_cons2. by rewrite !str_app_assoc.
  - by destruct s.
  - rewrite !str_app_assoc, ends_with_char_app by done. by apply ends_with_char_no_char.
  - done.
Qed.

Lemma common_prefix_len_app l1 l2 : common_prefix_len l1 (l1 ++ l2) = length l1.
Proof. induction l1 as [|x l1 IH]; simpl; [by destruct l2|]. by rewrite bool_decide_eq_true_2, IH. Qed.

(** [os.path.relpath(base/r1/.../rk, base)] is [r1/.../rk]. *)
Lemma relpath_abs_path cwd bcs rcs :
  Forall (fun c => valid_name c = true) bcs -> Forall (fun c => valid_name c = true) rcs ->
  rcs <> [] ->
  relpath cwd (abs_path (bcs ++ rcs)) (abs_path bcs) = String.concat "/" rcs.
Proof.
  intros Hb Hr Hne. unfold relpath.
  rewrite !abs_comps_abs_path by (try apply Forall_app; done).
  rewrite common_prefix_len_app, Nat.sub_diag, drop_app_length. simpl.
  destruct rcs as [|r rs]; [done|]. inversion Hr as [|? ? Hr1 Hrs]; subst.
  apply join_valid; [| |done].
  - by apply valid_name_spec in Hr1 as [? _].
  - apply ends_with_char_no_char. by apply valid_name_spec in Hr1 as (_ & ? & _).
Qed.

(** An absolute path below [bcs] starts with [abs_path bcs ++ "/"]. *)
Lemma abs_path_app bcs rcs :
  bcs <> [] -> rcs <> [] ->
  abs_path (bcs ++ rcs) = (abs_path bcs ++ "/" ++ String.concat "/" rcs)%string.
Proof.
  intros Hb Hr. unfold abs_path. rewrite <- !str_app_assoc. f_equal.
  revert rcs Hr. induction bcs as [|x [|y bcs] IH]; intros rcs Hr; [done| |].
  - destruct rcs; [done|]. reflexivity.
  - change ((x :: y :: bcs) ++ rcs) with (x :: ((y :: bcs) ++ rcs)).
    destruct ((y :: bcs) ++ rcs) as [|z l] eqn:E; [done|].
    rewrite concat_cons2, <- E, IH by done. rewrite concat_cons2. by rewrite !str_app_assoc.
Qed.

Lemma replace_from_skip old new x s :
  replace_from old new (String.length x) (x ++ s) = replace_from old new 0 s.
Proof. induction x as [|c x IH]; [done|]. rewrite str_app_cons. simpl. exact IH. Qed.

(** [(old + s).replace(old, new)] is [new + s.replace(old, new)]. *)
Lemma replace_prefix old new s :
  old <> EmptyString -> replace (old ++ s) old new = (new ++ replace s old new)%string.
Proof.
  intros Hne. destruct old as [|c o]; [done|]. unfold replace.
  rewrite str_app_cons. cbn [replace_from].
  rewrite <- str_app_cons, str_prefix_app. f_equal.
  cbn [String.length]. rewrite Nat.sub_succ, Nat.sub_0_r. apply replace_from_skip.
Qed.

(** [s.replace(old, new)] is [s] when [old not in s]. *)
Lemma replace_absent old new s : contains old s = false -> replace s old new = s.
Proof.
  intros H. destruct old as [|c o]; [by destruct s|]. unfold replace.
  induction s as [|d s IH]; [done|]. cbn [contains] in H.
  apply orb_false_iff in H as [Hp Hs]. cbn [replace_from]. rewrite Hp.
  f_equal. by apply IH.
Qed.

(** [os.path.join(base, *p)] for an absolute [base] and valid names. *)
Lemma join_abs_path bcs p :
  Forall (fun c => valid_name c = true) bcs -> Forall (fun c => valid_name c = true) p ->
  join (abs_path bcs) p = abs_path (bcs ++ p).
Proof.
  revert bcs; induction p as [|d p IH]; intros bcs Hb Hp; [by rewrite app_nil_r|].
  inversion Hp as [|? ? Hd Hp']; subst. unfold join; simpl. fold (join (join2 (abs_path bcs) d) p).
  rewrite join2_abs_path by done. rewrite IH; [by rewrite <- app_assoc| |done].
  apply Forall_app. split; [done|by constructor].
Qed.

(** [os.path.basename] of an absolute path is its last component. *)
Lemma basename_abs_path cs :
  cs <> [] -> Forall (fun c => valid_name c = true) cs ->
  basename (abs_path cs) = default EmptyString (last cs).
Proof.
  intros Hne Hall. unfold basename, split_last, abs_path.
  rewrite str_app_cons, str_app_nil_l. simpl (split _ (String _ _)).
  try rewrite bool_decide_eq_true_2 by done.
  rewrite split_concat by (done || by apply valid_names_no_slash).
  unfold last_piece. destruct cs; [done|]. by rewrite last_cons_cons.
Qed.

Lemma startswith_abs_path cs : startswith (abs_path cs) "/" = true.
Proof. unfold startswith, abs_path. apply str_prefix_app. Qed.

(** Joining an absolute path to anything gives the absolute path. *)
Lemma join2_abs_path_r a cs : join2 a (abs_path cs) = abs_path cs.
Proof. unfold join2. by rewrite startswith_abs_path. Qed.

Lemma has_char_app c s1 s2 : has_char c (s1 ++ s2) = has_char c s1 || has_char c s2.
Proof. induction s1 as [|d s1 IH]; [done|]. rewrite str_app_cons. simpl. by rewrite IH, orb_assoc. Qed.

(** [s.replace(c, new)] leaves no [c] when [new] has none. *)
Lemma replace_char_removes c new s :
  has_char c new = false -> has_char c (replace s (String c EmptyString) new) = false.
Proof.
  intros Hn. unfold replace. induction s as [|d s IH]; [done|].
  cbn [replace_from]. rewrite str_prefix_cons.
  assert (Hp : String.prefix EmptyString s = true) by (destruct s; reflexivity).
  destruct (ascii_dec c d) as [<-|Hcd].
  - rewrite Hp, has_char_app, Hn. simpl. exact IH.
  - simpl. rewrite IH, orb_false_r. by apply bool_decide_eq_false_2.
Qed.

(** Replacing one character works character by character, so it
    distributes over concatenation. *)
Lemma replace_char_app c new s1 s2 :
  replace (s1 ++ s2) (String c EmptyString) new =
  (replace s1 (String c EmptyString) new ++ replace s2 (String c EmptyString) new)%string.
Proof.
  unfold replace. induction s1 as [|d s1 IH]; [done|].
  rewrite str_app_cons. cbn [replace_from]. rewrite !str_prefix_cons.
  assert (Hp : forall s, String.prefix EmptyString s = true) by (intros []; reflexivity).
  rewrite !Hp. destruct (ascii_dec c d); simpl; rewrite IH; [apply str_app_assoc|done].
Qed.

(** [s.rstrip(c)] leaves a string that does not end with [c] alone. *)
Lemma rstrip_char_no_trailing c s :
  ends_with_char c s = false -> rstrip_char c s = s.
Proof.
  unfold rstrip_char. induction s as [|d s IH]; [done|]. intros He.
  cbn [rstrip_by]. destruct s as [|e s].
  - cbn in He |- *. by rewrite He.
  - rewrite IH by exact He. done.
Qed.

Lemma prefix_length p s : String.prefix p s = true -> String.length p <= String.length s.
Proof.
  revert s; induction p as [|c p IH]; intros [|d s] H; cbn [String.prefix String.length] in *;
    try lia; try done.
  destruct (ascii_dec c d); [|done]. apply IH in H. lia.
Qed.

Lemma contains_prefix old s : String.prefix old s = true -> contains old s = true.
Proof. intros H. destruct s; cbn [contains]; by rewrite H. Qed.

(** [old in x + old + y] *)
Lemma contains_app_mid old x y : contains old (x ++ old ++ y) = true.
Proof.
  induction x as [|c x IH].
  - rewrite str_app_nil_l. apply contains_prefix, str_prefix_app.
  - rewrite str_app_cons. cbn [contains]. by rewrite IH, orb_true_r.
Qed.

(** Removing matches never lengthens a string, and the characters a
    pending skip covers are dropped. *)
Lemma replace_from_empty_length old k s :
  String.length (replace_from old "" k s) + Nat.min k (String.length s) <= String.length s.
Proof.
  revert k; induction s as [|c s IH]; intros [|k]; cbn [replace_from String.length].
  - lia.
  - lia.
  - destruct (String.prefix old (String c s)).
    + rewrite str_app_nil_l. specialize (IH (String.length old - 1)). lia.
    + cbn [String.length]. specialize (IH 0). lia.
  - specialize (IH k). lia.
Qed.

(** [s.replace(old, "")] with [old in s] is shorter than [s] by at least
    the length of [old]. *)
Lemma replace_empty_contains_length old s :
  old <> EmptyString -> contains old s = true ->
  String.length (replace s old "") + String.length old <= String.length s.
Proof.
  intros Hne. replace (replace s old "") with (replace_from old "" 0 s) by (by destruct old).
  induction s as [|c s IH]; intros H.
  - destruct old; [done|]. discriminate H.
  - cbn [replace_from]. destruct (String.prefix old (String c s)) eqn:Hp.
    + pose proof (prefix_length _ _ Hp).
      pose proof (replace_from_empty_length old (String.length old - 1) s).
      rewrite str_app_nil_l. cbn [String.length] in *. lia.
    + cbn [contains] in H. rewrite Hp in H. cbn [orb String.length] in *. specialize (IH H). lia.
Qed.

(** An absolute path below [/bcs] is not [/bcs] itself. *)
Lemma abs_path_app_ne bcs p :
  Forall (fun c => valid_name c = true) bcs -> Forall (fun c => valid_name c = true) p ->
  p <> [] -> abs_path (bcs ++ p) <> abs_path bcs.
Proof.
  intros Hb Hp Hpne Heq. apply (f_equal (OsPath.abs_comps "")) in Heq.
  rewrite !abs_comps_abs_path in Heq by (try apply Forall_app; done).
  apply Hpne. by apply (app_inv_head bcs); rewrite app_nil_r.
Qed.

End PathNames.


Example splitext_pyc : OsPath.splitext "cached.pyc" = ("cached", ".pyc").
Proof. reflexivity. Qed.
Example splitext_dotfile : OsPath.splitext ".swp" = (".swp", "").
Proof. reflexivity. Qed.
Example splitext_vim_swap : OsPath.splitext ".build.py.swp" = (".build.py", ".swp").
Proof. reflexivity. Qed.
Example relpath_under : OsPath.relpath "/r" "/r/a/b.txt" "/r" = "a/b.txt".
Proof. reflexivity. Qed.
Example replace_all : PyStr.replace "/r/x/r/y" "/r/" "" = "xy".
Proof. reflexivity. Qed.
Example split_last_url :
  PyStr.split_last "/" (PyStr.rstrip_char "/" (PyStr.replace "git@github.com:mozilla/secure-proxy.git" ".git" ""))
  = "secure-proxy".
Proof. reflexivity. Qed.
