(* ===== verification/PyRepr.v ===== *)
(** * Python's [repr] of strings and of lists of strings, and its reader

    [check_manifest] formats a list of directories and a list of messages
    with ["{}".format(...)], that is [str(list)], which writes each
    element with [repr].  This file models CPython's [unicode_repr] on
    one-byte characters (code points 0 to 255): the quote is ['] unless
    the string holds ['] and no double quote; the quote and the backslash
    are escaped, tab, newline and carriage return are written [\t], [\n],
    [\r], the other non-printable characters (below 32, 127, 128 to 160
    and 173) as [\xHH] in lower-case hexadecimal.  A list is written
    ["[" + ", ".join(map(repr, l)) + "]"].

    The reader [read_list_repr] parses that text back, and the round trip
    [read_list_repr (list_repr l) = Some l] makes [list_repr] injective:
    an exception message built from it determines the list it shows. *)

From Stdlib Require Import String Ascii.
From stdpp Require Import base list strings.
From S2P Require Import Prelude PyStr.

Local Open Scope string_scope.
Local Open Scope list_scope.

Module PyRepr.

(** The double quote, written by its code. *)
Definition dquote : ascii := "034"%char.
Definition squote : ascii := "'"%char.
Definition backslash : ascii := "\"%char.

Definition hex_digits : string := "0123456789abcdef".

Definition hex_digit (n : nat) : ascii := default "0"%char (String.get n hex_digits).

(** The value of a lower-case hexadecimal digit. *)
Definition hex_val (c : ascii) : nat :=
  let n := nat_of_ascii c in
  (if (48 <=? n) && (n <=? 57) then n - 48 else n - 87)%nat.

(** [Py_UNICODE_ISPRINTABLE] on the code points 0 to 255. *)
Definition printable (c : ascii) : bool :=
  let n := nat_of_ascii c in
  negb ((n <? 32) || (n =? 127) || ((128 <=? n) && (n <=? 160)) || (n =? 173))%nat.

(** [quote = '\''; if "'" in s and '"' not in s: quote = '"'] *)
Definition repr_quote (s : string) : ascii :=
  if PathNames.has_char squote s && negb (PathNames.has_char dquote s) then dquote else squote.

(** The characters [unicode_repr] writes for [c] inside the quotes [q]. *)
Definition escape_char (q c : ascii) : string :=
  let n := nat_of_ascii c in
  if bool_decide (c = q) || bool_decide (c = backslash) then String backslash (String c EmptyString)
  else if bool_decide (c = "009"%char) then "\t"
  else if bool_decide (c = "010"%char) then "\n"
  else if bool_decide (c = "013"%char) then "\r"
  else if printable c then String c EmptyString
  else String backslash (String "x" (String (hex_digit (n / 16)%nat) (String (hex_digit (n mod 16)%nat) EmptyString))).

Fixpoint escape (q : ascii) (s : string) : string :=
  match s with
  | EmptyString => EmptyString
  | String c s' => escape_char q c ++ escape q s'
  end.

(** [repr(s)] *)
Definition repr (s : string) : string :=
  let q := repr_quote s in String q (escape q s ++ String q EmptyString).

(** [str(l)] for a list of strings, [repr] of each element. *)
Definition list_repr (l : list string) : string :=
  "[" ++ String.concat ", " (map repr l) ++ "]".

(** ** The reader *)

Definition unescape (d : ascii) : ascii :=
  if bool_decide (d = "t"%char) then "009"%char
  else if bool_decide (d = "n"%char) then "010"%char
  else if bool_decide (d = "r"%char) then "013"%char
  else d.

(** The body of a quoted string up to its closing quote [q], and what
    follows it. *)
Fixpoint read_body (q : ascii) (s : string) : option (string * string) :=
  match s with
  | EmptyString => None
  | String c s1 =>
      if bool_decide (c = q) then Some (EmptyString, s1)
      else if bool_decide (c = backslash) then
        match s1 with
        | String "x" (String h1 (String h2 s3)) =>
            '(b, r) ← read_body q s3; Some (String (ascii_of_nat (hex_val h1 * 16 + hex_val h2)%nat) b, r)
        | String d s2 => '(b, r) ← read_body q s2; Some (String (unescape d) b, r)
        | EmptyString => None
        end
      else '(b, r) ← read_body q s1; Some (String c b, r)
  end.

Definition read_repr (s : string) : option (string * string) :=
  match s with
  | String q s1 => if bool_decide (q = squote) || bool_decide (q = dquote) then read_body q s1 else None
  | EmptyString => None
  end.

(** The items of a non-empty list: [fuel] bounds their number. *)
Fixpoint read_items (fuel : nat) (s : string) : option (list string) :=
  match fuel with
  | O => None
  | S fuel' =>
      match read_repr s with
      | Some (x, String "]" EmptyString) => Some [x]
      | Some (x, String "," (String " " s')) => xs ← read_items fuel' s'; Some (x :: xs)
      | _ => None
      end
  end.

Definition read_list_repr (s : string) : option (list string) :=
  match s with
  | String o s' =>
      if bool_decide (o = "["%char) then
        if bool_decide (s' = "]") then Some [] else read_items (String.length s') s'
      else None
  | EmptyString => None
  end.

(** ** The round trip *)

(** The two hexadecimal digits of a byte give it back: checked on the 256
    characters. *)
Lemma hex_roundtrip c :
  ascii_of_nat (hex_val (hex_digit (nat_of_ascii c / 16)) * 16 +
                hex_val (hex_digit (nat_of_ascii c mod 16)))%nat = c.
Proof. destruct c as [[] [] [] [] [] [] [] []]; vm_compute; reflexivity. Qed.

Lemma repr_quote_cases s : repr_quote s = squote \/ repr_quote s = dquote.
Proof. unfold repr_quote. destruct (_ && _); auto. Qed.

(** What the reader does after one escaped character. *)
Definition read_cons (c : ascii) (o : option (string * string)) : option (string * string) :=
  '(b, r) ← o; Some (String c b, r).

Lemma read_body_escape_char q c t :
  q = squote \/ q = dquote ->
  read_body q (escape_char q c ++ t) = read_cons c (read_body q t).
Proof.
  intros Hq. unfold escape_char.
  destruct (decide (c = q \/ c = backslash)) as [[->| ->]|Hc].
  - rewrite bool_decide_eq_true_2 by auto. by destruct Hq as [-> | ->].
  - rewrite orb_true_r. by destruct Hq as [-> | ->].
  - rewrite (bool_decide_eq_false_2 (c = q)), (bool_decide_eq_false_2 (c = backslash)) by tauto.
    cbn [orb].
    repeat (case_bool_decide;
            [subst c; destruct Hq as [-> | ->]; autorewrite with xpi_rw; simpl; reflexivity|]).
    assert (backslash <> q) by (destruct Hq as [-> | ->]; done).
    destruct (printable c); autorewrite with xpi_rw; cbn [read_body].
    + rewrite (bool_decide_eq_false_2 (c = q)), (bool_decide_eq_false_2 (c = backslash)) by tauto.
      done.
    + rewrite bool_decide_eq_false_2, bool_decide_eq_true_2 by done.
      by rewrite hex_roundtrip.
Qed.

Lemma read_body_escape q s t :
  q = squote \/ q = dquote ->
  read_body q (escape q s ++ String q t) = Some (s, t).
Proof.
  intros Hq. induction s as [|c s IH]; simpl.
  - by rewrite bool_decide_eq_true_2.
  - by rewrite <- str_app_assoc, read_body_escape_char, IH.
Qed.

Lemma read_repr_app s t : read_repr (repr s ++ t) = Some (s, t).
Proof.
  unfold repr. rewrite str_app_cons, <- str_app_assoc, str_app_cons, str_app_nil_l.
  destruct (repr_quote_cases s) as [Hq|Hq]; rewrite Hq; unfold read_repr;
    [rewrite bool_decide_eq_true_2 by done | rewrite orb_true_r];
    apply read_body_escape; auto.
Qed.

Lemma read_items_concat fuel l :
  l <> [] -> length l <= fuel ->
  read_items fuel (String.concat ", " (map repr l) ++ "]") = Some l.
Proof.
  revert fuel. induction l as [|x [|y l] IH]; intros [|fuel] Hne Hlen; simpl in Hlen; try done || lia.
  - cbn [map String.concat read_items]. by rewrite read_repr_app.
  - cbn [map]. rewrite PathNames.concat_cons2, <- !str_app_assoc. cbn [read_items].
    rewrite read_repr_app, !str_app_cons, str_app_nil_l. cbn beta iota.
    rewrite IH by (done || simpl; lia). done.
Qed.

Lemma repr_length s : 2 <= String.length (repr s).
Proof. unfold repr. cbn [String.length]. rewrite str_length_app. simpl. lia. Qed.

Lemma concat_repr_length l : length l <= String.length (String.concat ", " (map repr l)).
Proof.
  induction l as [|x [|y l] IH]; [simpl; lia| |].
  - cbn [map String.concat length]. pose proof (repr_length x). lia.
  - cbn [map] in IH |- *. rewrite PathNames.concat_cons2, !str_length_app.
    change (String.length ", ") with 2. cbn [length] in IH |- *.
    pose proof (repr_length x). lia.
Qed.

(** Reading back the text [str(l)] of a list of strings gives the list. *)
Lemma read_list_repr_list_repr l : read_list_repr (list_repr l) = Some l.
Proof.
  destruct l as [|x l]; [reflexivity|]. unfold list_repr.
  rewrite str_app_cons, str_app_nil_l. unfold read_list_repr.
  pose proof (concat_repr_length (x :: l)) as Hlen.
  rewrite bool_decide_eq_true_2, bool_decide_eq_false_2 by
    (done || intros Heq; apply (f_equal String.length) in Heq;
            rewrite str_length_app in Heq; simpl in Heq, Hlen; lia).
  apply read_items_concat; [done|]. rewrite str_length_app. lia.
Qed.

(** [str(l)] is injective: its text determines the list. *)
Lemma list_repr_inj l1 l2 : list_repr l1 = list_repr l2 -> l1 = l2.
Proof.
  intros H. apply (f_equal read_list_repr) in H.
  rewrite !read_list_repr_list_repr in H. by injection H.
Qed.

End PyRepr.
