(* ===== verification/PyValue.v ===== *)
(** * Python values decoded from JSON and the dict operations the code uses

    [json.load] produces, and the task-graph engine passes around, nested
    Python values: [None], booleans, numbers, strings, lists and dicts.
    A dict is an association list in insertion order with distinct keys
    (the order [for k in d] visits).  The operations are those the code
    calls: [d.get(k, default)], [d[k]] (raising [KeyError]),
    [d[k] = v], [d.setdefault(k, v)], and iteration.  [json.load] itself
    is a library routine and is an interface here ([JsonDecoder]). *)

From Stdlib Require Import String Ascii ZArith.
From stdpp Require Import base list strings sets.
From S2P Require Import Prelude.

Local Open Scope string_scope.

Module PyValue.

Inductive value : Type :=
| VNone
| VBool (b : bool)
| VNum (z : Z)
| VStr (s : string)
| VList (l : list value)
| VDict (d : list (string * value)).

Definition type_name (v : value) : string :=
  match v with
  | VNone => "NoneType" | VBool _ => "bool" | VNum _ => "int"
  | VStr _ => "str" | VList _ => "list" | VDict _ => "dict"
  end.

Fixpoint dict_lookup (d : list (string * value)) (k : string) : option value :=
  match d with
  | [] => None
  | (k', v) :: d' => if bool_decide (k = k') then Some v else dict_lookup d' k
  end.

(** [d[k] = v]: an existing key keeps its place, a new key goes last. *)
Fixpoint dict_set (d : list (string * value)) (k : string) (v : value) :
    list (string * value) :=
  match d with
  | [] => [(k, v)]
  | (k', v') :: d' =>
      if bool_decide (k = k') then (k', v) :: d' else (k', v') :: dict_set d' k v
  end.

(** [x.get(k, default)]: only a dict has [get]. *)
Definition py_get (x : value) (k : string) (dflt : value) : result py_exc value :=
  match x with
  | VDict d => Ok (default dflt (dict_lookup d k))
  | _ => Err (AttributeError (type_name x) "get")
  end.

(** [for target in x: target.startswith(...)]: a dict yields its keys, a
    list its elements, a string its characters; an element that is not a
    string has no [startswith], and the other values are not iterable. *)
Definition iter_strs (x : value) : result py_exc (list string) :=
  match x with
  | VDict d => Ok d.*1
  | VList l =>
      res_mapM (fun e => match e with
                         | VStr s => Ok s
                         | _ => Err (AttributeError (type_name e) "startswith")
                         end) l
  | VStr s => Ok (map (fun c => String c EmptyString) (list_ascii_of_string s))
  | _ => Err (TypeError (type_name x))
  end.

(** [bool(x)] *)
Definition truthy (x : value) : bool :=
  match x with
  | VNone => false
  | VBool b => b
  | VNum z => negb (Z.eqb z 0)
  | VStr s => negb (bool_decide (s = EmptyString))
  | VList l => negb (bool_decide (l = []))
  | VDict d => negb (bool_decide (d = []))
  end.

(** [d[k]] *)
Definition getitem (d : list (string * value)) (k : string) : result py_exc value :=
  match dict_lookup d k with
  | Some v => Ok v
  | None => Err (KeyError k)
  end.

(** [d.setdefault(k, dflt)]: the value now at [k], and [d]. *)
Definition setdefault (d : list (string * value)) (k : string) (dflt : value) :
    value * list (string * value) :=
  match dict_lookup d k with
  | Some v => (v, d)
  | None => (dflt, dict_set d k dflt)
  end.

(** A value on which a dict method is called. *)
Definition as_dict (x : value) (meth : string) : result py_exc (list (string * value)) :=
  match x with
  | VDict d => Ok d
  | _ => Err (AttributeError (type_name x) meth)
  end.

(** [d.setdefault(k1, {}).setdefault(k2, dflt)]: the inner dict is an
    object held by [d], so the update is seen through [d]. *)
Definition setdefault2 (d : list (string * value)) (k1 k2 : string) (dflt : value) :
    result py_exc (list (string * value)) :=
  let '(v1, d1) := setdefault d k1 (VDict []) in
  match as_dict v1 "setdefault" with
  | Ok inner => Ok (dict_set d1 k1 (VDict (setdefault inner k2 dflt).2))
  | Err e => Err e
  end.

(** A value used where a [str] is required. *)
Definition as_str (x : value) : result py_exc string :=
  match x with
  | VStr s => Ok s
  | _ => Err (TypeError (type_name x))
  end.

(** [x[p1]...[pn]] followed by an operation on the dict reached: the code
    keeps these inner dicts in variables ([env], [run], [extra]) bound to
    the objects inside [d], so an update through them is seen through [d].
    A value on the way that is not a dict raises [err] (a [TypeError] for
    item assignment, an [AttributeError] for a method call). *)
Fixpoint modify_in (d : list (string * value)) (path : list string)
    (f : list (string * value) -> result py_exc (list (string * value)))
    (err : value -> py_exc) : result py_exc (list (string * value)) :=
  match path with
  | [] => f d
  | p :: path' =>
      match dict_lookup d p with
      | None => Err (KeyError p)
      | Some (VDict inner) =>
          match modify_in inner path' f err with
          | Ok inner' => Ok (dict_set d p (VDict inner'))
          | Err e => Err e
          end
      | Some c => Err (err c)
      end
  end.

(** [d[p1]...[pn][k] = v] *)
Definition set_in (d : list (string * value)) (path : list string) (k : string) (v : value) :
    result py_exc (list (string * value)) :=
  modify_in d path (fun inner => Ok (dict_set inner k v)) (fun c => TypeError (type_name c)).

(** [d[p1]...[pn].setdefault(k, dflt)], keeping the dict. *)
Definition setdefault_in (d : list (string * value)) (path : list string) (k : string) (dflt : value) :
    result py_exc (list (string * value)) :=
  modify_in d path (fun inner => Ok (setdefault inner k dflt).2)
    (fun c => AttributeError (type_name c) "setdefault").

(** [d[p1]...[pn].setdefault(k, []).append(item)] *)
Definition append_in (d : list (string * value)) (path : list string) (k : string) (item : value) :
    result py_exc (list (string * value)) :=
  modify_in d path
    (fun inner =>
       let '(l, inner1) := setdefault inner k (VList []) in
       match l with
       | VList items => Ok (dict_set inner1 k (VList (items ++ [item])))
       | _ => Err (AttributeError (type_name l) "append")
       end)
    (fun c => AttributeError (type_name c) "setdefault").

(** The value at [v[p1]...[pn]], when every step is a dict holding the key. *)
Fixpoint lookup_at (v : value) (loc : list string) : option value :=
  match loc with
  | [] => Some v
  | p :: loc' =>
      match v with
      | VDict d => match dict_lookup d p with Some v' => lookup_at v' loc' | None => None end
      | _ => None
      end
  end.

Definition is_dict (o : option value) : bool :=
  match o with Some (VDict _) => true | _ => false end.

Fixpoint is_prefix (l1 l2 : list string) : bool :=
  match l1, l2 with
  | [], _ => true
  | a :: l1', b :: l2' => bool_decide (a = b) && is_prefix l1' l2'
  | _ :: _, [] => false
  end.

Lemma dict_lookup_set_eq d k v : dict_lookup (dict_set d k v) k = Some v.
Proof.
  induction d as [|[k' v'] d IH]; simpl; [by rewrite bool_decide_eq_true_2|].
  case_bool_decide as Hk; simpl; [subst; by rewrite bool_decide_eq_true_2|].
  rewrite bool_decide_eq_false_2 by done. exact IH.
Qed.

Lemma dict_lookup_set_ne d k k' v :
  k' <> k -> dict_lookup (dict_set d k v) k' = dict_lookup d k'.
Proof.
  intros Hne. induction d as [|[k0 v0] d IH]; simpl.
  - by rewrite bool_decide_eq_false_2.
  - case_bool_decide as Hk; simpl; subst.
    + rewrite !bool_decide_eq_false_2 by done. done.
    + case_bool_decide; [done|exact IH].
Qed.

(** [json.load]: the decoder of the standard library, as an interface. *)
Class JsonDecoder := json_load : string -> result py_exc value.

Local Open Scope list_scope.

Lemma modify_in_Ok d path f err d' :
  modify_in d path f err = Ok d' ->
  exists inner inner', lookup_at (VDict d) path = Some (VDict inner) /\ f inner = Ok inner' /\
    forall rest, lookup_at (VDict d') (path ++ rest) = lookup_at (VDict inner') rest.
Proof.
  revert d d'; induction path as [|p path IH]; intros d d'; simpl.
  - intros Hf. by exists d, d'.
  - destruct (dict_lookup d p) as [[]|] eqn:Hp; try done.
    destruct (modify_in _ path f err) as [inner'|] eqn:Hm; [|done].
    intros [= <-]. destruct (IH _ _ Hm) as (i & i' & Hl & Hf & Hr).
    exists i, i'. rewrite dict_lookup_set_eq. auto.
Qed.

Lemma modify_in_disjoint d path f err d' loc :
  modify_in d path f err = Ok d' -> is_prefix path loc = false -> is_prefix loc path = false ->
  lookup_at (VDict d') loc = lookup_at (VDict d) loc.
Proof.
  revert d d' loc; induction path as [|p path IH]; intros d d' [|q loc]; simpl; try done.
  destruct (dict_lookup d p) as [[]|] eqn:Hp; try done.
  destruct (modify_in _ path f err) as [inner'|] eqn:Hm; [|done].
  intros [= <-]. destruct (decide (q = p)) as [->|Hq].
  - rewrite bool_decide_eq_true_2, dict_lookup_set_eq, Hp by done. simpl. by apply IH.
  - by rewrite dict_lookup_set_ne.
Qed.

Lemma modify_in_above d path f err d' loc :
  modify_in d path f err = Ok d' -> is_prefix loc path = true ->
  is_dict (lookup_at (VDict d') loc) = true.
Proof.
  revert d d' loc; induction path as [|p path IH]; intros d d' [|q loc]; simpl; try done.
  destruct (dict_lookup d p) as [[]|] eqn:Hp; try done.
  destruct (modify_in _ path f err) as [inner'|] eqn:Hm; [|done].
  intros [= <-] [Hq%bool_decide_eq_true_1 Hl]%andb_prop; subst q.
  rewrite dict_lookup_set_eq. eauto.
Qed.

Lemma modify_in_total d path f err inner inner' :
  lookup_at (VDict d) path = Some (VDict inner) -> f inner = Ok inner' ->
  exists d', modify_in d path f err = Ok d'.
Proof.
  revert d; induction path as [|p path IH]; intros d; simpl.
  - intros [= ->] ->. eauto.
  - destruct (dict_lookup d p) as [c|]; [|done]. intros Hl Hf.
    destruct c; try (destruct path; simpl in Hl; congruence).
    destruct (IH _ Hl Hf) as [d'' ->]. eauto.
Qed.

(** The reads the lemmas above leave: a key of a dict just written. *)
Lemma dict_lookup_setdefault d k dflt :
  dict_lookup (setdefault d k dflt).2 k = Some (setdefault d k dflt).1.
Proof.
  unfold setdefault. destruct (dict_lookup d k) eqn:Hk; simpl; [done|].
  apply dict_lookup_set_eq.
Qed.

Lemma dict_lookup_setdefault_ne d k k' dflt :
  k' <> k -> dict_lookup (setdefault d k dflt).2 k' = dict_lookup d k'.
Proof.
  unfold setdefault. destruct (dict_lookup d k); simpl; [done|].
  apply dict_lookup_set_ne.
Qed.

Lemma lookup_at_single d k : lookup_at (VDict d) [k] = dict_lookup d k.
Proof. simpl. by destruct (dict_lookup d k). Qed.

Lemma lookup_at_app v l1 l2 :
  lookup_at v (l1 ++ l2) = match lookup_at v l1 with Some v' => lookup_at v' l2 | None => None end.
Proof.
  revert v; induction l1 as [|p l1 IH]; intros [| | | | |d]; simpl; try done.
  destruct (dict_lookup d p); [apply IH|done].
Qed.

Lemma dict_lookup_notin d k : k ∉ map fst d -> dict_lookup d k = None.
Proof.
  induction d as [|[k' v] d IH]; simpl; [done|]. rewrite elem_of_cons. intros Hk.
  rewrite bool_decide_eq_false_2 by naive_solver. naive_solver.
Qed.

Lemma dict_lookup_elem d k : k ∈ map fst d -> exists v, dict_lookup d k = Some v.
Proof.
  induction d as [|[k' v] d IH]; simpl; [set_solver|]. rewrite elem_of_cons.
  case_bool_decide; [eauto|]. intros [->|Hk]; [done|]. by apply IH.
Qed.

Lemma dict_set_same d k v : dict_lookup d k = Some v -> dict_set d k v = d.
Proof.
  induction d as [|[k' v'] d IH]; simpl; [done|].
  case_bool_decide as Hk; [subst; by intros [= ->]|]. intros H. by rewrite IH.
Qed.

(** An update that changes nothing changes nothing. *)
Lemma modify_in_id d path f err inner :
  lookup_at (VDict d) path = Some (VDict inner) -> f inner = Ok inner -> modify_in d path f err = Ok d.
Proof.
  revert d; induction path as [|p path IH]; intros d; simpl.
  - by intros [= ->] ->.
  - destruct (dict_lookup d p) as [c|] eqn:Hp; [|done]. intros Hl Hf.
    destruct c; try (destruct path; simpl in Hl; congruence).
    by rewrite (IH _ Hl Hf), dict_set_same.
Qed.

Lemma setdefault_in_present d path k dflt inner v :
  lookup_at (VDict d) path = Some (VDict inner) -> dict_lookup inner k = Some v ->
  setdefault_in d path k dflt = Ok d.
Proof.
  intros Hl Hk. apply (modify_in_id _ _ _ _ inner Hl). unfold setdefault. by rewrite Hk.
Qed.

Lemma lookup_at_snoc v l k w :
  lookup_at v l = Some (VDict w) -> lookup_at v (l ++ [k]) = dict_lookup w k.
Proof. intros H. rewrite lookup_at_app, H. simpl. by destruct (dict_lookup w k). Qed.

Lemma is_prefix_app l r : is_prefix l (l ++ r) = true.
Proof. induction l; simpl; [done|]. by rewrite bool_decide_eq_true_2. Qed.

Lemma is_prefix_refl l : is_prefix l l = true.
Proof. induction l; simpl; [done|]. by rewrite bool_decide_eq_true_2. Qed.

Lemma is_prefix_true l1 l2 : is_prefix l1 l2 = true -> exists r, l2 = l1 ++ r.
Proof.
  revert l2; induction l1 as [|a l1 IH]; intros [|b l2]; simpl; eauto; [done|].
  intros [Hab%bool_decide_eq_true_1 Hl]%andb_prop. subst b.
  destruct (IH _ Hl) as [r ->]. by exists r.
Qed.

Lemma is_prefix_app_cancel l a b : is_prefix (l ++ a) (l ++ b) = is_prefix a b.
Proof. induction l; simpl; [done|]. by rewrite bool_decide_eq_true_2. Qed.

(** A write below [path] leaves every location outside it alone when the
    update of the inner dict does. *)
Lemma modify_in_frame d path f err d' loc :
  modify_in d path f err = Ok d' -> is_prefix loc path = false ->
  (forall inner inner' rest, f inner = Ok inner' -> loc = path ++ rest ->
     lookup_at (VDict inner') rest = lookup_at (VDict inner) rest) ->
  lookup_at (VDict d') loc = lookup_at (VDict d) loc.
Proof.
  intros Hm Hl Hf. destruct (is_prefix path loc) eqn:Hp; [|by eapply modify_in_disjoint].
  destruct (is_prefix_true _ _ Hp) as [rest ->].
  destruct (modify_in_Ok _ _ _ _ _ Hm) as (inner & inner' & Hi & Hfi & Hr).
  rewrite Hr, lookup_at_app, Hi. eauto.
Qed.

Lemma lookup_at_dict_set inner k v rest :
  is_prefix [k] rest = false -> rest <> [] ->
  lookup_at (VDict (dict_set inner k v)) rest = lookup_at (VDict inner) rest.
Proof.
  destruct rest as [|q r]; [done|]. simpl. rewrite andb_true_r. intros Hq _.
  rewrite dict_lookup_set_ne; [done|]. intros ->. by rewrite bool_decide_eq_true_2 in Hq.
Qed.

Lemma set_in_frame d path k v d' loc :
  set_in d path k v = Ok d' -> is_prefix (path ++ [k]) loc = false -> is_prefix loc path = false ->
  lookup_at (VDict d') loc = lookup_at (VDict d) loc.
Proof.
  intros Hm Hk Hl. apply (modify_in_frame _ _ _ _ _ _ Hm Hl).
  intros inner inner' rest [= <-] ->. rewrite is_prefix_app_cancel in Hk.
  apply lookup_at_dict_set; [done|]. intros ->. by rewrite app_nil_r, is_prefix_refl in Hl.
Qed.

Lemma setdefault_in_frame d path k d' loc :
  setdefault_in d path k (VDict []) = Ok d' -> is_prefix loc (path ++ [k]) = false ->
  lookup_at (VDict d') loc = lookup_at (VDict d) loc.
Proof.
  intros Hm Hl. apply (modify_in_frame _ _ _ _ _ _ Hm).
  { destruct (is_prefix loc path) eqn:Hp; [|done].
    destruct (is_prefix_true _ _ Hp) as [r ->]. by rewrite <-app_assoc, is_prefix_app in Hl. }
  intros inner inner' [|q r] [= <-] ->; [by rewrite app_nil_r, is_prefix_app in Hl|].
  rewrite is_prefix_app_cancel in Hl. simpl.
  destruct (decide (q = k)) as [->|Hq]; [|by rewrite dict_lookup_setdefault_ne].
  destruct r as [|r0 r]; [simpl in Hl; by rewrite bool_decide_eq_true_2 in Hl|].
  rewrite dict_lookup_setdefault. unfold setdefault.
  destruct (dict_lookup inner k); simpl; [done|]. by destruct r.
Qed.

Lemma append_in_frame d path k item d' loc :
  append_in d path k item = Ok d' -> is_prefix (path ++ [k]) loc = false -> is_prefix loc path = false ->
  lookup_at (VDict d') loc = lookup_at (VDict d) loc.
Proof.
  intros Hm Hk Hl. apply (modify_in_frame _ _ _ _ _ _ Hm Hl).
  intros inner inner' rest Hf ->. rewrite is_prefix_app_cancel in Hk.
  destruct rest as [|q r]; [by rewrite app_nil_r, is_prefix_refl in Hl|].
  simpl in Hk |- *. rewrite andb_true_r in Hk.
  assert (q <> k) by (intros ->; by rewrite bool_decide_eq_true_2 in Hk).
  unfold setdefault in Hf. destruct (dict_lookup inner k) as [l|] eqn:Hik; simpl in Hf.
  - destruct l; try done. injection Hf as <-. by rewrite dict_lookup_set_ne.
  - injection Hf as <-. rewrite !dict_lookup_set_ne; done.
Qed.

(** What the three writes put at their place. *)
Lemma set_in_eq d path k v d' loc :
  set_in d path k v = Ok d' -> loc = path ++ [k] -> lookup_at (VDict d') loc = Some v.
Proof.
  intros (inner & inner' & _ & [= <-] & Hr)%modify_in_Ok ->.
  rewrite Hr. simpl. by rewrite dict_lookup_set_eq.
Qed.

Definition dict_or_absent (o : option value) : bool :=
  match o with None | Some (VDict _) => true | _ => false end.

Definition list_or_absent (o : option value) : bool :=
  match o with None | Some (VList _) => true | _ => false end.

(** The items of the list at a place, [[]] where there is none. *)
Definition list_items (o : option value) : list value :=
  match o with Some (VList l) => l | _ => [] end.

Lemma setdefault_in_dict d path k d' loc :
  setdefault_in d path k (VDict []) = Ok d' -> loc = path ++ [k] ->
  dict_or_absent (lookup_at (VDict d) loc) = true ->
  is_dict (lookup_at (VDict d') loc) = true.
Proof.
  intros Hm ->. destruct (modify_in_Ok _ _ _ _ _ Hm) as (inner & inner' & Hi & [= <-] & Hr).
  rewrite Hr, lookup_at_app, Hi. simpl. rewrite dict_lookup_setdefault.
  unfold setdefault. destruct (dict_lookup inner k) as [[]|]; simpl; done.
Qed.

Lemma append_in_eq d path k item d' loc :
  append_in d path k item = Ok d' -> loc = path ++ [k] ->
  lookup_at (VDict d') loc = Some (VList (list_items (lookup_at (VDict d) loc) ++ [item])).
Proof.
  intros Hm ->. destruct (modify_in_Ok _ _ _ _ _ Hm) as (inner & inner' & Hi & Hf & Hr).
  rewrite Hr, lookup_at_app, Hi. simpl. unfold setdefault in Hf.
  destruct (dict_lookup inner k) as [l|] eqn:Hik; simpl in Hf.
  - destruct l; try done. injection Hf as <-. by rewrite dict_lookup_set_eq.
  - injection Hf as <-. rewrite dict_lookup_set_eq. done.
Qed.

(** When each operation succeeds. *)
Lemma set_in_total d path k v :
  is_dict (lookup_at (VDict d) path) = true -> exists d', set_in d path k v = Ok d'.
Proof.
  destruct (lookup_at (VDict d) path) as [[| | | | |inner]|] eqn:Hl; try done.
  intros _. by eapply modify_in_total.
Qed.

Lemma setdefault_in_total d path k dflt :
  is_dict (lookup_at (VDict d) path) = true -> exists d', setdefault_in d path k dflt = Ok d'.
Proof.
  destruct (lookup_at (VDict d) path) as [[| | | | |inner]|] eqn:Hl; try done.
  intros _. by eapply modify_in_total.
Qed.

Lemma append_in_total d path k item :
  is_dict (lookup_at (VDict d) path) = true ->
  list_or_absent (lookup_at (VDict d) (path ++ [k])) = true ->
  exists d', append_in d path k item = Ok d'.
Proof.
  rewrite lookup_at_app.
  destruct (lookup_at (VDict d) path) as [[| | | | |inner]|] eqn:Hl; try done.
  intros _ Hk. simpl in Hk.
  destruct (dict_lookup inner k) as [[]|] eqn:Hik; try done;
    (eapply modify_in_total; [done|]); unfold setdefault; rewrite Hik; simpl; done.
Qed.

Lemma is_prefix_cons_eq a l l' : is_prefix (a :: l) (a :: l') = is_prefix l l'.
Proof. simpl. by rewrite bool_decide_eq_true_2. Qed.

(** A read below a place just written reads the value written. *)
Lemma set_in_under d path k v d' loc rest :
  set_in d path k v = Ok d' -> loc = path ++ k :: rest -> lookup_at (VDict d') loc = lookup_at v rest.
Proof.
  intros (inner & inner' & _ & [= <-] & Hr)%modify_in_Ok ->.
  rewrite Hr. simpl. by rewrite dict_lookup_set_eq.
Qed.

Lemma setdefault_in_eq d path k dflt d' loc :
  setdefault_in d path k dflt = Ok d' -> loc = path ++ [k] ->
  lookup_at (VDict d') loc = Some (default dflt (lookup_at (VDict d) loc)).
Proof.
  intros Hm ->. destruct (modify_in_Ok _ _ _ _ _ Hm) as (inner & inner' & Hi & [= <-] & Hr).
  rewrite Hr, lookup_at_app, Hi. simpl. rewrite dict_lookup_setdefault.
  unfold setdefault. by destruct (dict_lookup inner k).
Qed.

Lemma setdefault_in_frame_any d path k dflt d' loc :
  setdefault_in d path k dflt = Ok d' -> is_prefix (path ++ [k]) loc = false -> is_prefix loc path = false ->
  lookup_at (VDict d') loc = lookup_at (VDict d) loc.
Proof.
  intros Hm Hk Hl. apply (modify_in_frame _ _ _ _ _ _ Hm Hl).
  intros inner inner' rest [= <-] ->. rewrite is_prefix_app_cancel in Hk.
  destruct rest as [|q r]; [by rewrite app_nil_r, is_prefix_refl in Hl|].
  simpl in Hk |- *. rewrite andb_true_r in Hk.
  rewrite dict_lookup_setdefault_ne; [done|]. intros ->. by rewrite bool_decide_eq_true_2 in Hk.
Qed.

Lemma is_prefix_cons_ne a b l l' : a <> b -> is_prefix (a :: l) (b :: l') = false.
Proof. intros. simpl. by rewrite bool_decide_eq_false_2. Qed.

(** Side conditions on concrete places, or on a place whose first key is
    known to differ. *)
Ltac prefix_solver :=
  cbn [app]; repeat rewrite is_prefix_cons_eq;
  first [ reflexivity
        | apply is_prefix_cons_ne; intros ?; subst; set_solver
        | apply is_prefix_cons_ne; congruence ].

Lemma is_dict_dict_or_absent o : is_dict o = true -> dict_or_absent o = true.
Proof. by destruct o as [[]|]. Qed.

Ltac above_step H loc :=
  first [ apply (modify_in_above _ _ _ _ _ loc H); reflexivity
        | apply is_dict_dict_or_absent; apply (modify_in_above _ _ _ _ _ loc H); reflexivity ].

(** Read a place of the last dict of a chain of writes: step back over
    every write that leaves it alone, stop at the write that made it. *)
Ltac lookup_step :=
  match goal with
  | H : set_in ?d ?p ?k ?v = Ok ?d' |- context [lookup_at (VDict ?d') ?loc] =>
      first [ rewrite (set_in_eq d p k v d' loc H) by reflexivity
            | rewrite (set_in_under d p k v d' loc _ H eq_refl)
            | rewrite (set_in_frame d p k v d' loc H) by prefix_solver
            | above_step H loc ]
  | H : setdefault_in ?d ?p ?k ?dflt = Ok ?d' |- context [lookup_at (VDict ?d') ?loc] =>
      first [ rewrite (setdefault_in_frame d p k d' loc H) by prefix_solver
            | rewrite (setdefault_in_frame_any d p k dflt d' loc H) by prefix_solver
            | apply (setdefault_in_dict d p k d' loc H); [reflexivity|]
            | above_step H loc
            | rewrite (setdefault_in_eq d p k dflt d' loc H) by reflexivity ]
  | H : append_in ?d ?p ?k ?i = Ok ?d' |- context [lookup_at (VDict ?d') ?loc] =>
      first [ rewrite (append_in_eq d p k i d' loc H) by reflexivity
            | rewrite (append_in_frame d p k i d' loc H) by prefix_solver
            | above_step H loc ]
  end.

Ltac lookup_back := repeat lookup_step.

End PyValue.
