(* ===== verification/Walk.v ===== *)
(** * The checkout as a directory tree, [os.walk], and directory pruning

    [cached.list_files] and [xpi_manifest.get_manifest] both walk a tree
    with [os.walk(top)] (top-down) and prune it by removing names from the
    [subdir_list] the generator yields, inside a [for] loop over that same
    list.  This file models
    - the file system as a tree of named entries ([Fs.node]);
    - the pruning loop [for dir_ in subdir_list: if dir_ in IGNORE:
      subdir_list.remove(dir_); continue] exactly as CPython runs it: a
      list iterator holds an index, and removing the current element
      shifts the next one under the index, so it is never examined; one
      iteration is the step relation [loop_step], whose runs all
      terminate, and the loop to its exit is [remove_while_iterating];
    - [os.walk] as the list of triples [(dirpath, dirnames, filenames)] it
      yields, recursing into the names the consumer left in [dirnames]
      (a generator whose consumer mutates the yielded list: the consumer's
      mutation is the [prune] argument), with fuel bounded by the tree
      height. *)

From Stdlib Require Import String Ascii.
From stdpp Require Import base list strings sets relations well_founded.
From S2P Require Import Prelude PyStr.

Local Open Scope string_scope.
Local Open Scope list_scope.

Module Fs.

(** A directory entry is a regular file with its content, or a directory
    with its entries in [os.listdir] order.  Symbolic links are not
    modelled. *)
Inductive node : Type :=
| File (content : string)
| Dir (entries : list (string * node)).

Fixpoint height (n : node) : nat :=
  match n with
  | File _ => 0
  | Dir es => S (list_max (map (fun e => height e.2) es))
  end.

(** [os.walk] splits a listing into sub-directories and other files. *)
Definition dirnames (es : list (string * node)) : list string :=
  omap (fun e => match e.2 with Dir _ => Some e.1 | File _ => None end) es.

Definition filenames (es : list (string * node)) : list string :=
  omap (fun e => match e.2 with File _ => Some e.1 | Dir _ => None end) es.

Fixpoint lookup_entry (x : string) (es : list (string * node)) : option node :=
  match es with
  | [] => None
  | (y, n) :: es' => if bool_decide (x = y) then Some n else lookup_entry x es'
  end.

Fixpoint lookup_path (n : node) (p : list string) : option node :=
  match p with
  | [] => Some n
  | x :: p' =>
      match n with
      | Dir es => match lookup_entry x es with
                  | Some c => lookup_path c p'
                  | None => None
                  end
      | File _ => None
      end
  end.

(** The file system seen from the process: [root] is [/] and [cwd] is
    [os.getcwd()]; a path resolves through its normalised components. *)
Definition resolve (root : node) (cwd p : string) : option node :=
  lookup_path root (OsPath.abs_comps cwd p).

(** [os.path.exists(p)] *)
Definition exists_path (root : node) (cwd p : string) : bool :=
  match resolve root cwd p with Some _ => true | None => false end.

(** [open(p).read()] *)
Definition read_file (root : node) (cwd p : string) : result py_exc string :=
  match resolve root cwd p with
  | Some (File c) => Ok c
  | _ => Err (OSError p)
  end.

(** Well-formed trees: every listing has distinct, valid names. *)
Fixpoint wf (n : node) : bool :=
  match n with
  | File _ => true
  | Dir es =>
      bool_decide (NoDup es.*1) && forallb (fun e => PathNames.valid_name e.1) es &&
      foldr (fun e b => wf e.2 && b) true es
  end.

Lemma wf_dir es :
  wf (Dir es) = true <->
  NoDup es.*1 /\ Forall (fun e => PathNames.valid_name e.1 = true) es /\
  foldr (fun e b => wf e.2 && b) true es = true.
Proof.
  simpl. rewrite !andb_true_iff, bool_decide_eq_true, forallb_forall, Forall_forall.
  setoid_rewrite list_elem_of_In. tauto.
Qed.

(** [os.walk]'s directory names are among the listing's names, so a
    listing of distinct names gives distinct directory names. *)
Lemma dirnames_NoDup es : NoDup es.*1 -> NoDup (dirnames es).
Proof.
  intros Hnd. apply (sublist_NoDup _ _ Hnd). clear Hnd.
  induction es as [|[x [c|es1]] es IH]; cbn [dirnames omap fmap list_fmap fst snd] in *.
  - done.
  - by apply sublist_cons.
  - by apply sublist_skip.
Qed.

End Fs.

Module Prune.

(** [lst.remove(x)]: drop the first occurrence ([ValueError] when [x] is
    absent cannot arise below, where [x] was just read from the list). *)
Fixpoint remove_first (x : string) (l : list string) : list string :=
  match l with
  | [] => []
  | y :: l' => if bool_decide (x = y) then l' else y :: remove_first x l'
  end.

(** The iteration of [for dir_ in subdir_list] with the index [i] of the
    list iterator; [fuel] bounds the number of iterations. *)
Fixpoint remove_while_iterating_fuel (ignored : string -> bool)
    (fuel i : nat) (l : list string) : list string :=
  match fuel with
  | O => l
  | S fuel' =>
      match l !! i with
      | None => l
      | Some d =>
          if ignored d
          then remove_while_iterating_fuel ignored fuel' (S i) (remove_first d l)
          else remove_while_iterating_fuel ignored fuel' (S i) l
      end
  end.

(** The loop runs at most [length l] times: the index grows by one per
    iteration and the list never grows. *)
Definition remove_while_iterating (ignored : string -> bool) (l : list string) :
    list string :=
  remove_while_iterating_fuel ignored (length l) 0 l.

(** What the loop computes, as a structural recursion: an ignored name is
    dropped and the name after it is kept without being examined. *)
Fixpoint skip_after_remove (ignored : string -> bool) (l : list string) : list string :=
  match l with
  | [] => []
  | d :: r =>
      if ignored d
      then match r with
           | [] => []
           | d' :: r' => d' :: skip_after_remove ignored r'
           end
      else d :: skip_after_remove ignored r
  end.

(** One iteration of [for dir_ in subdir_list] as CPython runs it, on the
    state [(i, l)] of the list iterator's index and of the list: read
    [l[i]] (the loop exits when [i] is past the end), remove it with
    [subdir_list.remove(dir_)] when it is ignored, and advance the index. *)
Inductive loop_step (ignored : string -> bool) : nat * list string -> nat * list string -> Prop :=
| loop_remove i l d :
    l !! i = Some d -> ignored d = true -> loop_step ignored (i, l) (S i, remove_first d l)
| loop_keep i l d :
    l !! i = Some d -> ignored d = false -> loop_step ignored (i, l) (S i, l).

Section PruneLemmas.
Variable ignored : string -> bool.

Lemma remove_first_app_notin x pre suf :
  x ∉ pre -> remove_first x (pre ++ x :: suf) = pre ++ suf.
Proof.
  induction pre as [|y pre IH]; intros Hx; simpl.
  - by rewrite bool_decide_eq_true_2.
  - rewrite bool_decide_eq_false_2 by set_solver. f_equal. apply IH. set_solver.
Qed.

Lemma length_remove_first x l : length (remove_first x l) <= length l.
Proof. induction l as [|y l IH]; simpl; [lia|]. case_bool_decide; simpl; lia. Qed.

Lemma remove_while_iterating_past fuel i l :
  length l <= i -> remove_while_iterating_fuel ignored fuel i l = l.
Proof.
  intros H. destruct fuel; simpl; [done|]. by rewrite lookup_ge_None_2.
Qed.

(** Termination: once the fuel covers the list, more fuel changes
    nothing, so [length l] iterations suffice. *)
Lemma remove_while_iterating_fuel_irrel f1 f2 i l :
  length l <= i + f1 -> length l <= i + f2 ->
  remove_while_iterating_fuel ignored f1 i l = remove_while_iterating_fuel ignored f2 i l.
Proof.
  revert f2 i l; induction f1 as [|f1 IH]; intros f2 i l H1 H2.
  - by rewrite (remove_while_iterating_past f2) by lia.
  - destruct f2 as [|f2].
    + by rewrite (remove_while_iterating_past (S f1)) by lia.
    + simpl. destruct (l !! i) as [d|] eqn:Hd; [|done].
      pose proof (length_remove_first d l).
      destruct (ignored d); apply IH; lia.
Qed.

Lemma remove_while_iterating_invariant fuel pre suf :
  NoDup (pre ++ suf) -> length suf <= fuel ->
  remove_while_iterating_fuel ignored fuel (length pre) (pre ++ suf) =
  pre ++ skip_after_remove ignored suf.
Proof.
  revert pre suf; induction fuel as [|fuel IH]; intros pre suf Hnd Hlen.
  - destruct suf; [reflexivity | simpl in Hlen; lia].
  - destruct suf as [|d r]; simpl.
    { rewrite app_nil_r, lookup_ge_None_2 by lia. done. }
    rewrite list_lookup_middle by done. simpl in Hlen.
    apply NoDup_app in Hnd as (Hpre & Hdis & Hsuf).
    destruct (ignored d).
    + rewrite remove_first_app_notin by (intros Hin; apply (Hdis d); set_solver).
      destruct r as [|d' r'].
      * rewrite app_nil_r. apply remove_while_iterating_past. lia.
      * replace (S (length pre)) with (length (pre ++ [d'])) by (rewrite length_app; simpl; lia).
        replace (pre ++ d' :: r') with ((pre ++ [d']) ++ r') by by rewrite <- app_assoc.
        rewrite IH; [by rewrite <- app_assoc| |simpl in Hlen; lia].
        rewrite <- app_assoc. apply NoDup_app. inversion Hsuf; subst.
        repeat split; [done| |by inversion H2].
        intros x Hx1 Hx2. apply (Hdis x); set_solver.
    + replace (S (length pre)) with (length (pre ++ [d])) by (rewrite length_app; simpl; lia).
      replace (pre ++ d :: r) with ((pre ++ [d]) ++ r) by by rewrite <- app_assoc.
      rewrite IH; [by rewrite <- app_assoc| |lia].
      rewrite <- app_assoc. by apply NoDup_app.
Qed.

(** Adjacent ignored names: the pattern under which the loop keeps an
    ignored name. *)
Fixpoint adjacent_ignored (l : list string) : bool :=
  match l with
  | d :: ((d' :: _) as r) => (ignored d && ignored d') || adjacent_ignored r
  | _ => false
  end.

(** C11: The index loop computes [skip_after_remove] on a listing without
    duplicate names. *)
Lemma remove_while_iterating_skip l :
  NoDup l -> remove_while_iterating ignored l = skip_after_remove ignored l.
Proof.
  intros Hnd. unfold remove_while_iterating.
  apply (remove_while_iterating_invariant (length l) [] l); [done|lia].
Qed.

(** Without two adjacent ignored names the loop is the intended filter:
    exactly the names that are not ignored, in order. *)
Lemma skip_after_remove_filter l :
  adjacent_ignored l = false ->
  skip_after_remove ignored l = List.filter (fun d => negb (ignored d)) l.
Proof.
  induction l as [|d r IH]; intros Hadj; [done|].
  destruct r as [|d' r']; [simpl; by destruct (ignored d)|].
  cbn [adjacent_ignored] in Hadj. apply orb_false_iff in Hadj as [Hdd' Hr].
  specialize (IH Hr). cbn [skip_after_remove List.filter] in *.
  destruct (ignored d) eqn:Hd; simpl.
  - simpl in Hdd'. rewrite Hdd' in IH |- *. exact IH.
  - f_equal. exact IH.
Qed.

(** C16: Without two adjacent ignored names, the remove-while-iterating loop
    on a listing of distinct names prunes as intended: it keeps exactly
    the names that are not ignored, in order. *)
Theorem remove_while_iterating_filter l :
  NoDup l -> adjacent_ignored l = false ->
  remove_while_iterating ignored l = List.filter (fun d => negb (ignored d)) l.
Proof.
  intros Hnd Hadj. unfold remove_while_iterating.
  pose proof (remove_while_iterating_invariant (length l) [] l Hnd ltac:(lia)) as Hinv.
  simpl in Hinv. rewrite Hinv. by apply skip_after_remove_filter.
Qed.

Lemma skip_after_remove_subseteq l x : x ∈ skip_after_remove ignored l -> x ∈ l.
Proof.
  cut (forall l, (forall x, x ∈ skip_after_remove ignored l -> x ∈ l) /\
                 (forall x, x ∈ skip_after_remove ignored (tail l) -> x ∈ tail l));
    [naive_solver|].
  clear l x. intros l. induction l as [|d r [IH1 IH2]]; [simpl; set_solver|].
  split; [|exact IH1]. intros x. simpl.
  destruct (ignored d); [|set_solver]. destruct r as [|d' r']; [set_solver|].
  simpl in IH2. set_solver.
Qed.

Lemma skip_after_remove_app_kept pre x :
  Forall (fun d => ignored d = false) pre ->
  skip_after_remove ignored (pre ++ x) = pre ++ skip_after_remove ignored x.
Proof. induction 1 as [|d pre Hd _ IH]; [done|]. simpl. by rewrite Hd, IH. Qed.

(** On a listing of distinct names, the name right after the first
    ignored one survives the loop, ignored or not. *)
Lemma remove_while_iterating_keeps_next pre d d' suf :
  NoDup (pre ++ d :: d' :: suf) -> Forall (fun x => ignored x = false) pre -> ignored d = true ->
  d' ∈ remove_while_iterating ignored (pre ++ d :: d' :: suf).
Proof.
  intros Hnd Hpre Hd. unfold remove_while_iterating.
  pose proof (remove_while_iterating_invariant (length (pre ++ d :: d' :: suf)) [] _ Hnd
                ltac:(lia)) as Hinv.
  cbn [app length] in Hinv. rewrite Hinv, skip_after_remove_app_kept by done.
  cbn [skip_after_remove]. rewrite Hd. set_solver.
Qed.


Lemma loop_step_det s s1 s2 : loop_step ignored s s1 -> loop_step ignored s s2 -> s1 = s2.
Proof. intros H1 H2. destruct H1; inversion H2; simplify_eq; done || congruence. Qed.

(** The loop exits exactly when the index is past the end of the list. *)
Lemma loop_step_nf i l : nf (loop_step ignored) (i, l) <-> length l <= i.
Proof.
  split.
  - intros Hnf. destruct (l !! i) as [d|] eqn:Hd; [|by apply lookup_ge_None_1].
    destruct Hnf. destruct (ignored d) eqn:Hi; eexists; [by eapply loop_remove|by eapply loop_keep].
  - intros Hlen [s Hs]. inversion Hs as [? ? d Hd|? ? d Hd]; subst;
      by rewrite lookup_ge_None_2 in Hd.
Qed.

(** The variant: what is left of the list past the index shrinks. *)
Lemma loop_step_measure s s' : loop_step ignored s s' -> length s'.2 - s'.1 < length s.2 - s.1.
Proof.
  destruct 1 as [i l d Hd _|i l d Hd _]; simpl; apply lookup_lt_Some in Hd;
    [pose proof (length_remove_first d l)|]; lia.
Qed.

Lemma loop_step_wf : well_founded (flip (loop_step ignored)).
Proof.
  apply (wf_projected lt (fun s => length s.2 - s.1)); [|exact lt_wf].
  intros ?? H. by apply loop_step_measure.
Qed.

(** The fuel-bounded function runs the iterations: with fuel enough for
    the list, it stops at an exit state reached by [loop_step]. *)
Lemma remove_while_iterating_fuel_steps fuel i l :
  length l <= i + fuel ->
  exists j, rtc (loop_step ignored) (i, l) (j, remove_while_iterating_fuel ignored fuel i l) /\
            (length (remove_while_iterating_fuel ignored fuel i l) <= j /\ j <= i + fuel).
Proof.
  revert i l; induction fuel as [|fuel IH]; intros i l Hlen; simpl.
  - exists i. split; [done|lia].
  - destruct (l !! i) as [d|] eqn:Hd.
    + pose proof (length_remove_first d l). destruct (ignored d) eqn:Hi.
      * destruct (IH (S i) (remove_first d l)) as (j & Hr & Hb); [lia|].
        exists j. split; [|lia]. eapply rtc_l; [by eapply loop_remove|exact Hr].
      * destruct (IH (S i) l) as (j & Hr & Hb); [lia|].
        exists j. split; [|lia]. eapply rtc_l; [by eapply loop_keep|exact Hr].
    + exists i. apply lookup_ge_None_1 in Hd. split; [done|lia].
Qed.

(** C20: Termination of the pruning loop: from its start on a listing of
    distinct names, every run of iterations is finite (they form a
    well-founded relation, with variant [length l - i]); the loop stops
    after at most [length l] iterations with the list
    [skip_after_remove l], each ignored name removed and the name after
    it left unexamined, and every run that stops ends in that state,
    since an iteration is deterministic. *)
Theorem remove_while_iterating_terminates l :
  NoDup l ->
  Acc (flip (loop_step ignored)) (0, l) /\
  exists n, n <= length l /\
    rtc (loop_step ignored) (0, l) (n, skip_after_remove ignored l) /\
    forall s, rtc (loop_step ignored) (0, l) s -> nf (loop_step ignored) s ->
      s = (n, skip_after_remove ignored l).
Proof.
  intros Hnd. split; [apply loop_step_wf|].
  pose proof (remove_while_iterating_invariant (length l) [] l Hnd ltac:(lia)) as Hinv.
  cbn [app length] in Hinv.
  destruct (remove_while_iterating_fuel_steps (length l) 0 l) as (n & Hr & Hb); [lia|].
  rewrite Hinv in Hr, Hb. exists n. split; [lia|]. split; [done|]. intros s Hs Hnf.
  apply (rtc_det_nf _ loop_step_det _ _ _ Hs Hr Hnf). apply loop_step_nf. lia.
Qed.


End PruneLemmas.

End Prune.

Module Walk.
Import Fs.

Section Walk.
(** The consumer's mutation of the [dirnames] list it receives. *)
Variable prune : list string -> list string.

(** [os.walk(top)] below a directory with entries [es], top-down: yield
    [(top, dirnames, filenames)], then walk each name the consumer left. *)
Fixpoint walk_fuel (fuel : nat) (top : string) (es : list (string * node)) :
    list (string * list string * list string) :=
  match fuel with
  | O => []
  | S fuel' =>
      (top, dirnames es, filenames es) ::
      flat_map (fun d =>
                  match lookup_entry d es with
                  | Some (Dir es') => walk_fuel fuel' (OsPath.join2 top d) es'
                  | _ => []
                  end) (prune (dirnames es))
  end.

(** [os.walk(top)]: nothing when [top] is not a directory (the
    [scandir] error is ignored, as [onerror] is [None]). *)
Definition os_walk (root : node) (cwd top : string) :
    list (string * list string * list string) :=
  match resolve root cwd top with
  | Some (Dir es) => walk_fuel (S (height (Dir es))) top es
  | _ => []
  end.

Lemma lookup_entry_In d es c : lookup_entry d es = Some c -> In (d, c) es.
Proof.
  induction es as [|[y n] es IH]; simpl; [done|].
  case_bool_decide; [intros [= <-]; subst; by left | intros; right; by apply IH].
Qed.

Lemma lookup_entry_height d es c :
  lookup_entry d es = Some c -> height c < height (Dir es).
Proof.
  intros Hl%lookup_entry_In. simpl. apply Nat.lt_succ_r.
  assert (Hmax := proj1 (list_max_le (map (fun e => height e.2) es) _) (Nat.le_refl _)).
  rewrite Forall_forall in Hmax. apply Hmax, list_elem_of_In, in_map_iff. by exists (d, c).
Qed.

(** Termination of the walk: any fuel above the height of the tree gives
    the same triples. *)
Lemma walk_fuel_irrel f1 f2 top es :
  height (Dir es) < f1 -> height (Dir es) < f2 ->
  walk_fuel f1 top es = walk_fuel f2 top es.
Proof.
  revert f2 top es; induction f1 as [|f1 IH]; intros [|f2] top es H1 H2; try lia.
  simpl. f_equal. apply flat_map_ext. intros d.
  destruct (lookup_entry d es) as [[|es']|] eqn:Hd; try done.
  apply lookup_entry_height in Hd. apply IH; lia.
Qed.

(** The directories the walk enters: [reach es p es'] when the path [p]
    leads from the listing [es] to the listing [es'] through names the
    consumer did not prune. *)
Inductive reach : list (string * node) -> list string -> list (string * node) -> Prop :=
| reach_here es : reach es [] es
| reach_step es d es1 p es' :
    In d (prune (dirnames es)) -> lookup_entry d es = Some (Dir es1) ->
    reach es1 p es' -> reach es (d :: p) es'.

Lemma walk_fuel_reach f top es t ds fs :
  height (Dir es) < f ->
  In (t, ds, fs) (walk_fuel f top es) <->
  exists p es', reach es p es' /\ t = OsPath.join top p /\
                ds = dirnames es' /\ fs = filenames es'.
Proof.
  intros Hf. split.
  - revert top es Hf. induction f as [|f IH]; intros top es Hf; [lia|].
    simpl. intros [[= <- <- <-]|Hin]; [exists [], es; repeat split; constructor|].
    apply in_flat_map in Hin as (d & Hd & Hin).
    destruct (lookup_entry d es) as [[|es1]|] eqn:Hl; try done.
    pose proof (lookup_entry_height _ _ _ Hl).
    apply IH in Hin as (p & es' & Hr & -> & -> & ->); [|lia].
    exists (d :: p), es'. repeat split. econstructor; eauto.
  - intros (p & es' & Hr & -> & -> & ->). revert f top Hf.
    induction Hr as [es|es d es1 p es' Hd Hl Hr IH]; intros [|f] top Hf; try lia.
    + by left.
    + right. apply in_flat_map. exists d. split; [done|]. rewrite Hl.
      apply IH. pose proof (lookup_entry_height _ _ _ Hl). lia.
Qed.

Lemma lookup_entry_wf d es c :
  foldr (fun e b => wf e.2 && b) true es = true -> lookup_entry d es = Some c -> wf c = true.
Proof.
  induction es as [|[y n] es IH]; simpl; [done|]. intros [Hn Hes]%andb_true_iff.
  case_bool_decide; [by intros [= <-] | by apply IH].
Qed.

(** The names along a walked path are valid directory names, and the
    listing reached is again well formed. *)
Lemma reach_wf es p es' :
  wf (Dir es) = true -> reach es p es' ->
  Forall (fun c => PathNames.valid_name c = true) p /\ wf (Dir es') = true.
Proof.
  intros Hwf Hr. induction Hr as [es|es d es1 p es' Hd Hl Hr IH]; [done|].
  apply wf_dir in Hwf as (Hnd & Hval & Hsub).
  destruct IH as [Hp Hwf']; [by eapply lookup_entry_wf|]. split; [|done].
  constructor; [|done]. apply lookup_entry_In in Hl.
  rewrite Forall_forall in Hval. apply (Hval (d, Dir es1)). by apply list_elem_of_In.
Qed.

(** A reached directory's child that the pruning left is reached. *)
Lemma reach_snoc es p es' d es1 :
  reach es p es' -> In d (prune (dirnames es')) -> lookup_entry d es' = Some (Dir es1) ->
  reach es (p ++ [d]) es1.
Proof.
  induction 1 as [es|es d0 es0 p es' Hin Hl Hr IH]; intros Hd Hes1; simpl.
  - econstructor; [exact Hd|exact Hes1|constructor].
  - econstructor; [exact Hin|exact Hl|]. by apply IH.
Qed.


Lemma filenames_valid es f :
  Forall (fun e => PathNames.valid_name e.1 = true) es -> In f (filenames es) ->
  PathNames.valid_name f = true.
Proof.
  intros Hval Hf. unfold filenames in Hf. apply list_elem_of_In, list_elem_of_omap in Hf as ([x n] & Hx & Hn).
  simpl in Hn. destruct n as [c|]; [|done]. injection Hn as <-.
  rewrite Forall_forall in Hval. by apply (Hval (x, File c)).
Qed.

(** Refinement: [os.walk(top)] yields exactly one triple per directory
    reachable from [top] through unpruned names, with its path, its
    sub-directory names and its file names. *)
Theorem os_walk_reach root cwd top es t ds fs :
  resolve root cwd top = Some (Dir es) ->
  In (t, ds, fs) (os_walk root cwd top) <->
  exists p es', reach es p es' /\ t = OsPath.join top p /\
                ds = dirnames es' /\ fs = filenames es'.
Proof. intros Hr. unfold os_walk. rewrite Hr. apply walk_fuel_reach. lia. Qed.

End Walk.
End Walk.

(** ** Concrete listings *)

Module WalkExamples.
Import Fs.

(** The names both consumers prune. *)
Definition vcs_dirs (d : string) : bool := bool_decide (d ∈ [".git"; "node_modules"]).

(** The loop keeps [node_modules] when it follows [.git]. *)
Example remove_while_iterating_keeps_successor :
  Prune.remove_while_iterating vcs_dirs [".git"; "node_modules"; "src"] = ["node_modules"; "src"].
Proof. reflexivity. Qed.

Lemma remove_while_iterating_skip_witness :
  NoDup [".git"; "node_modules"; "src"] /\
  Prune.remove_while_iterating vcs_dirs [".git"; "node_modules"; "src"] =
  Prune.skip_after_remove vcs_dirs [".git"; "node_modules"; "src"].
Proof.
  assert (Hnd : NoDup [".git"; "node_modules"; "src"]).
  { apply (bool_decide_unpack _). vm_compute. exact I. }
  split; [exact Hnd|]. apply Prune.remove_while_iterating_skip. exact Hnd.
Defined.

(** The loop over [[".git"; "node_modules"; "src"]] stops after two
    iterations, having removed [.git] and skipped [node_modules]; by
    uniqueness of the stopped state, that is [skip_after_remove]. *)
Lemma remove_while_iterating_terminates_witness :
  NoDup [".git"; "node_modules"; "src"] /\
  rtc (Prune.loop_step vcs_dirs) (0, [".git"; "node_modules"; "src"]) (2, ["node_modules"; "src"]) /\
  nf (Prune.loop_step vcs_dirs) (2, ["node_modules"; "src"]) /\
  Prune.skip_after_remove vcs_dirs [".git"; "node_modules"; "src"] = ["node_modules"; "src"].
Proof.
  assert (Hnd : NoDup [".git"; "node_modules"; "src"]).
  { apply (bool_decide_unpack _). vm_compute. exact I. }
  destruct (Prune.remove_while_iterating_terminates vcs_dirs _ Hnd) as [_ (n & _ & _ & Huniq)].
  assert (Hr : rtc (Prune.loop_step vcs_dirs) (0, [".git"; "node_modules"; "src"])
                   (2, ["node_modules"; "src"])).
  { eapply rtc_l; [apply (Prune.loop_remove _ _ _ ".git"); reflexivity|].
    eapply rtc_l; [apply (Prune.loop_keep _ _ _ "src"); reflexivity|].
    apply rtc_refl. }
  assert (Hnf : nf (Prune.loop_step vcs_dirs) (2, ["node_modules"; "src"])).
  { apply Prune.loop_step_nf. simpl. lia. }
  split; [exact Hnd|]. split; [exact Hr|]. split; [exact Hnf|].
  pose proof (f_equal snd (Huniq _ Hr Hnf)) as Heq. cbn [snd] in Heq. by rewrite <- Heq.
Defined.


Lemma remove_while_iterating_filter_witness :
  NoDup ["src"; ".git"; "lib"; "node_modules"] /\
  Prune.adjacent_ignored vcs_dirs ["src"; ".git"; "lib"; "node_modules"] = false /\
  Prune.remove_while_iterating vcs_dirs ["src"; ".git"; "lib"; "node_modules"] =
  List.filter (fun d => negb (vcs_dirs d)) ["src"; ".git"; "lib"; "node_modules"].
Proof.
  assert (Hnd : NoDup ["src"; ".git"; "lib"; "node_modules"]).
  { apply (bool_decide_unpack _). vm_compute. exact I. }
  split; [exact Hnd|]. split; [reflexivity|].
  apply Prune.remove_while_iterating_filter; [exact Hnd|reflexivity].
Defined.

Lemma remove_while_iterating_fuel_irrel_witness :
  length ["a"; ".git"; "b"] <= 0 + 3 /\ length ["a"; ".git"; "b"] <= 0 + 10 /\
  Prune.remove_while_iterating_fuel vcs_dirs 3 0 ["a"; ".git"; "b"] =
  Prune.remove_while_iterating_fuel vcs_dirs 10 0 ["a"; ".git"; "b"].
Proof.
  split; [simpl; lia|]. split; [simpl; lia|].
  apply Prune.remove_while_iterating_fuel_irrel; simpl; lia.
Defined.

Definition small_tree : list (string * node) :=
  [("src", Dir [("a.js", File "a"); ("lib", Dir [("b.js", File "b")])]);
   (".git", Dir [("HEAD", File "h")]); ("README", File "r")].

Lemma walk_fuel_irrel_witness :
  height (Dir small_tree) < 4 /\ height (Dir small_tree) < 9 /\
  Walk.walk_fuel (Prune.remove_while_iterating vcs_dirs) 4 "/r" small_tree =
  Walk.walk_fuel (Prune.remove_while_iterating vcs_dirs) 9 "/r" small_tree.
Proof.
  split; [vm_compute; lia|]. split; [vm_compute; lia|].
  apply Walk.walk_fuel_irrel; vm_compute; lia.
Defined.

Lemma os_walk_reach_witness :
  resolve (Dir [("r", Dir small_tree)]) "/" "/r" = Some (Dir small_tree) /\
  (In ("/r/src/lib", [], ["b.js"])
      (Walk.os_walk (Prune.remove_while_iterating vcs_dirs) (Dir [("r", Dir small_tree)]) "/" "/r") <->
   exists p es', Walk.reach (Prune.remove_while_iterating vcs_dirs) small_tree p es' /\
     "/r/src/lib" = OsPath.join "/r" p /\ [] = dirnames es' /\ ["b.js"] = filenames es').
Proof.
  split; [reflexivity|]. apply Walk.os_walk_reach. reflexivity.
Defined.

End WalkExamples.
