(* ===== verification/Manifest.v ===== *)
(** * [xpi_manifest.py]: discovery and validation of the sub-projects

    [get_manifest] walks the checkout from [BASE_DIR], pruning [.git] and
    [node_modules], and makes one record per directory holding a
    [package.json]: its name is the directory's base name, its install
    type comes from the lock file, its directory is the path below
    [BASE_DIR], and its tests are the scripts whose names start with
    [test] or [lint].  [check_manifest] then reports every illegal test
    name and every name shared by several directories in one exception.
    The result is memoised for the life of the process.

    Messages are the strings the code formats, and [raise Exception(text)]
    is [Err (Exception text)], so that the theorems speak of the text a
    user sees ([PyRepr] writes the lists in it). *)

From Stdlib Require Import String Ascii.
From stdpp Require Import base list strings sets.
From S2P Require Import Prelude PyStr PyRepr PyValue Walk.

Local Open Scope string_scope.
Local Open Scope list_scope.
Local Open Scope py_scope.

Module Manifest.
Import PyValue Fs.

(** A manifest entry, the [ReadOnlyDict] of [get_manifest]: the keys
    [name], [tests] and [install-type] are always set, [directory] only
    below [BASE_DIR]. *)
Record xpi_config := {
  name : string;
  tests : list string;
  install_type : string;
  directory : option string
}.

Definition newline : string := String "010" EmptyString.

Definition TEST_NAME_REGEX_STRING : string := "[^a-zA-Z0-9:_-]".

(** [TEST_NAME_REGEX = re.compile(TEST_NAME_REGEX_STRING)]: the characters
    of the class. *)
Definition test_name_char_ok (c : ascii) : bool :=
  let n := nat_of_ascii c in
  (((97 <=? n) && (n <=? 122)) || ((65 <=? n) && (n <=? 90)) ||
   ((48 <=? n) && (n <=? 57)) || (n =? 58) || (n =? 95) || (n =? 45))%nat.

(** [TEST_NAME_REGEX.search(test)] is truthy *)
Definition TEST_NAME_REGEX_search (test : string) : bool :=
  existsb (fun c => negb (test_name_char_ok c)) (list_ascii_of_string test).

(** [xpi_names.setdefault(k, []).append(v)] on an insertion-ordered dict. *)
Fixpoint setdefault_append (names : list (string * list string)) (k v : string) :
    list (string * list string) :=
  match names with
  | [] => [(k, [v])]
  | (k', vs) :: names' =>
      if bool_decide (k = k') then (k', vs ++ [v]) :: names'
      else (k', vs) :: setdefault_append names' k v
  end.

(** ["Illegal test name in {}: {} !\nIllegal char regex: {}".format(...)] *)
Definition illegal_test_message (xpi_name test : string) : string :=
  "Illegal test name in " ++ xpi_name ++ ": " ++ test ++ " !" ++ newline ++
  "Illegal char regex: " ++ TEST_NAME_REGEX_STRING.

(** ["Duplicate xpi name {} in directories {}\n...".format(k, v)]: the
    list [v] is written by [str]. *)
Definition duplicate_message (k : string) (v : list string) : string :=
  "Duplicate xpi name " ++ k ++ " in directories " ++ PyRepr.list_repr v ++ newline ++
  "Try renaming your subdirectories".

(** The message of the exception [check_manifest] raises. *)
Definition issues_header : string :=
  "Found the following issue with the package.json(s):" ++ newline.

Definition issues_report (messages : list string) : string :=
  issues_header ++ PyRepr.list_repr messages.

(** One iteration of [for manifest in manifest_list]. *)
Definition check_step (acc : list string * list (string * list string))
    (manifest : xpi_config) : list string * list (string * list string) :=
  let '(messages, xpi_names) := acc in
  (messages ++ map (illegal_test_message (name manifest))
                   (List.filter TEST_NAME_REGEX_search (tests manifest)),
   setdefault_append xpi_names (name manifest) (default "." (directory manifest))).

(** One iteration of [for k, v in xpi_names.items()]. *)
Definition duplicate_issue (kv : string * list string) : option string :=
  if bool_decide (1 < length kv.2)%nat then Some (duplicate_message kv.1 kv.2) else None.

Definition check_manifest (manifest_list : list xpi_config) : result py_exc unit :=
  let '(messages, xpi_names) := fold_left check_step manifest_list ([], []) in
  match messages ++ omap duplicate_issue xpi_names with
  | [] => Ok tt
  | msgs => Err (Exception (issues_report msgs))
  end.

(** [target.startswith("test") or target.startswith("lint")] *)
Definition is_test_target (target : string) : bool :=
  PyStr.startswith target "test" || PyStr.startswith target "lint".

(** [dir_ in (".git", "node_modules")] and the pruning loop of
    [get_manifest]. *)
Definition manifest_ignored (d : string) : bool :=
  bool_decide (d = ".git") || bool_decide (d = "node_modules").

Definition manifest_prune (subdir_list : list string) : list string :=
  Prune.remove_while_iterating manifest_ignored subdir_list.

Section Discovery.
Context `{JD : JsonDecoder}.
(** The file system, and [BASE_DIR = os.getcwd()]. *)
Variable root : node.
Variable BASE_DIR : string.

(** The body of the walk loop for one directory [dir_name] whose files
    are [file_list]: [None] when it holds no [package.json]. *)
Definition manifest_of_dir (dir_name : string) (file_list : list string) :
    result py_exc (option xpi_config) :=
  if bool_decide ("package.json" ∈ file_list) then
    itype <- (if bool_decide ("yarn.lock" ∈ file_list) then Ok "yarn"
              else if bool_decide ("package-lock.json" ∈ file_list) then Ok "npm"
              else Err (Exception ("Missing yarn.lock or package-lock.json in " ++ dir_name ++ "!"))) ;;
    let dir := if bool_decide (dir_name = BASE_DIR) then None
               else Some (PyStr.replace dir_name (BASE_DIR ++ "/") "") in
    content <- read_file root BASE_DIR (OsPath.join2 dir_name "package.json") ;;
    package_json <- json_load content ;;
    scripts <- py_get package_json "scripts" (VDict []) ;;
    targets <- iter_strs scripts ;;
    Ok (Some {| name := OsPath.basename dir_name;
                tests := List.filter is_test_target targets;
                install_type := itype;
                directory := dir |})
  else Ok None.

(** The walk, the records in walk order, then [check_manifest]. *)
Definition compute_manifest : result py_exc (list xpi_config) :=
  entries <- res_mapM (fun '(dir_name, _, file_list) => manifest_of_dir dir_name file_list)
                      (Walk.os_walk manifest_prune root BASE_DIR BASE_DIR) ;;
  let manifest_list := omap id entries in
  _ <- check_manifest manifest_list ;;
  Ok manifest_list.

(** [@memoize get_manifest()]: the memo holds the first result returned;
    an exception is not memoised. *)
Definition get_manifest (memo : option (list xpi_config)) :
    result py_exc (list xpi_config) * option (list xpi_config) :=
  match memo with
  | Some m => (Ok m, memo)
  | None =>
      match compute_manifest with
      | Ok m => (Ok m, Some m)
      | Err e => (Err e, None)
      end
  end.

(** [get_xpi_config(xpi_name)]: the message of its [raise] evaluates
    [input.xpi_name], an attribute the builtin [input] does not have. *)
Definition get_xpi_config (memo : option (list xpi_config)) (xpi_name : string) :
    result py_exc xpi_config * option (list xpi_config) :=
  let '(r, memo') := get_manifest memo in
  (manifest <- r ;;
   match List.filter (fun x => bool_decide (name x = xpi_name)) manifest with
   | [x] => Ok x
   | _ => Err (AttributeError "builtin_function_or_method" "xpi_name")
   end, memo').

End Discovery.
(** ** [check_manifest] *)

(** The declarative reading of [check_manifest]: every illegal test name
    of every record in order, then, for each name in order of first
    appearance, a duplicate report listing all its directories when
    there are several. *)
Definition illegal_issues (m : xpi_config) : list string :=
  map (illegal_test_message (name m)) (List.filter TEST_NAME_REGEX_search (tests m)).

Definition manifest_dir (m : xpi_config) : string := default "." (directory m).

Definition dirs_named (ms : list xpi_config) (n : string) : list string :=
  map manifest_dir (List.filter (fun m => bool_decide (name m = n)) ms).

(** The distinct names in order of first appearance. *)
Fixpoint first_occurrences (seen : list string) (l : list string) : list string :=
  match l with
  | [] => []
  | x :: l' => if bool_decide (x ∈ seen) then first_occurrences seen l'
               else x :: first_occurrences (x :: seen) l'
  end.

(** The shape [build.py] and [test.py] read a record with: its
    [install-type] is one of the two strings [get_manifest] writes, and
    every test is a legal name of a [test] or [lint] target. *)
Definition xpi_config_wf (m : xpi_config) : bool :=
  bool_decide (install_type m ∈ ["yarn"; "npm"]) &&
  forallb (fun t => is_test_target t && negb (TEST_NAME_REGEX_search t)) (tests m).

Definition manifest_messages (ms : list xpi_config) : list string :=
  flat_map illegal_issues ms ++
  omap (fun n => duplicate_issue (n, dirs_named ms n)) (first_occurrences [] (map name ms)).

Lemma fold_check_step_messages ms acc names :
  (fold_left check_step ms (acc, names)).1 = acc ++ flat_map illegal_issues ms.
Proof.
  revert acc names; induction ms as [|m ms IH]; intros acc names; simpl.
  - by rewrite app_nil_r.
  - rewrite IH. by rewrite app_assoc.
Qed.

Lemma fold_check_step_names ms acc names :
  (fold_left check_step ms (acc, names)).2 =
  fold_left (fun g m => setdefault_append g (name m) (manifest_dir m)) ms names.
Proof. revert acc names; induction ms as [|m ms IH]; intros acc names; [done|]. apply IH. Qed.

Lemma setdefault_append_map (f : string -> list string) ks k v :
  NoDup ks ->
  setdefault_append (map (fun n => (n, f n)) ks) k v =
  map (fun n => (n, f n ++ (if bool_decide (n = k) then [v] else []))) ks ++
  (if bool_decide (k ∈ ks) then [] else [(k, [v])]).
Proof.
  induction ks as [|n ks IH]; intros Hnd; simpl; [done|].
  apply NoDup_cons in Hnd as [Hn Hnd].
  destruct (decide (k = n)) as [->|Hkn].
  - rewrite !bool_decide_eq_true_2 by (done || set_solver). rewrite app_nil_r.
    f_equal. apply map_ext_in. intros x Hx%list_elem_of_In.
    rewrite bool_decide_eq_false_2 by set_solver. by rewrite app_nil_r.
  - rewrite (bool_decide_eq_false_2 (k = n)), (bool_decide_eq_false_2 (n = k)) by congruence.
    rewrite app_nil_r, IH by done. simpl. f_equal.
    destruct (decide (k ∈ ks)).
    + by rewrite !bool_decide_eq_true_2 by set_solver.
    + by rewrite !bool_decide_eq_false_2 by set_solver.
Qed.

Lemma first_occurrences_snoc seen l x :
  first_occurrences seen (l ++ [x]) =
  first_occurrences seen l ++ (if bool_decide (x ∈ seen ++ l) then [] else [x]).
Proof.
  revert seen; induction l as [|y l IH]; intros seen; simpl.
  - rewrite app_nil_r. by case_bool_decide.
  - case_bool_decide as Hy; rewrite IH.
    + f_equal. repeat case_bool_decide; set_solver.
    + simpl. f_equal. f_equal. repeat case_bool_decide; set_solver.
Qed.

Lemma first_occurrences_NoDup seen l :
  NoDup (first_occurrences seen l) /\ (forall x, x ∈ first_occurrences seen l -> x ∉ seen).
Proof.
  revert seen; induction l as [|y l IH]; intros seen; simpl; [split; [constructor|set_solver]|].
  case_bool_decide as Hy; [apply IH|].
  destruct (IH (y :: seen)) as [Hnd Hout]. split.
  - constructor; [|done]. intros Hin. apply Hout in Hin. set_solver.
  - intros x [->|Hx]%elem_of_cons; [done|]. apply Hout in Hx. set_solver.
Qed.

Lemma first_occurrences_elem seen l x :
  x ∈ first_occurrences seen l <-> x ∈ l /\ x ∉ seen.
Proof.
  revert seen; induction l as [|y l IH]; intros seen; simpl; [set_solver|].
  destruct (decide (y ∈ seen)) as [Hy|Hy].
  - rewrite bool_decide_eq_true_2 by done. rewrite IH, elem_of_cons. naive_solver.
  - rewrite bool_decide_eq_false_2 by done. rewrite elem_of_cons, IH, !elem_of_cons. destruct (decide (x = y)); naive_solver.
Qed.

Lemma dirs_named_snoc ms m n :
  dirs_named (ms ++ [m]) n =
  dirs_named ms n ++ (if bool_decide (n = name m) then [manifest_dir m] else []).
Proof.
  unfold dirs_named. rewrite List.filter_app, map_app. f_equal. simpl.
  repeat case_bool_decide; simpl; congruence.
Qed.

Lemma dirs_named_absent ms n : n ∉ map name ms -> dirs_named ms n = [].
Proof.
  induction ms as [|m ms IH]; intros Hn; [done|]. unfold dirs_named; simpl.
  rewrite bool_decide_eq_false_2 by set_solver. apply IH. set_solver.
Qed.

(** The dict [xpi_names] after the loop maps each name, in order of first
    appearance, to the directories of the records with that name. *)
Lemma xpi_names_spec ms :
  fold_left (fun g m => setdefault_append g (name m) (manifest_dir m)) ms [] =
  map (fun n => (n, dirs_named ms n)) (first_occurrences [] (map name ms)).
Proof.
  induction ms as [|m ms IH] using rev_ind; [done|].
  rewrite fold_left_app, IH. cbn [fold_left].
  rewrite map_app. cbn [map]. rewrite first_occurrences_snoc.
  rewrite setdefault_append_map by apply first_occurrences_NoDup.
  rewrite map_app. f_equal.
  - apply map_ext. intros n. by rewrite dirs_named_snoc.
  - assert (Hfo := first_occurrences_elem [] (map name ms) (name m)).
    destruct (decide (name m ∈ [] ++ map name ms)) as [Hin|Hin].
    + rewrite (bool_decide_eq_true_2 (_ ∈ [] ++ _)) by done.
      rewrite bool_decide_eq_true_2 by set_solver. done.
    + rewrite (bool_decide_eq_false_2 (_ ∈ [] ++ _)) by done.
      rewrite bool_decide_eq_false_2 by set_solver. cbn [map].
      rewrite dirs_named_snoc, dirs_named_absent by set_solver.
      by rewrite bool_decide_eq_true_2.
Qed.

Lemma check_manifest_eq ms :
  check_manifest ms =
  match manifest_messages ms with
  | [] => Ok tt
  | msgs => Err (Exception (issues_report msgs))
  end.
Proof.
  unfold check_manifest, manifest_messages.
  destruct (fold_left check_step ms ([], [])) as [msgs names] eqn:Hf.
  pose proof (fold_check_step_messages ms [] []) as Hm.
  pose proof (fold_check_step_names ms [] []) as Hn.
  rewrite Hf in Hm, Hn. simpl in Hm, Hn. subst msgs names.
  by rewrite xpi_names_spec, omap_map.
Qed.

(** C1: Aggregated report: [check_manifest] raises exactly when
    [manifest_messages] is not empty, all illegal test names of all
    records then one report per duplicated name with all its
    directories, and its [Exception] shows that whole list. *)
Theorem check_manifest_reports ms e :
  check_manifest ms = Err e <->
  manifest_messages ms <> [] /\ e = Exception (issues_report (manifest_messages ms)).
Proof.
  rewrite check_manifest_eq. destruct (manifest_messages ms) as [|i l]; [naive_solver|].
  split; [intros [= <-]; done | intros [_ ->]; done].
Qed.

(** The report is unambiguous: the text of the exception
    [check_manifest] raises is its header followed by a Python list
    literal, and reading that literal back gives exactly the messages. *)
Theorem check_manifest_report_roundtrip ms msg :
  check_manifest ms = Err (Exception msg) ->
  exists body, msg = (issues_header ++ body)%string /\
               PyRepr.read_list_repr body = Some (manifest_messages ms).
Proof.
  rewrite check_manifest_eq. destruct (manifest_messages ms) as [|i l]; [done|].
  intros [= <-]. exists (PyRepr.list_repr (i :: l)).
  split; [done|]. apply PyRepr.read_list_repr_list_repr.
Qed.

Lemma illegal_issues_nil m :
  illegal_issues m = [] <-> Forall (fun t => TEST_NAME_REGEX_search t = false) (tests m).
Proof.
  unfold illegal_issues.
  transitivity (List.filter TEST_NAME_REGEX_search (tests m) = []).
  { by destruct (List.filter TEST_NAME_REGEX_search (tests m)). }
  induction (tests m) as [|t ts IH]; simpl; [split; [constructor|done]|].
  rewrite Forall_cons, <- IH. destruct (TEST_NAME_REGEX_search t); naive_solver.
Qed.

Lemma length_dirs_named ms n :
  length (dirs_named ms n) = count_occ string_dec (map name ms) n.
Proof.
  induction ms as [|m ms IH]; [done|]. unfold dirs_named in *; simpl.
  destruct (string_dec (name m) n) as [<-|Hne].
  - rewrite bool_decide_eq_true_2 by done. simpl. by rewrite IH.
  - by rewrite bool_decide_eq_false_2.
Qed.

Lemma duplicate_messages_nil ms :
  omap (fun n => duplicate_issue (n, dirs_named ms n)) (first_occurrences [] (map name ms)) = [] <->
  NoDup (map name ms).
Proof.
  rewrite omap_nil_iff, Forall_forall, NoDup_ListNoDup, (NoDup_count_occ string_dec).
  unfold duplicate_issue. simpl. split.
  - intros H x. destruct (decide (x ∈ map name ms)) as [Hx|Hx].
    + specialize (H x). rewrite first_occurrences_elem in H.
      destruct (decide (1 < length (dirs_named ms x))%nat) as [Hl|Hl].
      * rewrite bool_decide_eq_true_2 in H by done. exfalso.
        assert (Hn : x ∉ ([] : list string)) by set_solver. by specialize (H (conj Hx Hn)).
      * rewrite length_dirs_named in Hl. lia.
    + rewrite (proj1 (count_occ_not_In _ _ _)); [lia|]. by rewrite <- list_elem_of_In.
  - intros H x _. rewrite bool_decide_eq_false_2; [done|]. rewrite length_dirs_named.
    specialize (H x). lia.
Qed.

Lemma manifest_messages_nil ms :
  manifest_messages ms = [] <->
  NoDup (map name ms) /\
  Forall (fun m => Forall (fun t => TEST_NAME_REGEX_search t = false) (tests m)) ms.
Proof.
  unfold manifest_messages. rewrite app_nil, flat_map_nil_iff, duplicate_messages_nil.
  rewrite !Forall_forall. setoid_rewrite illegal_issues_nil. tauto.
Qed.

(** C2: [check_manifest] returns normally exactly when the names are distinct
    and no test name has a character outside [a-zA-Z0-9:_-]. *)
Theorem check_manifest_ok ms :
  check_manifest ms = Ok tt <->
  NoDup (map name ms) /\
  Forall (fun m => Forall (fun t => TEST_NAME_REGEX_search t = false) (tests m)) ms.
Proof.
  rewrite check_manifest_eq, <- manifest_messages_nil. by destruct (manifest_messages ms).
Qed.

Lemma check_manifest_Ok_inv ms :
  check_manifest ms = Ok tt -> NoDup (map name ms) /\
  Forall (fun m => Forall (fun t => TEST_NAME_REGEX_search t = false) (tests m)) ms.
Proof.
  rewrite check_manifest_eq, <- manifest_messages_nil. by destruct (manifest_messages ms).
Qed.

(** ** Discovery *)

Section DiscoveryLemmas.
Context `{JD : JsonDecoder}.
Variable root : node.
Variable BASE_DIR : string.

Lemma manifest_of_dir_none dir_name file_list :
  "package.json" ∉ file_list -> manifest_of_dir root BASE_DIR dir_name file_list = Ok None.
Proof. intros H. unfold manifest_of_dir. by rewrite bool_decide_eq_false_2. Qed.

(** A [package.json] without a lock file beside it raises at once. *)
Lemma manifest_of_dir_missing_lock dir_name file_list :
  "package.json" ∈ file_list -> "yarn.lock" ∉ file_list -> "package-lock.json" ∉ file_list ->
  manifest_of_dir root BASE_DIR dir_name file_list =
  Err (Exception ("Missing yarn.lock or package-lock.json in " ++ dir_name ++ "!")).
Proof.
  intros H1 H2 H3. unfold manifest_of_dir.
  rewrite bool_decide_eq_true_2, !bool_decide_eq_false_2 by done. done.
Qed.

(** What a record made from a directory holds. *)
Lemma manifest_of_dir_Some dir_name file_list m :
  manifest_of_dir root BASE_DIR dir_name file_list = Ok (Some m) ->
  "package.json" ∈ file_list /\
  name m = OsPath.basename dir_name /\
  Forall (fun t => is_test_target t = true) (tests m) /\
  (install_type m = "yarn" <-> "yarn.lock" ∈ file_list) /\
  (install_type m = "npm" <-> "yarn.lock" ∉ file_list) /\
  directory m = (if bool_decide (dir_name = BASE_DIR) then None
                 else Some (PyStr.replace dir_name (BASE_DIR ++ "/") "")).
Proof.
  unfold manifest_of_dir. case_bool_decide as Hpj; [|done].
  destruct (bool_decide ("yarn.lock" ∈ file_list)) eqn:Hy.
  2: destruct (bool_decide ("package-lock.json" ∈ file_list)); [|done].
  all: cbn [res_bind].
  all: destruct (read_file _ _ _); [|done]; cbn [res_bind].
  all: destruct (json_load _); [|done]; cbn [res_bind].
  all: destruct (py_get _ _ _); [|done]; cbn [res_bind].
  all: destruct (iter_strs _) as [targets|]; [|done]; cbn [res_bind].
  all: intros [= <-]; cbn [name tests install_type directory].
  all: do 2 (split; [done|]).
  all: split; [apply Forall_forall; intros t Ht%list_elem_of_In;
               apply filter_In in Ht; apply Ht|].
  - apply bool_decide_eq_true_1 in Hy. repeat split; done.
  - apply bool_decide_eq_false_1 in Hy. repeat split; done.
Qed.

Lemma compute_manifest_elem ms m :
  compute_manifest root BASE_DIR = Ok ms ->
  m ∈ ms <-> exists t ds fl, (t, ds, fl) ∈ Walk.os_walk manifest_prune root BASE_DIR BASE_DIR /\
                             manifest_of_dir root BASE_DIR t fl = Ok (Some m).
Proof.
  unfold compute_manifest.
  destruct (res_mapM _ _) as [entries|] eqn:He; [|done]. cbn [res_bind].
  destruct (check_manifest _); [|done]. cbn [res_bind]. intros [= <-].
  rewrite list_elem_of_omap. split.
  - intros (o & Ho & Hid). simpl in Hid. subst o.
    apply (res_mapM_elem _ _ _ _ He) in Ho as ([[t ds] fl] & Hin & Hf). eauto.
  - intros (t & ds & fl & Hin & Hf). exists (Some m). split; [|done].
    apply (res_mapM_elem _ _ _ _ He). by exists (t, ds, fl).
Qed.

(** C3: Refinement of discovery: once [get_manifest] succeeds, its records
    are exactly those made from the directories the pruned walk reaches
    from [BASE_DIR]. *)
Theorem compute_manifest_reach es ms m :
  resolve root BASE_DIR BASE_DIR = Some (Dir es) ->
  compute_manifest root BASE_DIR = Ok ms ->
  m ∈ ms <-> exists p es', Walk.reach manifest_prune es p es' /\
       manifest_of_dir root BASE_DIR (OsPath.join BASE_DIR p) (filenames es') = Ok (Some m).
Proof.
  intros Hr Hc. rewrite (compute_manifest_elem _ _ Hc). unfold Walk.os_walk. rewrite Hr. split.
  - intros (t & ds & fl & Hin%list_elem_of_In & Hf).
    apply Walk.walk_fuel_reach in Hin as (p & es' & Hre & -> & _ & ->); [|lia]. eauto.
  - intros (p & es' & Hre & Hf). exists (OsPath.join BASE_DIR p), (dirnames es'), (filenames es').
    split; [|done]. apply list_elem_of_In, Walk.walk_fuel_reach; [lia|]. eauto 10.
Qed.

Lemma get_manifest_Ok ms st :
  get_manifest root BASE_DIR None = (Ok ms, st) ->
  st = Some ms /\ compute_manifest root BASE_DIR = Ok ms /\ check_manifest ms = Ok tt.
Proof.
  unfold get_manifest. destruct (compute_manifest root BASE_DIR) as [ms'|] eqn:Hc; [|done].
  intros [= <- <-]. do 2 (split; [done|]).
  unfold compute_manifest in Hc. destruct (res_mapM _ _); [|done]. cbn [res_bind] in Hc.
  destruct (check_manifest _) as [[]|] eqn:Hk; [|done]. cbn [res_bind] in Hc.
  injection Hc as <-. exact Hk.
Qed.

(** C4: Every manifest [get_manifest] returns has distinct names, and the
    memo then holds it. *)
Theorem get_manifest_valid ms st :
  get_manifest root BASE_DIR None = (Ok ms, st) ->
  st = Some ms /\ NoDup (map name ms).
Proof.
  intros (-> & Hc & Hchk)%get_manifest_Ok. split; [done|].
  by apply check_manifest_Ok_inv in Hchk as [Hnd _].
Qed.

(** C28: Type of the manifest records: every record of a manifest
    [get_manifest] returns is well formed ([xpi_config_wf]): its
    [install-type] is ["yarn"] or ["npm"], and its tests are legal names
    of [test] and [lint] targets. *)
Theorem get_manifest_records_wf ms st :
  get_manifest root BASE_DIR None = (Ok ms, st) -> Forall (fun m => xpi_config_wf m = true) ms.
Proof.
  intros (_ & Hc & Hchk)%get_manifest_Ok. apply check_manifest_Ok_inv in Hchk as [_ Hlegal].
  apply Forall_forall. intros m Hm. rewrite Forall_forall in Hlegal. specialize (Hlegal m Hm).
  apply (compute_manifest_elem _ _ Hc) in Hm as (t & ds & fl & _ & Hm).
  apply manifest_of_dir_Some in Hm as (_ & _ & Htgt & Hy & Hn & _).
  unfold xpi_config_wf. apply andb_true_intro. split.
  - apply bool_decide_eq_true_2.
    destruct (decide ("yarn.lock" ∈ fl)); [rewrite (proj2 Hy) | rewrite (proj2 Hn)]; set_solver.
  - apply forallb_forall. intros x Hx%list_elem_of_In. rewrite Forall_forall in Htgt, Hlegal.
    by rewrite Htgt, Hlegal.
Qed.

(** Memoisation: the first successful call fixes the manifest, and later
    calls return it without reading the file system again; an exception
    leaves the memo empty. *)
Theorem get_manifest_memo root' :
  match get_manifest root BASE_DIR None with
  | (Ok ms, st) => st = Some ms /\ get_manifest root' BASE_DIR st = (Ok ms, st)
  | (Err _, st) => st = None
  end.
Proof. unfold get_manifest at 1. by destruct (compute_manifest root BASE_DIR). Qed.

(** C23: Fail fast: a reachable [package.json] without a lock file makes
    [get_manifest] raise, and no manifest is returned. *)
Theorem get_manifest_missing_lock es p es' :
  resolve root BASE_DIR BASE_DIR = Some (Dir es) ->
  Walk.reach manifest_prune es p es' ->
  "package.json" ∈ filenames es' -> "yarn.lock" ∉ filenames es' ->
  "package-lock.json" ∉ filenames es' ->
  exists e, get_manifest root BASE_DIR None = (Err e, None).
Proof.
  intros Hr Hre H1 H2 H3. unfold get_manifest, compute_manifest.
  edestruct (res_mapM_Err (fun '(dir_name, _, file_list) =>
                             manifest_of_dir root BASE_DIR dir_name file_list)
              (Walk.os_walk manifest_prune root BASE_DIR BASE_DIR)
              (OsPath.join BASE_DIR p, dirnames es', filenames es')) as [e He].
  - unfold Walk.os_walk. rewrite Hr. apply Walk.walk_fuel_reach; [lia|]. eauto 10.
  - by apply manifest_of_dir_missing_lock.
  - rewrite He. eauto.
Qed.

(** C12: [node_modules] is walked when [os.listdir] lists it right after
    [.git]: in any directory the pruned walk reaches, with distinct
    names, no ignored name before [.git] and [node_modules] right after
    it, removing [.git] from [subdir_list] while iterating over it
    shifts [node_modules] under the iterator, so the walk enters it; and
    a [package.json] there without a lock file makes [get_manifest]
    raise. *)
Theorem get_manifest_walks_node_modules es p es' pre suf nm :
  resolve root BASE_DIR BASE_DIR = Some (Dir es) -> wf (Dir es) = true ->
  Walk.reach manifest_prune es p es' ->
  dirnames es' = pre ++ ".git" :: "node_modules" :: suf ->
  Forall (fun d => manifest_ignored d = false) pre ->
  lookup_entry "node_modules" es' = Some (Dir nm) ->
  Walk.reach manifest_prune es (p ++ ["node_modules"]) nm /\
  ("package.json" ∈ filenames nm -> "yarn.lock" ∉ filenames nm ->
   "package-lock.json" ∉ filenames nm ->
   exists e, get_manifest root BASE_DIR None = (Err e, None)).
Proof.
  intros Hres Hwf Hr Hds Hpre Hnm.
  assert (Hr' : Walk.reach manifest_prune es (p ++ ["node_modules"]) nm).
  { apply (Walk.reach_snoc _ _ _ _ _ _ Hr); [|done].
    destruct (Walk.reach_wf _ _ _ _ Hwf Hr) as [_ (Hnd & _)%wf_dir].
    apply list_elem_of_In. unfold manifest_prune. rewrite Hds.
    apply Prune.remove_while_iterating_keeps_next; [|done|reflexivity].
    rewrite <- Hds. by apply dirnames_NoDup. }
  split; [done|]. intros H1 H2 H3. unfold get_manifest, compute_manifest.
  edestruct (res_mapM_Err (fun '(dir_name, _, file_list) =>
                             manifest_of_dir root BASE_DIR dir_name file_list)
              (Walk.os_walk manifest_prune root BASE_DIR BASE_DIR)
              (OsPath.join BASE_DIR (p ++ ["node_modules"]), dirnames nm, filenames nm)) as [e He].
  - unfold Walk.os_walk. rewrite Hres. apply Walk.walk_fuel_reach; [lia|]. eauto 10.
  - by apply manifest_of_dir_missing_lock.
  - rewrite He. eauto.
Qed.

Lemma filter_name_absent ms n :
  n ∉ map name ms -> List.filter (fun x => bool_decide (name x = n)) ms = [].
Proof.
  induction ms as [|x ms IH]; intros Hn; simpl; [done|].
  rewrite bool_decide_eq_false_2 by set_solver. apply IH. set_solver.
Qed.

Lemma filter_name_unique ms n m :
  NoDup (map name ms) ->
  List.filter (fun x => bool_decide (name x = n)) ms = [m] <-> m ∈ ms /\ name m = n.
Proof.
  induction ms as [|x ms IH]; intros Hnd; simpl.
  { split; [done|]. by intros [?%elem_of_nil _]. }
  apply NoDup_cons in Hnd as [Hx Hnd]. rewrite elem_of_cons.
  destruct (decide (name x = n)) as [<-|Hne].
  - rewrite bool_decide_eq_true_2, filter_name_absent by done. split.
    + intros [= ->]. auto.
    + intros [[->|Hm] Hnm]; [done|]. destruct Hx. rewrite <- Hnm. by apply list_elem_of_fmap_2.
  - rewrite bool_decide_eq_false_2 by done. rewrite IH by done.
    split; [naive_solver|]. intros [[->|?] ?]; [done|naive_solver].
Qed.

(** C24: [get_xpi_config(n)] in a fresh process returns the record named [n];
    when there is none, the [raise] meant to report it fails itself with
    an [AttributeError] on [input.xpi_name]. *)
Theorem get_xpi_config_spec ms st n :
  get_manifest root BASE_DIR None = (Ok ms, st) ->
  (forall m, get_xpi_config root BASE_DIR None n = (Ok m, st) <-> m ∈ ms /\ name m = n) /\
  (n ∉ map name ms ->
   get_xpi_config root BASE_DIR None n =
   (Err (AttributeError "builtin_function_or_method" "xpi_name"), st)).
Proof.
  intros Hg. destruct (get_manifest_Ok ms st Hg) as (_ & _ & Hchk).
  destruct (check_manifest_Ok_inv _ Hchk) as [Hnd _].
  unfold get_xpi_config. rewrite Hg. cbn [res_bind]. split.
  - intros m. rewrite <- filter_name_unique by done.
    destruct (List.filter _ ms) as [|x [|y l]]; split; congruence.
  - intros Hn. by rewrite filter_name_absent.
Qed.

(** C25: The fields of a sub-project record: its name is the last component of
    its path, and its directory is the path below [BASE_DIR] provided
    [BASE_DIR + "/"] does not occur again inside that path ([str.replace]
    removes every occurrence, not a prefix). *)
Theorem manifest_of_dir_subproject bcs es p es' m :
  Forall (fun c => PathNames.valid_name c = true) bcs -> bcs <> [] ->
  BASE_DIR = PathNames.abs_path bcs -> wf (Dir es) = true ->
  Walk.reach manifest_prune es p es' -> p <> [] ->
  manifest_of_dir root BASE_DIR (OsPath.join BASE_DIR p) (filenames es') = Ok (Some m) ->
  name m = default "" (last p) /\
  (PathNames.contains (BASE_DIR ++ "/") (String.concat "/" p) = false ->
   directory m = Some (String.concat "/" p)).
Proof.
  intros Hb Hbne HB Hwf Hr Hpne Hm.
  destruct (Walk.reach_wf _ _ _ _ Hwf Hr) as [Hp _].
  apply manifest_of_dir_Some in Hm as (_ & Hname & _ & _ & _ & Hdir).
  rewrite HB in Hname, Hdir |- *.
  rewrite PathNames.join_abs_path in Hname, Hdir by done.
  split.
  - rewrite Hname, PathNames.basename_abs_path by (try apply Forall_app; by destruct bcs).
    rewrite last_app. by destruct (last p) eqn:E; [|apply last_None in E].
  - intros Hc. rewrite bool_decide_eq_false_2 in Hdir.
    + rewrite Hdir, PathNames.abs_path_app by done. rewrite str_app_assoc.
      rewrite PathNames.replace_prefix by (unfold PathNames.abs_path; by rewrite str_app_cons).
      by rewrite str_app_nil_l, PathNames.replace_absent.
    + by apply PathNames.abs_path_app_ne.
Qed.

(** C27: [dir_name.replace(BASE_DIR + "/", "")] removes every occurrence
    of the base path, not only the leading one: for a sub-project whose
    path below [BASE_DIR] contains [BASE_DIR + "/"] again, the recorded
    [directory] is not that path, and is shorter than it by at least the
    length of [BASE_DIR + "/"]. *)
Theorem get_manifest_directory_mangled bcs es p es' m x y :
  Forall (fun c => PathNames.valid_name c = true) bcs -> bcs <> [] ->
  BASE_DIR = PathNames.abs_path bcs -> wf (Dir es) = true ->
  Walk.reach manifest_prune es p es' -> p <> [] ->
  manifest_of_dir root BASE_DIR (OsPath.join BASE_DIR p) (filenames es') = Ok (Some m) ->
  String.concat "/" p = (x ++ (BASE_DIR ++ "/") ++ y)%string ->
  exists d, directory m = Some d /\ d <> String.concat "/" p /\
    String.length d + String.length BASE_DIR + 1 <= String.length (String.concat "/" p).
Proof.
  intros Hb Hbne HB Hwf Hr Hpne Hm Hxy.
  destruct (Walk.reach_wf _ _ _ _ Hwf Hr) as [Hp _].
  apply manifest_of_dir_Some in Hm as (_ & _ & _ & _ & _ & Hdir).
  rewrite HB in Hdir, Hxy |- *. rewrite PathNames.join_abs_path in Hdir by done.
  rewrite bool_decide_eq_false_2 in Hdir by (by apply PathNames.abs_path_app_ne).
  rewrite PathNames.abs_path_app, str_app_assoc, PathNames.replace_prefix, str_app_nil_l in Hdir
    by (done || unfold PathNames.abs_path; by rewrite str_app_cons).
  eexists. split; [exact Hdir|].
  pose proof (PathNames.replace_empty_contains_length (PathNames.abs_path bcs ++ "/")
                (String.concat "/" p)) as Hlen.
  rewrite Hxy, PathNames.contains_app_mid, <- Hxy, str_length_app in Hlen.
  cbn [String.length] in Hlen. specialize (Hlen ltac:(unfold PathNames.abs_path; by rewrite str_app_cons) eq_refl).
  split; [|lia]. intros Heq. rewrite Heq in Hlen. lia.
Qed.

End DiscoveryLemmas.

(** ** Concrete checkouts

    [scripts_decoder] decodes the [package.json] files of the checkouts
    below, whose content is the list of script names separated by
    spaces. *)

Definition scripts_decoder : JsonDecoder :=
  fun s => Ok (VDict [("scripts", VDict (map (fun k => (k, VStr "")) (PyStr.split " " s)))]).

Definition pkgA_dir : node :=
  Dir [("package.json", File "test lint build"); ("yarn.lock", File "")].

Definition repo_pkgA : list (string * node) :=
  [(".git", Dir [("config", File "")]); ("pkgA", pkgA_dir)].

Definition checkout_pkgA : node := Dir [("repo", Dir repo_pkgA)].

Definition pkgA_record : xpi_config :=
  {| name := "pkgA"; tests := ["test"; "lint"]; install_type := "yarn"; directory := Some "pkgA" |}.

(** The scenario of the specification: [pkgA] with a [yarn.lock] and the
    scripts [test], [lint] and [build] gives one record with the tests
    [test] and [lint]. *)
Example get_manifest_scenario :
  get_manifest (JD := scripts_decoder) checkout_pkgA "/repo" None =
  (Ok [pkgA_record], Some [pkgA_record]).
Proof. vm_compute. reflexivity. Qed.

Definition repo_node_modules : list (string * node) :=
  [(".git", Dir []);
   ("node_modules", Dir [("left-pad", Dir [("package.json", File "test")])]);
   ("pkgA", pkgA_dir)].

Definition checkout_node_modules : node := Dir [("repo", Dir repo_node_modules)].

(** A run of discovery on a checkout whose [node_modules] is listed right
    after [.git]: the dependency [left-pad] is walked and raises. *)
Example get_manifest_node_modules_run :
  get_manifest (JD := scripts_decoder) checkout_node_modules "/repo" None =
  (Err (Exception "Missing yarn.lock or package-lock.json in /repo/node_modules/left-pad!"), None).
Proof. vm_compute. reflexivity. Qed.

Definition checkout_nested_base : node :=
  Dir [("repo", Dir [("w", Dir [("repo", Dir [("x", Dir [("package.json", File "test");
                                                         ("yarn.lock", File "")])])])])].

(** A run of discovery with the base path [/repo] occurring again inside
    the sub-project path [w/repo/x]: its directory is recorded as [wx]. *)
Example get_manifest_nested_base_run :
  fst (get_manifest (JD := scripts_decoder) checkout_nested_base "/repo" None) =
  Ok [{| name := "x"; tests := ["test"]; install_type := "yarn"; directory := Some "wx" |}].
Proof. vm_compute. reflexivity. Qed.

Definition checkout_duplicate : node :=
  Dir [("repo", Dir [("a", Dir [("x", Dir [("package.json", File "test:unit test!");
                                           ("yarn.lock", File "")])]);
                     ("b", Dir [("x", Dir [("package.json", File "test");
                                           ("package-lock.json", File "")])])])].

(** Two sub-projects named [x] and an illegal test name: one exception
    reports both problems, the duplicate with both directories. *)
Example get_manifest_duplicate_names :
  get_manifest (JD := scripts_decoder) checkout_duplicate "/repo" None =
  (Err (Exception (issues_report [illegal_test_message "x" "test!";
                                  duplicate_message "x" ["a/x"; "b/x"]])), None).
Proof. vm_compute. reflexivity. Qed.

(** The records of [checkout_duplicate], before [check_manifest]. *)
Definition dup_records : list xpi_config :=
  [{| name := "x"; tests := ["test:unit"; "test!"]; install_type := "yarn"; directory := Some "a/x" |};
   {| name := "x"; tests := ["test"]; install_type := "npm"; directory := Some "b/x" |}].

(** The exception [get_manifest] raises on [checkout_duplicate],
    character for character as CPython prints it: the header and its
    newline, then the list of messages in which each newline is written
    [\n]; the second message holds a ['] and no double quote, so [repr]
    quotes it with double quotes. *)
Example duplicate_report_text :
  get_manifest (JD := scripts_decoder) checkout_duplicate "/repo" None =
  (Err (Exception ("Found the following issue with the package.json(s):" ++ newline ++
         "['Illegal test name in x: test! !\nIllegal char regex: [^a-zA-Z0-9:_-]', " ++
         String PyRepr.dquote ("Duplicate xpi name x in directories ['a/x', 'b/x']\n" ++
         "Try renaming your subdirectories" ++ String PyRepr.dquote "]"))), None).
Proof. vm_compute. reflexivity. Qed.

(** *** Witnesses *)

Lemma compute_manifest_reach_witness :
  resolve checkout_pkgA "/repo" "/repo" = Some (Dir repo_pkgA) /\
  compute_manifest (JD := scripts_decoder) checkout_pkgA "/repo" = Ok [pkgA_record] /\
  (pkgA_record ∈ [pkgA_record] <->
   exists p es', Walk.reach manifest_prune repo_pkgA p es' /\
     manifest_of_dir (JD := scripts_decoder) checkout_pkgA "/repo"
       (OsPath.join "/repo" p) (filenames es') = Ok (Some pkgA_record)).
Proof.
  split; [reflexivity|]. split; [vm_compute; reflexivity|].
  apply compute_manifest_reach; vm_compute; reflexivity.
Defined.

Lemma get_manifest_valid_witness :
  get_manifest (JD := scripts_decoder) checkout_pkgA "/repo" None =
    (Ok [pkgA_record], Some [pkgA_record]) /\
  (Some [pkgA_record] = Some [pkgA_record] /\ NoDup (map name [pkgA_record])).
Proof.
  split; [vm_compute; reflexivity|].
  apply (get_manifest_valid (JD := scripts_decoder) checkout_pkgA "/repo"). vm_compute. reflexivity.
Defined.

Lemma get_manifest_records_wf_witness :
  get_manifest (JD := scripts_decoder) checkout_pkgA "/repo" None =
    (Ok [pkgA_record], Some [pkgA_record]) /\
  Forall (fun m => xpi_config_wf m = true) [pkgA_record].
Proof.
  split; [vm_compute; reflexivity|].
  apply (get_manifest_records_wf (JD := scripts_decoder) checkout_pkgA "/repo" _ (Some [pkgA_record])).
  vm_compute. reflexivity.
Defined.

Lemma get_manifest_missing_lock_witness :
  resolve checkout_node_modules "/repo" "/repo" = Some (Dir repo_node_modules) /\
  exists e, get_manifest (JD := scripts_decoder) checkout_node_modules "/repo" None = (Err e, None).
Proof.
  split; [reflexivity|].
  apply (get_manifest_missing_lock (JD := scripts_decoder) _ _ repo_node_modules
           ["node_modules"; "left-pad"] [("package.json", File "test")]).
  - reflexivity.
  - econstructor; [vm_compute; left; reflexivity | reflexivity |].
    econstructor; [vm_compute; left; reflexivity | reflexivity | constructor].
  - vm_compute. left.
  - vm_compute. intros H. inversion H as [|? ? ? Hin]. inversion Hin.
  - vm_compute. intros H. inversion H as [|? ? ? Hin]. inversion Hin.
Defined.

Lemma check_manifest_report_roundtrip_witness :
  check_manifest dup_records = Err (Exception (issues_report (manifest_messages dup_records))) /\
  exists body, issues_report (manifest_messages dup_records) = (issues_header ++ body)%string /\
               PyRepr.read_list_repr body = Some (manifest_messages dup_records).
Proof.
  split; [vm_compute; reflexivity|].
  apply check_manifest_report_roundtrip. vm_compute. reflexivity.
Defined.

Lemma get_xpi_config_spec_witness :
  get_manifest (JD := scripts_decoder) checkout_pkgA "/repo" None =
    (Ok [pkgA_record], Some [pkgA_record]) /\
  ((forall m, get_xpi_config (JD := scripts_decoder) checkout_pkgA "/repo" None "pkgA" =
              (Ok m, Some [pkgA_record]) <-> m ∈ [pkgA_record] /\ name m = "pkgA") /\
   ("pkgA" ∉ map name [pkgA_record] ->
    get_xpi_config (JD := scripts_decoder) checkout_pkgA "/repo" None "pkgA" =
    (Err (AttributeError "builtin_function_or_method" "xpi_name"), Some [pkgA_record]))).
Proof.
  split; [vm_compute; reflexivity|].
  apply (get_xpi_config_spec (JD := scripts_decoder) checkout_pkgA "/repo"). vm_compute. reflexivity.
Defined.

Lemma manifest_of_dir_subproject_witness :
  name pkgA_record = "pkgA" /\
  (PathNames.contains ("/repo" ++ "/") (String.concat "/" ["pkgA"]) = false ->
   directory pkgA_record = Some (String.concat "/" ["pkgA"])).
Proof.
  apply (manifest_of_dir_subproject (JD := scripts_decoder) checkout_pkgA "/repo" ["repo"]
           repo_pkgA ["pkgA"] [("package.json", File "test lint build"); ("yarn.lock", File "")]).
  - repeat constructor.
  - discriminate.
  - reflexivity.
  - vm_compute. reflexivity.
  - econstructor; [vm_compute; left; reflexivity | reflexivity | constructor].
  - discriminate.
  - vm_compute. reflexivity.
Defined.

Lemma get_manifest_walks_node_modules_witness :
  Walk.reach manifest_prune repo_node_modules ([] ++ ["node_modules"])
    [("left-pad", Dir [("package.json", File "test")])].
Proof.
  destruct (get_manifest_walks_node_modules (JD := scripts_decoder) checkout_node_modules "/repo"
              repo_node_modules [] repo_node_modules [] ["pkgA"]
              [("left-pad", Dir [("package.json", File "test")])]) as [Hr _].
  - reflexivity.
  - vm_compute. reflexivity.
  - constructor.
  - reflexivity.
  - constructor.
  - reflexivity.
  - exact Hr.
Defined.

Definition nested_record : xpi_config :=
  {| name := "x"; tests := ["test"]; install_type := "yarn"; directory := Some "wx" |}.

Lemma get_manifest_directory_mangled_witness :
  exists d, directory nested_record = Some d /\ d <> String.concat "/" ["w"; "repo"; "x"] /\
    String.length d + String.length "/repo" + 1 <= String.length (String.concat "/" ["w"; "repo"; "x"]).
Proof.
  apply (get_manifest_directory_mangled (JD := scripts_decoder) checkout_nested_base "/repo" ["repo"]
           [("w", Dir [("repo", Dir [("x", Dir [("package.json", File "test"); ("yarn.lock", File "")])])])]
           ["w"; "repo"; "x"] [("package.json", File "test"); ("yarn.lock", File "")]
           nested_record "w" "x").
  - repeat constructor.
  - discriminate.
  - reflexivity.
  - vm_compute. reflexivity.
  - do 3 (econstructor; [vm_compute; left; reflexivity | reflexivity |]). constructor.
  - discriminate.
  - vm_compute. reflexivity.
  - reflexivity.
Defined.

End Manifest.
