(* ===== verification/Cached.v ===== *)
(** * [cached.py]: the files of a task and the cache transform, under Python 3

    [list_files(path)] walks [path] with [os.walk], pruning [.git] and
    [node_modules] with the same remove-while-iterating loop as discovery,
    drops files whose extension is [.pyc] or [.swp], and returns the set of
    paths relative to [BASE_DIR].  [build_cache] means to give every task
    that does not opt out (and only when [taskgraph.fast] is off) a cache
    block whose digest is the SHA-256 of the lines ["<sha256 of content>
    <path>\n"] of the sorted files of the task's directory, of
    [taskcluster/] and of the additional top-level files.

    The development models Python 3, as its [repr] and its ordered dicts
    do.  There text ([str]) and binary data ([bytes]) are distinct types
    ([pystr]): [subprocess.check_output] returns bytes, whose [replace]
    rejects the [str] arguments of line 49 (the module has
    [unicode_literals]), and [hashlib]'s [update] rejects the [str] lines
    of line 64.  So [build_cache] raises [TypeError] before its first task
    ([build_cache_raises]), and its loop body raises on every task with a
    non-empty file set ([build_cache_task_raises]). *)

From Stdlib Require Import String Ascii.
From stdpp Require Import base list strings sets sorting.
From S2P Require Import Prelude PyStr PyValue Walk.

Local Open Scope string_scope.
Local Open Scope list_scope.
Local Open Scope py_scope.

Module Cached.
Import Fs PyValue.

Definition IGNORE_DIRS : list string := [".git"; "node_modules"].
Definition IGNORE_EXTENSIONS : list string := [".pyc"; ".swp"].
Definition ADDITIONAL_FILES : list string := [".taskcluster.yml"; "eslintrc.js"].

(** [dir_ in IGNORE_DIRS], and the pruning loop of [list_files]. *)
Definition in_ignore_dirs (d : string) : bool := bool_decide (d ∈ IGNORE_DIRS).

Definition prune_subdirs (subdir_list : list string) : list string :=
  Prune.remove_while_iterating in_ignore_dirs subdir_list.

(** [os.path.splitext(file_)[1] in IGNORE_EXTENSIONS] *)
Definition ignored_file (file_ : string) : bool :=
  bool_decide ((OsPath.splitext file_).2 ∈ IGNORE_EXTENSIONS).

(** [hashlib.sha256(data).hexdigest()] of the bytes [data]. *)
Class Sha256 := sha256_hexdigest : string -> string.

(** ** Text and bytes *)

(** A Python 3 string object: text ([str]) or binary data ([bytes]), each
    a sequence of one-byte characters here. *)
Inductive pystr : Type :=
| PyText (s : string)
| PyBytes (b : string).

(** [subprocess.check_output(args)] without [text=True]: the command's
    standard output, as bytes. *)
Definition check_output (stdout : string) : pystr := PyBytes stdout.

(** What a [bytes] method raises when given a [str] argument. *)
Definition bytes_arg_error : py_exc := TypeError "a bytes-like object is required, not 'str'".

(** [o.rstrip()]: both types strip trailing ASCII whitespace. *)
Definition py_rstrip (o : pystr) : pystr :=
  match o with
  | PyText s => PyText (PyStr.rstrip s)
  | PyBytes b => PyBytes (PyStr.rstrip b)
  end.

(** [o.replace(old, new)] with [str] arguments. *)
Definition py_replace (o : pystr) (old new : string) : result py_exc pystr :=
  match o with
  | PyText s => Ok (PyText (PyStr.replace s old new))
  | PyBytes _ => Err bytes_arg_error
  end.

(** [o.rstrip(c)] with a one-character [str] argument. *)
Definition py_rstrip_char (o : pystr) (c : ascii) : result py_exc pystr :=
  match o with
  | PyText s => Ok (PyText (PyStr.rstrip_char c s))
  | PyBytes _ => Err bytes_arg_error
  end.

(** [o.split(c)[-1]] with a one-character [str] separator: the last
    piece, a [str]. *)
Definition py_split_last (o : pystr) (c : ascii) : result py_exc string :=
  match o with
  | PyText s => Ok (PyStr.split_last c s)
  | PyBytes _ => Err bytes_arg_error
  end.

(** Lines 48 to 50: [repo_name] from the output of [git remote get-url
    origin]. *)
Definition repo_name_of (out : pystr) : result py_exc string :=
  let repo_name := py_rstrip out in
  repo_name <- py_replace repo_name ".git" "" ;;
  repo_name <- py_rstrip_char repo_name "/" ;;
  py_split_last repo_name "/".

(** [h.update(data)]: [hashlib] hashes bytes-like objects and raises on a
    [str].  The state is the data fed so far: [h.update(a); h.update(b)]
    hashes [a + b]. *)
Definition sha256_update (h : string) (data : pystr) : result py_exc string :=
  match data with
  | PyBytes b => Ok (h ++ b)%string
  | PyText _ => Err (TypeError "Strings must be encoded before hashing")
  end.

Section Cache.
Context `{SH : Sha256}.
Variable root : node.
(** [BASE_DIR = os.getcwd()], also the directory relative paths resolve in. *)
Variable BASE_DIR : string.

(** The body of the walk loop of [list_files] for one directory. *)
Definition files_of_dir (dir_name : string) (file_list : list string) : list string :=
  map (fun file_ => OsPath.relpath BASE_DIR (OsPath.join BASE_DIR [dir_name; file_]) BASE_DIR)
      (List.filter (fun file_ => negb (ignored_file file_)) file_list).

(** [list_files(path)]: [set(files)], a list without duplicates. *)
Definition list_files (path : string) : list string :=
  remove_dups (flat_map (fun '(dir_name, _, file_list) => files_of_dir dir_name file_list)
                        (Walk.os_walk prune_subdirs root BASE_DIR path)).

(** taskgraph's [hash_path(path)]: the SHA-256 of the file's bytes. *)
Definition hash_path (path : string) : result py_exc string :=
  content <- read_file root BASE_DIR path ;;
  Ok (sha256_hexdigest content).

(** The files hashed for a task whose directory is [directory]. *)
Definition cache_files (directory : string) : list string :=
  list_files (OsPath.join2 BASE_DIR directory) ++
  list_files (OsPath.join2 BASE_DIR "taskcluster") ++
  List.filter (fun path => exists_path root BASE_DIR path) ADDITIONAL_FILES.

(** ["{} {}\n".format(hash_path(os.path.realpath(join(BASE_DIR, path))), path)]:
    a [str]; without symbolic links [realpath] names the same file. *)
Definition digest_line (path : string) : result py_exc string :=
  h <- hash_path (OsPath.join2 BASE_DIR path) ;;
  Ok (h ++ " " ++ path ++ String "010" EmptyString)%string.

(** [for path in sorted(list(files)): h.update(line)], from the state [h]
    of the running hash. *)
Fixpoint update_lines (h : string) (paths : list string) : result py_exc string :=
  match paths with
  | [] => Ok h
  | path :: rest =>
      line <- digest_line path ;;
      h <- sha256_update h (PyText line) ;;
      update_lines h rest
  end.

(** [h = hashlib.sha256()], the loop, then [h.hexdigest()]. *)
Definition files_digest (files : list string) : result py_exc string :=
  h <- update_lines EmptyString (py_sorted_set files) ;;
  Ok (sha256_hexdigest h).

(** One iteration of [for task in tasks] in [build_cache]. *)
Definition build_cache_task (fast : bool) (repo_name : string)
    (task : list (string * value)) : result py_exc (list (string * value)) :=
  if truthy (default (VBool true) (dict_lookup task "cache")) && negb fast then
    extra <- py_get (VDict task) "extra" (VDict []) ;;
    directory <- py_get extra "directory" (VStr BASE_DIR) ;;
    directory <- as_str directory ;;
    digest <- files_digest (cache_files directory) ;;
    task <- setdefault2 task "attributes" "cached_task" (VDict []) ;;
    label <- getitem task "label" ;;
    label <- res_map_err (fun _ => AttributeError (type_name label) "replace") (as_str label) ;;
    let cache_name := PyStr.replace label ":" "-" in
    Ok (dict_set task "cache"
          (VDict [("type", VStr (repo_name ++ ".v2")%string);
                  ("name", VStr cache_name);
                  ("digest-data", VList [VStr digest])]))
  else Ok task.

(** The transform: [repo_name] from the remote, then every task in order;
    taskgraph consumes the generator whole, and an exception stops the
    graph. *)
Definition build_cache (fast : bool) (git_stdout : string)
    (tasks : list (list (string * value))) : result py_exc (list (list (string * value))) :=
  repo_name <- repo_name_of (check_output git_stdout) ;;
  res_mapM (build_cache_task fast repo_name) tasks.

End Cache.
Section CacheLemmas.
Context `{SH : Sha256}.
Variable root : node.
Variable BASE_DIR : string.

Lemma relpath_walked_file bcs d p f :
  Forall (fun c => PathNames.valid_name c = true) bcs ->
  Forall (fun c => PathNames.valid_name c = true) (d ++ p) ->
  PathNames.valid_name f = true ->
  OsPath.relpath (PathNames.abs_path bcs)
    (OsPath.join (PathNames.abs_path bcs) [OsPath.join (PathNames.abs_path (bcs ++ d)) p; f])
    (PathNames.abs_path bcs) =
  String.concat "/" (d ++ p ++ [f]).
Proof.
  intros Hb Hdp Hf. apply Forall_app in Hdp as [Hd Hp].
  rewrite (PathNames.join_abs_path (bcs ++ d) p) by (try apply Forall_app; done).
  unfold OsPath.join; simpl. rewrite PathNames.join2_abs_path_r.
  rewrite PathNames.join2_abs_path by (repeat (apply Forall_app; split); done).
  rewrite <- !app_assoc. apply PathNames.relpath_abs_path; [done| |by destruct d, p].
  repeat (apply Forall_app; split); try done. by constructor.
Qed.

(** C5: Refinement of [list_files]: for a directory [d] below
    [BASE_DIR = /bcs], the set holds exactly the paths [d/p/f] of the
    files [f] without an ignored extension in the directories [p] the
    pruned walk reaches. *)
Theorem list_files_spec bcs d es x :
  Forall (fun c => PathNames.valid_name c = true) bcs ->
  Forall (fun c => PathNames.valid_name c = true) d ->
  BASE_DIR = PathNames.abs_path bcs ->
  lookup_path root (bcs ++ d) = Some (Dir es) -> wf (Dir es) = true ->
  x ∈ list_files root BASE_DIR (PathNames.abs_path (bcs ++ d)) <->
  exists p es' f, Walk.reach prune_subdirs es p es' /\ In f (filenames es') /\
                  ignored_file f = false /\ x = String.concat "/" (d ++ p ++ [f]).
Proof.
  intros Hb Hd HB Hl Hwf.
  assert (Hres : resolve root BASE_DIR (PathNames.abs_path (bcs ++ d)) = Some (Dir es)).
  { unfold resolve. rewrite PathNames.abs_comps_abs_path; [done|]. by apply Forall_app. }
  unfold list_files, Walk.os_walk. rewrite Hres, elem_of_remove_dups, list_elem_of_In, in_flat_map.
  split.
  - intros ([[t ds] fl] & Hin & Hx).
    apply Walk.walk_fuel_reach in Hin as (p & es' & Hr & -> & -> & ->); [|lia].
    unfold files_of_dir in Hx. apply in_map_iff in Hx as (f & <- & Hf).
    apply filter_In in Hf as [Hf Hig]. apply negb_true_iff in Hig.
    destruct (Walk.reach_wf _ _ _ _ Hwf Hr) as [Hp (_ & Hval & _)%wf_dir].
    exists p, es', f. do 3 (split; [done|]). rewrite HB.
    apply relpath_walked_file; [done|by apply Forall_app|by eapply Walk.filenames_valid].
  - intros (p & es' & f & Hr & Hf & Hig & ->).
    destruct (Walk.reach_wf _ _ _ _ Hwf Hr) as [Hp (_ & Hval & _)%wf_dir].
    exists (OsPath.join (PathNames.abs_path (bcs ++ d)) p, dirnames es', filenames es').
    split.
    + apply Walk.walk_fuel_reach; [lia|]. eauto 10.
    + unfold files_of_dir. apply in_map_iff. exists f. split.
      * rewrite HB. apply relpath_walked_file; [done|by apply Forall_app|by eapply Walk.filenames_valid].
      * apply filter_In. split; [done|]. by rewrite Hig.
Qed.

(** A task that opts out ([cache] falsy) or any task under
    [taskgraph.fast] passes through unchanged. *)
Theorem build_cache_task_skip fast repo_name task :
  fast = true \/ truthy (default (VBool true) (dict_lookup task "cache")) = false ->
  build_cache_task root BASE_DIR fast repo_name task = Ok task.
Proof.
  intros Hskip. unfold build_cache_task.
  destruct Hskip as [-> | Hc]; [by rewrite andb_false_r | by rewrite Hc].
Qed.

Lemma setdefault2_other d k1 k2 dflt d' k :
  k <> k1 -> setdefault2 d k1 k2 dflt = Ok d' -> dict_lookup d' k = dict_lookup d k.
Proof.
  intros Hk. unfold setdefault2, setdefault.
  destruct (dict_lookup d k1) as [v|] eqn:Hl; cbn [fst snd].
  - destruct (as_dict v _); [|done]. intros [= <-]. by rewrite dict_lookup_set_ne.
  - cbn [as_dict]. intros [= <-]. by rewrite !dict_lookup_set_ne.
Qed.

(** The transform writes [attributes] and [cache] only. *)
Lemma build_cache_task_other fast repo_name task task' k :
  k <> "attributes" -> k <> "cache" ->
  build_cache_task root BASE_DIR fast repo_name task = Ok task' ->
  dict_lookup task' k = dict_lookup task k.
Proof.
  intros Ha Hc. unfold build_cache_task. destruct (_ && _); [|by intros [= <-]].
  intros H. res_inv H. injection H as <-.
  rewrite dict_lookup_set_ne by done. eauto using setdefault2_other.
Qed.

(** With no file the loop feeds nothing: the digest of the empty input. *)
Lemma files_digest_nil : files_digest root BASE_DIR [] = Ok (sha256_hexdigest "").
Proof. reflexivity. Qed.

(** The loop stops at its first line: the error of [hash_path] on the
    first sorted file, or else the [TypeError] of [h.update] on a [str]. *)
Lemma files_digest_cons files x rest :
  py_sorted_set files = x :: rest ->
  files_digest root BASE_DIR files =
    Err (match hash_path root BASE_DIR (OsPath.join2 BASE_DIR x) with
         | Err e => e
         | Ok _ => TypeError "Strings must be encoded before hashing"
         end).
Proof.
  intros Hs. unfold files_digest. rewrite Hs. cbn [update_lines]. unfold digest_line.
  by destruct (hash_path root BASE_DIR (OsPath.join2 BASE_DIR x)).
Qed.

(** C7: The loop body of [build_cache] on a task to cache (not opted out,
    [taskgraph.fast] off) whose file set is not empty raises before it
    writes anything: [hash_path]'s error on the first sorted file, or the
    [TypeError] of [h.update] on the [str] line of line 64.  Decoding the
    remote's output would not make the transform work. *)
Theorem build_cache_task_raises repo_name task extra directory x rest :
  truthy (default (VBool true) (dict_lookup task "cache")) = true ->
  py_get (VDict task) "extra" (VDict []) = Ok extra ->
  py_get extra "directory" (VStr BASE_DIR) = Ok (VStr directory) ->
  py_sorted_set (cache_files root BASE_DIR directory) = x :: rest ->
  build_cache_task root BASE_DIR false repo_name task =
    Err (match hash_path root BASE_DIR (OsPath.join2 BASE_DIR x) with
         | Err e => e
         | Ok _ => TypeError "Strings must be encoded before hashing"
         end).
Proof.
  intros Hc He Hd Hs. unfold build_cache_task. rewrite Hc. cbn [andb negb].
  rewrite He. cbn [res_bind]. rewrite Hd. cbn [res_bind as_str].
  by rewrite (files_digest_cons _ _ _ Hs).
Qed.

(** C6: The cache transform raises [TypeError] on every graph: [check_output]
    gives bytes, and line 49 calls [bytes.replace] with [str] arguments
    before the loop over the tasks, whatever the remote, the tasks or
    [taskgraph.fast]. *)
Theorem build_cache_raises fast git_stdout tasks :
  build_cache root BASE_DIR fast git_stdout tasks = Err bytes_arg_error.
Proof. reflexivity. Qed.

End CacheLemmas.


(** ** Concrete checkouts *)

(** A stand-in for SHA-256 in the concrete runs: the lower-case hex of the
    bytes.  Like a hex digest it has no space, newline or slash. *)
Definition hex_digit (n : nat) : ascii :=
  ascii_of_nat (if (n <? 10)%nat then 48 + n else 87 + n)%nat.

Fixpoint hex_encode (s : string) : string :=
  match s with
  | EmptyString => EmptyString
  | String c s' =>
      String (hex_digit (nat_of_ascii c / 16)) (String (hex_digit (nat_of_ascii c mod 16))
                                                      (hex_encode s'))
  end.

Definition hex_sha : Sha256 := hex_encode.

Definition pkgA_listing : list (string * node) :=
  [("package.json", File "pj"); (".main.js.swp", File "s"); ("src", Dir [("a.js", File "A")])].

Definition repo_listing : list (string * node) :=
  [(".git", Dir [("config", File "")]);
   ("taskcluster", Dir [("ci.yml", File "ci"); ("x.pyc", File "junk")]);
   (".taskcluster.yml", File "tc"); ("pkgA", Dir pkgA_listing)].

Definition checkout : node := Dir [("repo", Dir repo_listing)].

Definition sample_task : list (string * value) :=
  [("label", VStr "build:pkgA"); ("extra", VDict [("directory", VStr "pkgA")])].

(** The remote's output as the code receives it: bytes, on which line 49
    raises. *)
Example repo_name_bytes :
  repo_name_of (check_output (String.concat "" ["git@github.com:mozilla-extensions/secure-proxy.git"; String "010" ""]))
  = Err bytes_arg_error.
Proof. reflexivity. Qed.

(** Decoded to text, lines 48 to 50 would give the repository's name. *)
Example repo_name_secure_proxy :
  repo_name_of (PyText (String.concat "" ["git@github.com:mozilla-extensions/secure-proxy.git"; String "010" ""]))
  = Ok "secure-proxy".
Proof. reflexivity. Qed.

(** *** Witnesses *)

Lemma list_files_spec_witness :
  "pkgA/src/a.js" ∈ list_files checkout "/repo" (PathNames.abs_path (["repo"] ++ ["pkgA"])) <->
  exists p es' f, Walk.reach prune_subdirs pkgA_listing p es' /\ In f (filenames es') /\
                  ignored_file f = false /\ "pkgA/src/a.js" = String.concat "/" (["pkgA"] ++ p ++ [f]).
Proof.
  apply (list_files_spec checkout "/repo" ["repo"] ["pkgA"] pkgA_listing).
  - repeat constructor.
  - repeat constructor.
  - reflexivity.
  - reflexivity.
  - vm_compute. reflexivity.
Defined.

Lemma build_cache_task_skip_witness :
  build_cache_task (SH := hex_sha) checkout "/repo" true "secure-proxy" sample_task = Ok sample_task.
Proof. apply build_cache_task_skip. left. reflexivity. Defined.

(** [pkgA]'s build task: its first sorted file is [.taskcluster.yml],
    which exists, so [h.update] raises. *)
Lemma build_cache_task_raises_witness :
  build_cache_task (SH := hex_sha) checkout "/repo" false "secure-proxy" sample_task =
  Err (TypeError "Strings must be encoded before hashing").
Proof.
  erewrite (build_cache_task_raises (SH := hex_sha) checkout "/repo" "secure-proxy" sample_task
              (VDict [("directory", VStr "pkgA")]) "pkgA" ".taskcluster.yml");
    [vm_compute; reflexivity|..]; vm_compute; reflexivity.
Defined.

End Cached.
