(* ===== verification/Build.v ===== *)
(** * The build transform: [build.py]

    [tasks_from_manifest(config, jobs)] expands every job template of the
    build kind once per manifest entry.  Each task is a [deepcopy] of the
    template, so a task is a value here (a [PyValue] dict) and no update of
    one task is seen by another; the variables [env], [run] and [extra]
    the code keeps are the dicts inside that task, so an assignment through
    them is an assignment at a path of the task ([PyValue.set_in]).
    [config.graph_config] is a dict; the [try] block evaluates
    [config.graph_config["github_clone_secret"]] first and then the name
    [checkout_config], which the module never defines: a missing key is the
    [KeyError] the [except] catches, a present key the [NameError] it does
    not. *)

From Stdlib Require Import String Ascii ZArith.
From stdpp Require Import base list strings.
From S2P Require Import Prelude PyValue Walk Manifest.

Local Open Scope string_scope.
Local Open Scope py_scope.

Module Build.
Import PyValue Manifest.

Definition dict := list (string * value).

(** The [try] / [except KeyError] block: the artifact prefix, or the
    [NameError] raised once the key is found. *)
Definition artifact_prefix_of (graph_config : dict) : result py_exc string :=
  match dict_lookup graph_config "github_clone_secret" with
  | None => Ok "public/build"
  | Some _ => Err (NameError "checkout_config")
  end.

(** The artifact appended to [task["worker"]["artifacts"]]. *)
Definition build_artifact (artifact_prefix : string) : value :=
  VDict [("type", VStr "directory"); ("name", VStr artifact_prefix);
         ("path", VStr "/builds/worker/artifacts")].

(** The body of the inner loop, lines 25-54, for one template and one
    manifest entry; each step is the statement in its comment. *)
Definition build_task (graph_config : dict) (job : dict) (xpi : xpi_config) : result py_exc dict :=
  let task := job in
  (* env = task.setdefault("worker", {}).setdefault("env", {}) *)
  task <- setdefault_in task [] "worker" (VDict []) ;;
  task <- setdefault_in task ["worker"] "env" (VDict []) ;;
  (* run = task.setdefault("run", {}) *)
  task <- setdefault_in task [] "run" (VDict []) ;;
  (* if "directory" in xpi_config: ... *)
  task <- (match directory xpi with
           | Some dir =>
               task <- set_in task ["run"] "cwd" (VStr ("{checkout}/" ++ dir)) ;;
               task <- setdefault_in task [] "extra" (VDict []) ;;
               set_in task ["extra"] "directory" (VStr dir)
           | None => Ok task
           end) ;;
  (* task["label"] = "build-{}".format(xpi_config["name"]) *)
  task <- set_in task [] "label" (VStr ("build-" ++ name xpi)) ;;
  (* env["XPI_NAME"] = xpi_config["name"] *)
  task <- set_in task ["worker"; "env"] "XPI_NAME" (VStr (name xpi)) ;;
  (* task.setdefault("extra", {})["xpi-name"] = xpi_config["name"] *)
  task <- setdefault_in task [] "extra" (VDict []) ;;
  task <- set_in task ["extra"] "xpi-name" (VStr (name xpi)) ;;
  artifact_prefix <- artifact_prefix_of graph_config ;;
  (* env["ARTIFACT_PREFIX"] = artifact_prefix *)
  task <- set_in task ["worker"; "env"] "ARTIFACT_PREFIX" (VStr artifact_prefix) ;;
  (* task["worker"].setdefault("artifacts", []).append({...}) *)
  task <- append_in task ["worker"] "artifacts" (build_artifact artifact_prefix) ;;
  (* if xpi_config.get("install-type"): env["XPI_INSTALL_TYPE"] = ... *)
  if truthy (VStr (install_type xpi))
  then set_in task ["worker"; "env"] "XPI_INSTALL_TYPE" (VStr (install_type xpi))
  else Ok task.

(** The generator, consumed to the end or to its first exception: for each
    job, for each manifest entry. *)
Definition tasks_from_manifest (manifest : list xpi_config) (graph_config : dict) (jobs : list dict) :
    result py_exc (list dict) :=
  res_mapM (fun '(job, xpi) => build_task graph_config job xpi) (list_prod jobs manifest).

(** With the manifest of [get_manifest()] (memoized): the exceptions of
    discovery come first, then those of the expansion. *)
Definition build_transform `{JD : JsonDecoder} (root : Fs.node) (BASE_DIR : string)
    (memo : option (list xpi_config)) (graph_config : dict) (jobs : list dict) :
    result py_exc (list dict) * option (list xpi_config) :=
  let '(r, memo') := get_manifest root BASE_DIR memo in
  (manifest <- r ;; tasks_from_manifest manifest graph_config jobs, memo').

(** The templates [build_task] expands without a [TypeError] or an
    [AttributeError]: [worker], [worker.env], [run] and [extra] are dicts
    when present, [worker.artifacts] a list. *)
Definition template_ok (job : dict) : bool :=
  dict_or_absent (lookup_at (VDict job) ["worker"]) &&
  dict_or_absent (lookup_at (VDict job) ["worker"; "env"]) &&
  list_or_absent (lookup_at (VDict job) ["worker"; "artifacts"]) &&
  dict_or_absent (lookup_at (VDict job) ["run"]) &&
  dict_or_absent (lookup_at (VDict job) ["extra"]).

Local Open Scope list_scope.

(** Run a chain of binds whose steps succeed, proving the container of
    each write is a dict by [lookup_back]. *)
Ltac res_run :=
  repeat match goal with
  | |- context [res_bind (set_in ?d ?p ?k ?v) _] =>
      let t := fresh "t" in let E := fresh "E" in
      destruct (set_in_total d p k v) as [t E]; [lookup_back; done|rewrite E, res_bind_ret; cbv beta]
  | |- context [res_bind (setdefault_in ?d ?p ?k ?v) _] =>
      let t := fresh "t" in let E := fresh "E" in
      destruct (setdefault_in_total d p k v) as [t E]; [lookup_back; done|rewrite E, res_bind_ret; cbv beta]
  | |- context [res_bind (append_in ?d ?p ?k ?v) _] =>
      let t := fresh "t" in let E := fresh "E" in
      destruct (append_in_total d p k v) as [t E]; [lookup_back; done|lookup_back; done|rewrite E, res_bind_ret; cbv beta]
  end.

Section BuildLemmas.
Variable graph_config : dict.
Variable job : dict.
Variable xpi : xpi_config.

Lemma template_ok_spec :
  template_ok job = true ->
  dict_or_absent (lookup_at (VDict job) ["worker"]) = true /\
  dict_or_absent (lookup_at (VDict job) ["worker"; "env"]) = true /\
  list_or_absent (lookup_at (VDict job) ["worker"; "artifacts"]) = true /\
  dict_or_absent (lookup_at (VDict job) ["run"]) = true /\
  dict_or_absent (lookup_at (VDict job) ["extra"]) = true.
Proof. unfold template_ok. intros H. repeat apply andb_prop in H as [H ?]. done. Qed.

(** The steps of [build_task] up to the [try] block succeed on a
    well-shaped template, and the result is then decided there. *)
Lemma build_task_prefix_step :
  template_ok job = true ->
  exists task, build_task graph_config job xpi =
    (artifact_prefix <- artifact_prefix_of graph_config ;;
     task <- set_in task ["worker"; "env"] "ARTIFACT_PREFIX" (VStr artifact_prefix) ;;
     task <- append_in task ["worker"] "artifacts" (build_artifact artifact_prefix) ;;
     if truthy (VStr (install_type xpi))
     then set_in task ["worker"; "env"] "XPI_INSTALL_TYPE" (VStr (install_type xpi))
     else Ok task) /\
    is_dict (lookup_at (VDict task) ["worker"; "env"]) = true /\
    is_dict (lookup_at (VDict task) ["worker"]) = true /\
    list_or_absent (lookup_at (VDict task) ["worker"; "artifacts"]) = true.
Proof.
  intros (Hw & He & Ha & Hr & Hx)%template_ok_spec. unfold build_task. res_run.
  destruct (directory xpi) as [dir|]; rewrite ?res_bind_ret; res_run;
    (eexists; split; [reflexivity|]); repeat split; lookup_back; auto.
Qed.

(** What a finished expansion holds. *)
Definition build_task_post (t : dict) : Prop :=
  lookup_at (VDict t) ["label"] = Some (VStr ("build-" ++ name xpi)) /\
  lookup_at (VDict t) ["worker"; "env"; "XPI_NAME"] = Some (VStr (name xpi)) /\
  lookup_at (VDict t) ["worker"; "env"; "ARTIFACT_PREFIX"] = Some (VStr "public/build") /\
  lookup_at (VDict t) ["worker"; "env"; "XPI_INSTALL_TYPE"] =
    (if truthy (VStr (install_type xpi)) then Some (VStr (install_type xpi))
     else lookup_at (VDict job) ["worker"; "env"; "XPI_INSTALL_TYPE"]) /\
  lookup_at (VDict t) ["extra"; "xpi-name"] = Some (VStr (name xpi)) /\
  lookup_at (VDict t) ["worker"; "artifacts"] =
    Some (VList (list_items (lookup_at (VDict job) ["worker"; "artifacts"]) ++
                 [build_artifact "public/build"])) /\
  (forall dir, directory xpi = Some dir ->
     lookup_at (VDict t) ["run"; "cwd"] = Some (VStr ("{checkout}/" ++ dir)) /\
     lookup_at (VDict t) ["extra"; "directory"] = Some (VStr dir)) /\
  (directory xpi = None ->
     lookup_at (VDict t) ["extra"; "directory"] = lookup_at (VDict job) ["extra"; "directory"]) /\
  (forall k rest, k ∉ ["worker"; "run"; "extra"; "label"] ->
     lookup_at (VDict t) (k :: rest) = lookup_at (VDict job) (k :: rest)).

Lemma build_task_writes t :
  build_task graph_config job xpi = Ok t ->
  dict_lookup graph_config "github_clone_secret" = None /\ build_task_post t.
Proof.
  unfold build_task, build_task_post. intros H. res_inv H.
  destruct (directory xpi) as [dir|] eqn:Hd; res_inv E2; res_inv H;
    match goal with
    | Ep : artifact_prefix_of _ = Ok _ |- _ =>
        unfold artifact_prefix_of in Ep; destruct (dict_lookup graph_config _); [done|];
        injection Ep as <-
    end;
    destruct (truthy (VStr (install_type xpi))); try injection H as <-;
    (split; [done|]); repeat split; intros; simplify_eq; lookup_back; done.
Qed.

End BuildLemmas.

(** C8: On a template whose [worker], [worker.env], [run] and [extra] are
    dicts or absent and whose [worker.artifacts] is a list or absent, and a
    graph configuration without [github_clone_secret], the expansion of a
    manifest entry succeeds: it is labelled ["build-" ++ name], its
    [worker.env] holds [XPI_NAME], [ARTIFACT_PREFIX = "public/build"] and
    [XPI_INSTALL_TYPE], [extra] holds [xpi-name], one directory artifact is
    appended to the template's artifacts, [run.cwd] and [extra.directory]
    are set for an entry below the root, and every other field of the
    template is left as it was. *)
Theorem build_task_spec graph_config job xpi :
  template_ok job = true -> dict_lookup graph_config "github_clone_secret" = None ->
  exists t, build_task graph_config job xpi = Ok t /\ build_task_post job xpi t.
Proof.
  intros Hj Hg. destruct (build_task_prefix_step graph_config job xpi Hj) as (task & Hb & He & Hw & Ha).
  assert (exists t, build_task graph_config job xpi = Ok t) as [t Ht].
  { rewrite Hb. unfold artifact_prefix_of. rewrite Hg, res_bind_ret. cbv beta. res_run.
    destruct (truthy (VStr (install_type xpi))); [apply set_in_total; lookup_back; done|eauto]. }
  exists t. split; [done|]. by apply build_task_writes in Ht as [_ ?].
Qed.

(** With [github_clone_secret] configured, line 36 raises [NameError]. *)
Lemma build_task_clone_secret graph_config job xpi s :
  dict_lookup graph_config "github_clone_secret" = Some s -> template_ok job = true ->
  build_task graph_config job xpi = Err (NameError "checkout_config").
Proof.
  intros Hg Hj. destruct (build_task_prefix_step graph_config job xpi Hj) as (task & -> & _).
  unfold artifact_prefix_of. by rewrite Hg.
Qed.

Lemma tasks_from_manifest_Ok manifest graph_config jobs ts :
  tasks_from_manifest manifest graph_config jobs = Ok ts ->
  Forall2 (fun '(job, xpi) t => dict_lookup graph_config "github_clone_secret" = None /\
                               build_task_post job xpi t)
          (list_prod jobs manifest) ts.
Proof.
  unfold tasks_from_manifest. rewrite res_mapM_Ok. intros H.
  eapply Forall2_impl; [exact H|]. intros [job xpi] t. apply build_task_writes.
Qed.

(** The build transform yields, in loop order (for each template, for
    each manifest entry), exactly one task per pair, and the task of a pair
    is that pair's expansion: [length jobs * length manifest] tasks. *)
Theorem tasks_from_manifest_fanout manifest graph_config jobs ts :
  tasks_from_manifest manifest graph_config jobs = Ok ts ->
  length ts = length jobs * length manifest /\
  Forall2 (fun '(job, xpi) t => build_task_post job xpi t) (list_prod jobs manifest) ts.
Proof.
  intros H%tasks_from_manifest_Ok. split.
  - by rewrite <-(Forall2_length _ _ _ H), prod_length.
  - eapply Forall2_impl; [exact H|]. by intros [] t [_ ?].
Qed.

Lemma build_labels manifest graph_config job ts :
  tasks_from_manifest manifest graph_config [job] = Ok ts ->
  map (fun t => lookup_at (VDict t) ["label"]) ts =
  map (fun x => Some (VStr ("build-" ++ name x))) manifest.
Proof.
  intros H%tasks_from_manifest_Ok. simpl in H. rewrite app_nil_r, Forall2_fmap_l in H.
  apply Forall2_map_eq. eapply Forall2_impl; [exact H|]. by intros x t [_ [-> _]].
Qed.

(** C19: Run with the manifest of [get_manifest()] on one template (the
    build kind's), the build transform gives every task a distinct label:
    the manifest validation makes the names distinct, and
    ["build-" ++ name] keeps them apart. *)
Theorem build_transform_labels_unique `{JD : JsonDecoder} root BASE_DIR graph_config job ts st :
  build_transform root BASE_DIR None graph_config [job] = (Ok ts, st) ->
  NoDup (map (fun t => lookup_at (VDict t) ["label"]) ts).
Proof.
  unfold build_transform. destruct (get_manifest root BASE_DIR None) as [r memo] eqn:Hg.
  destruct r as [ms|]; [|by intros [=]]. cbn [res_bind].
  destruct (tasks_from_manifest ms graph_config [job]) as [ts'|] eqn:Ht; [|by intros [=]].
  intros [= <- _]. apply get_manifest_Ok in Hg as (_ & _ & (Hnd & _)%check_manifest_Ok_inv).
  rewrite (build_labels _ _ _ _ Ht), <-(map_map name (fun n => Some (VStr ("build-" ++ n)))).
  apply NoDup_map_inj; [|done]. by intros a b [= ?%str_app_inj_l].
Qed.

(** C13: When the graph configuration names a [github_clone_secret] (the
    private-checkout case the code means to support), the build transform
    never chooses the private prefix ["xpi/build"]: on the first template,
    if it is well shaped, and the first manifest entry, line 36 raises
    [NameError] on the undefined [checkout_config], which the
    [except KeyError] does not catch, and the whole transform fails. *)
Theorem build_transform_clone_secret `{JD : JsonDecoder} root BASE_DIR memo graph_config job jobs ms st s :
  get_manifest root BASE_DIR memo = (Ok ms, st) -> ms <> [] -> template_ok job = true ->
  dict_lookup graph_config "github_clone_secret" = Some s ->
  build_transform root BASE_DIR memo graph_config (job :: jobs) =
  (Err (NameError "checkout_config"), st).
Proof.
  intros Hg Hms Hj Hs. unfold build_transform. rewrite Hg. cbn [res_bind].
  destruct ms as [|x ms]; [done|]. unfold tasks_from_manifest. cbn [list_prod map app res_mapM].
  by rewrite (build_task_clone_secret _ _ _ _ Hs Hj).
Qed.

(** ** The [pkgA] checkout *)

Definition job_build : dict :=
  [("worker", VDict [("docker-image", VStr "node-lts")]);
   ("run", VDict [("using", VStr "run-task"); ("command", VStr "build.sh")])].

(** The task the transform makes of [job_build] for [pkgA]. *)
Example build_task_pkgA :
  build_transform (JD := scripts_decoder) checkout_pkgA "/repo" None [] [job_build] =
  (Ok [[("worker", VDict [("docker-image", VStr "node-lts");
                          ("env", VDict [("XPI_NAME", VStr "pkgA");
                                         ("ARTIFACT_PREFIX", VStr "public/build");
                                         ("XPI_INSTALL_TYPE", VStr "yarn")]);
                          ("artifacts", VList [build_artifact "public/build"])]);
        ("run", VDict [("using", VStr "run-task"); ("command", VStr "build.sh");
                       ("cwd", VStr "{checkout}/pkgA")]);
        ("extra", VDict [("directory", VStr "pkgA"); ("xpi-name", VStr "pkgA")]);
        ("label", VStr "build-pkgA")]],
   Some [pkgA_record]).
Proof. vm_compute. reflexivity. Qed.

Definition graph_config_private : dict := [("github_clone_secret", VStr "project/xpi/clone")].

Lemma build_task_spec_witness :
  template_ok job_build = true /\ dict_lookup [] "github_clone_secret" = None /\
  exists t, build_task [] job_build pkgA_record = Ok t /\ build_task_post job_build pkgA_record t.
Proof.
  split; [reflexivity|]. split; [reflexivity|].
  apply (build_task_spec [] job_build pkgA_record); reflexivity.
Defined.

Lemma build_transform_clone_secret_witness :
  get_manifest (JD := scripts_decoder) checkout_pkgA "/repo" None = (Ok [pkgA_record], Some [pkgA_record]) /\
  build_transform (JD := scripts_decoder) checkout_pkgA "/repo" None graph_config_private [job_build] =
  (Err (NameError "checkout_config"), Some [pkgA_record]).
Proof.
  split; [vm_compute; reflexivity|].
  apply (build_transform_clone_secret (JD := scripts_decoder) checkout_pkgA "/repo" None
           graph_config_private job_build [] [pkgA_record] (Some [pkgA_record]) (VStr "project/xpi/clone"));
    [vm_compute; reflexivity|done|reflexivity|reflexivity].
Defined.

Definition two_records : list xpi_config :=
  [pkgA_record; {| name := "pkgB"; tests := []; install_type := "npm"; directory := Some "pkgB" |}].

Lemma tasks_from_manifest_fanout_witness :
  exists ts, tasks_from_manifest two_records [] [job_build; []] = Ok ts /\
  length ts = 2 * 2 /\
  Forall2 (fun '(job, xpi) t => build_task_post job xpi t) (list_prod [job_build; []] two_records) ts.
Proof.
  eexists. split; [vm_compute; reflexivity|].
  apply (tasks_from_manifest_fanout two_records [] [job_build; []]). vm_compute. reflexivity.
Defined.

Lemma build_transform_labels_unique_witness :
  exists ts, build_transform (JD := scripts_decoder) checkout_pkgA "/repo" None [] [job_build] =
             (Ok ts, Some [pkgA_record]) /\
  NoDup (map (fun t => lookup_at (VDict t) ["label"]) ts).
Proof.
  eexists. split; [vm_compute; reflexivity|].
  apply (build_transform_labels_unique (JD := scripts_decoder) checkout_pkgA "/repo" [] job_build _
           (Some [pkgA_record])). vm_compute. reflexivity.
Defined.

End Build.
