(* ===== verification/TestKind.v ===== *)
(** * The test transform: [test.py]

    [test_tasks_from_manifest(config, jobs)] expands every job template of
    the test kind once per manifest entry and per test target of the entry,
    the targets in [sorted] order.  Each task is a [deepcopy] of the
    template, updated through the variables [env], [run] and [extra] that
    hold dicts inside it ([PyValue.set_in]); [run["command"]] is a
    [str.format] template in which [{target}] is replaced by the target.
    The module-level dict [test_count] counts the tasks expanded per
    sub-project; it is incremented before the task is built, so a task
    whose expansion raises is counted, and it persists across calls: it is
    the state the transform threads ([test_loop]).  The [try] block is the
    one of [build.py] ([Build.artifact_prefix_of]). *)

From Stdlib Require Import String Ascii ZArith.
From stdpp Require Import base list strings sets sorting.
From S2P Require Import Prelude PyStr PyValue Walk Manifest Build.

Local Open Scope string_scope.
Local Open Scope py_scope.

Module TestKind.
Import PyValue Manifest Build.

(** ** [str.format(target=target)]

    The format string is scanned as CPython's [MarkupIterator] does:
    literal text, the escapes ["{{"] and ["}}"], and replacement fields
    ["{name}"].  A field named [target] is the keyword argument; an empty
    or numeric name is a positional index, of which there are none
    ([IndexError]); any other name is a missing keyword ([KeyError]).
    Fields with a conversion, a format spec, an attribute or an index
    ([!], [:], [.], [[]) after the name are not modelled: the model raises
    [ValueError] for them. *)

Inductive fmt_state := Lit | OpenBrace | InField (acc : string) | CloseBrace.

Definition is_digit (c : ascii) : bool :=
  let n := nat_of_ascii c in ((48 <=? n) && (n <=? 57))%nat.

Definition field_value (target field : string) : result py_exc string :=
  if bool_decide (field = "target") then Ok target
  else if PathNames.has_char ":"%char field || PathNames.has_char "!"%char field ||
          PathNames.has_char "."%char field || PathNames.has_char "["%char field
  then Err (ValueError "replacement field")
  else if forallb is_digit (list_ascii_of_string field)
  then Err (IndexError "Replacement index out of range for positional args tuple")
  else Err (KeyError field).

Fixpoint format_go (target : string) (st : fmt_state) (s : string) : result py_exc string :=
  match s with
  | EmptyString =>
      match st with
      | Lit => Ok ""
      | OpenBrace => Err (ValueError "Single '{' encountered in format string")
      | InField _ => Err (ValueError "expected '}' before end of string")
      | CloseBrace => Err (ValueError "Single '}' encountered in format string")
      end
  | String c r =>
      match st with
      | Lit =>
          if bool_decide (c = "{"%char) then format_go target OpenBrace r
          else if bool_decide (c = "}"%char) then format_go target CloseBrace r
          else rest <- format_go target Lit r ;; Ok (String c rest)
      | OpenBrace =>
          if bool_decide (c = "{"%char) then rest <- format_go target Lit r ;; Ok (String c rest)
          else if bool_decide (c = "}"%char) then
            v <- field_value target "" ;; rest <- format_go target Lit r ;; Ok (v ++ rest)
          else format_go target (InField (String c "")) r
      | InField acc =>
          if bool_decide (c = "}"%char) then
            v <- field_value target acc ;; rest <- format_go target Lit r ;; Ok (v ++ rest)
          else if bool_decide (c = "{"%char) then Err (ValueError "unexpected '{' in field name")
          else format_go target (InField (acc ++ String c "")) r
      | CloseBrace =>
          if bool_decide (c = "}"%char) then rest <- format_go target Lit r ;; Ok (String c rest)
          else Err (ValueError "Single '}' encountered in format string")
      end
  end.

(** [x.format(target=target)]: only a [str] has [format]. *)
Definition str_format_target (x : value) (target : string) : result py_exc string :=
  match x with
  | VStr s => format_go target Lit s
  | _ => Err (AttributeError (type_name x) "format")
  end.

(** ** The transform *)

(** [test_count.setdefault(xpi_name, 0); test_count[xpi_name] += 1] *)
Definition count_test (test_count : dict) (xpi_name : string) : result py_exc dict :=
  let '(v, tc) := setdefault test_count xpi_name (VNum 0) in
  match v with
  | VNum z => Ok (dict_set tc xpi_name (VNum (z + 1)))
  | _ => Err (TypeError (type_name v))
  end.

(** The body of the innermost loop after the count, lines 30 and 33-52,
    for one template, one manifest entry and one target. *)
Definition test_task (graph_config : dict) (job : dict) (xpi : xpi_config) (target : string) :
    result py_exc dict :=
  let task := job in
  (* task.setdefault("extra", {})["xpi-name"] = xpi_name *)
  task <- setdefault_in task [] "extra" (VDict []) ;;
  task <- set_in task ["extra"] "xpi-name" (VStr (name xpi)) ;;
  (* env = task.setdefault("worker", {}).setdefault("env", {}) *)
  task <- setdefault_in task [] "worker" (VDict []) ;;
  task <- setdefault_in task ["worker"] "env" (VDict []) ;;
  (* run = task["run"] *)
  _ <- getitem task "run" ;;
  task <- (match directory xpi with
           | Some dir =>
               task <- set_in task ["run"] "cwd" (VStr ("{checkout}/" ++ dir)) ;;
               task <- setdefault_in task [] "extra" (VDict []) ;;
               set_in task ["extra"] "directory" (VStr dir)
           | None => set_in task ["run"] "cwd" (VStr "{checkout}")
           end) ;;
  (* run["command"] = run["command"].format(target=target) *)
  command <- (match lookup_at (VDict task) ["run"; "command"] with
              | Some v => Ok v
              | None => Err (KeyError "command")
              end) ;;
  command' <- str_format_target command target ;;
  task <- set_in task ["run"] "command" (VStr command') ;;
  (* task["label"] = "t-{}-{}".format(target, xpi_name) *)
  task <- set_in task [] "label" (VStr ("t-" ++ target ++ "-" ++ name xpi)) ;;
  artifact_prefix <- artifact_prefix_of graph_config ;;
  (* env["ARTIFACT_PREFIX"] = artifact_prefix *)
  set_in task ["worker"; "env"] "ARTIFACT_PREFIX" (VStr artifact_prefix).

(** The loop nest, in the order it runs: for each job, for each manifest
    entry, for each target of [sorted(xpi_config["tests"])]. *)
Definition entry_items (job : dict) (xpi : xpi_config) : list (dict * xpi_config * string) :=
  map (fun t => (job, xpi, t)) (py_sorted (tests xpi)).

Definition test_items (manifest : list xpi_config) (jobs : list dict) :
    list (dict * xpi_config * string) :=
  flat_map (fun job => flat_map (entry_items job) manifest) jobs.

(** The generator consumed to the end or to its first exception, with the
    module-level [test_count] before and after. *)
Fixpoint test_loop (graph_config : dict) (test_count : dict)
    (items : list (dict * xpi_config * string)) : dict * result py_exc (list dict) :=
  match items with
  | [] => (test_count, Ok [])
  | (job, xpi, target) :: rest =>
      match count_test test_count (name xpi) with
      | Err e => (test_count, Err e)
      | Ok tc =>
          match test_task graph_config job xpi target with
          | Err e => (tc, Err e)
          | Ok t =>
              let '(tc', r) := test_loop graph_config tc rest in
              (tc', ts <- r ;; Ok (t :: ts))
          end
      end
  end.

Definition test_tasks_from_manifest (manifest : list xpi_config) (graph_config : dict)
    (test_count : dict) (jobs : list dict) : dict * result py_exc (list dict) :=
  test_loop graph_config test_count (test_items manifest jobs).

(** With [get_manifest()]: the memo and [test_count] are the process
    state the transform reads and updates. *)
Definition test_transform `{JD : JsonDecoder} (root : Fs.node) (BASE_DIR : string)
    (memo : option (list xpi_config)) (test_count : dict) (graph_config : dict) (jobs : list dict) :
    result py_exc (list dict) * option (list xpi_config) * dict :=
  let '(r, memo') := get_manifest root BASE_DIR memo in
  match r with
  | Err e => (Err e, memo', test_count)
  | Ok manifest =>
      let '(tc, r') := test_tasks_from_manifest manifest graph_config test_count jobs in
      (r', memo', tc)
  end.

(** ** [str.format] *)

Definition brace_free (s : string) : bool :=
  negb (PathNames.has_char "{"%char s) && negb (PathNames.has_char "}"%char s).

Lemma brace_free_cons c s :
  brace_free (String c s) = true -> c <> "{"%char /\ c <> "}"%char /\ brace_free s = true.
Proof.
  unfold brace_free. cbn [PathNames.has_char]. intros H.
  destruct (decide (c = "{"%char)) as [->|Hc1]; [by rewrite bool_decide_eq_true_2 in H|].
  destruct (decide (c = "}"%char)) as [->|Hc2].
  { revert H. rewrite (bool_decide_eq_true_2 ("}"%char = "}"%char)) by done.
    by rewrite orb_true_l, andb_false_r. }
  rewrite !bool_decide_eq_false_2 in H by done. auto.
Qed.

Lemma format_go_plain target s r :
  brace_free s = true ->
  format_go target Lit (s ++ r) =
  match format_go target Lit r with Ok x => Ok (s ++ x) | Err e => Err e end.
Proof.
  induction s as [|c s IH]; intros Hs.
  - rewrite str_app_nil_l. destruct (format_go target Lit r); [|done].
    by rewrite str_app_nil_l.
  - rewrite str_app_cons. apply brace_free_cons in Hs as (H1 & H2 & Hs).
    cbn [format_go]. rewrite !bool_decide_eq_false_2 by done.
    rewrite IH by done. destruct (format_go target Lit r); [|done].
    by rewrite str_app_cons.
Qed.

Lemma format_go_target target r :
  format_go target Lit ("{target}" ++ r) =
  match format_go target Lit r with Ok x => Ok (target ++ x) | Err e => Err e end.
Proof. autorewrite with xpi_rw. reflexivity. Qed.

(** [command.format(target=target)] on a template whose pieces around
    the placeholders have no brace. *)
Lemma str_format_target_subst target parts :
  Forall (fun p => brace_free p = true) parts ->
  str_format_target (VStr (String.concat "{target}" parts)) target =
  Ok (String.concat target parts).
Proof.
  unfold str_format_target. induction 1 as [|p ps Hp Hps IH]; [done|].
  destruct ps as [|q ps].
  - cbn [String.concat]. rewrite <-(str_app_nil_r p), format_go_plain by done. done.
  - change (String.concat "{target}" (p :: q :: ps)) with (p ++ ("{target}" ++ String.concat "{target}" (q :: ps))).
    change (String.concat target (p :: q :: ps)) with (p ++ (target ++ String.concat target (q :: ps))).
    by rewrite format_go_plain, format_go_target, IH.
Qed.

(** ** One task *)

Definition test_template_ok (job : dict) : bool :=
  dict_or_absent (lookup_at (VDict job) ["extra"]) &&
  dict_or_absent (lookup_at (VDict job) ["worker"]) &&
  dict_or_absent (lookup_at (VDict job) ["worker"; "env"]) &&
  is_dict (lookup_at (VDict job) ["run"]).

Local Open Scope list_scope.

Section TestLemmas.
Variable graph_config : dict.
Variable job : dict.
Variable xpi : xpi_config.
Variable target : string.

(** What an expanded test task holds. *)
Definition test_task_post (t : dict) : Prop :=
  lookup_at (VDict t) ["label"] = Some (VStr ("t-" ++ target ++ "-" ++ name xpi)) /\
  lookup_at (VDict t) ["extra"; "xpi-name"] = Some (VStr (name xpi)) /\
  lookup_at (VDict t) ["worker"; "env"; "ARTIFACT_PREFIX"] = Some (VStr "public/build") /\
  lookup_at (VDict t) ["run"; "cwd"] =
    Some (VStr (match directory xpi with Some dir => "{checkout}/" ++ dir | None => "{checkout}" end)) /\
  (exists command command',
     lookup_at (VDict job) ["run"; "command"] = Some command /\
     str_format_target command target = Ok command' /\
     lookup_at (VDict t) ["run"; "command"] = Some (VStr command')) /\
  (forall dir, directory xpi = Some dir -> lookup_at (VDict t) ["extra"; "directory"] = Some (VStr dir)) /\
  (directory xpi = None ->
     lookup_at (VDict t) ["extra"; "directory"] = lookup_at (VDict job) ["extra"; "directory"]) /\
  (forall k rest, k ∉ ["extra"; "worker"; "run"; "label"] ->
     lookup_at (VDict t) (k :: rest) = lookup_at (VDict job) (k :: rest)).

Lemma test_task_writes t :
  test_task graph_config job xpi target = Ok t ->
  dict_lookup graph_config "github_clone_secret" = None /\ test_task_post t.
Proof.
  unfold test_task, test_task_post. intros H. res_inv H.
  destruct (directory xpi) as [dir|] eqn:Hd; [res_inv E4|]; res_inv H;
    match goal with
    | Ep : artifact_prefix_of _ = Ok _ |- _ =>
        unfold artifact_prefix_of in Ep; destruct (dict_lookup graph_config _); [done|];
        injection Ep as <-
    end;
    match goal with
    | Ec : (match lookup_at (VDict ?t) ["run"; "command"] with Some _ => _ | None => _ end) = Ok ?c |- _ =>
        destruct (lookup_at (VDict t) ["run"; "command"]) as [cmd|] eqn:Hc; [injection Ec as <-|done]
    end;
    (split; [done|]); repeat split; intros; simplify_eq; try (eexists _, _; repeat split);
    lookup_back; eauto; by rewrite <-Hc; lookup_back.
Qed.

End TestLemmas.

(** ** The loop *)

(** [test_count.get(n, 0)] for the counts the code stores. *)
Definition count_of (test_count : dict) (n : string) : Z :=
  match dict_lookup test_count n with Some (VNum z) => z | _ => 0 end.

Lemma count_test_spec tc m tc' :
  count_test tc m = Ok tc' ->
  forall n, count_of tc' n = (count_of tc n + if bool_decide (n = m) then 1 else 0)%Z.
Proof.
  unfold count_test, setdefault, count_of. intros H n.
  destruct (dict_lookup tc m) as [v|] eqn:Hm; simpl in H.
  - destruct v; try done. injection H as <-.
    case_bool_decide; [subst; by rewrite dict_lookup_set_eq, Hm|].
    rewrite dict_lookup_set_ne by done. lia.
  - injection H as <-. case_bool_decide.
    + subst. by rewrite dict_lookup_set_eq, Hm.
    + rewrite !dict_lookup_set_ne by done. lia.
Qed.

Lemma test_loop_Ok graph_config tc items tc' ts :
  test_loop graph_config tc items = (tc', Ok ts) ->
  Forall2 (fun '(job, xpi, target) t => test_task graph_config job xpi target = Ok t) items ts /\
  forall n, count_of tc' n =
    (count_of tc n + Z.of_nat (length (filter (fun it : dict * xpi_config * string => name it.1.2 = n) items)))%Z.
Proof.
  revert tc ts. induction items as [|[[job xpi] target] items IH]; intros tc ts; simpl.
  - intros [= <- <-]. split; [constructor|]. intros n. simpl. lia.
  - destruct (count_test tc (name xpi)) as [tc1|] eqn:Hc; [|done].
    destruct (test_task graph_config job xpi target) as [t|] eqn:Ht; [|done].
    destruct (test_loop graph_config tc1 items) as [tc2 [ts'|]] eqn:Hl; [|done].
    intros [= -> <-]. destruct (IH _ _ Hl) as [Hf Hn]. split; [by constructor|].
    intros n. rewrite Hn, (count_test_spec _ _ _ Hc n), filter_cons. simpl.
    case_bool_decide; case_decide; simpl; try congruence; lia.
Qed.

Lemma entry_items_length job xpi : length (entry_items job xpi) = length (tests xpi).
Proof. unfold entry_items. by rewrite length_map, (Permutation_length (py_sorted_Permutation _)). Qed.

Lemma test_items_length manifest jobs :
  length (test_items manifest jobs) = length jobs * sum_list (map (fun x => length (tests x)) manifest).
Proof.
  unfold test_items. induction jobs as [|job jobs IH]; [done|]. simpl.
  rewrite length_app, IH. f_equal. clear IH.
  induction manifest as [|x m IHm]; [done|]. simpl. by rewrite length_app, IHm, entry_items_length.
Qed.

Lemma entry_items_filter job x n :
  filter (fun it : dict * xpi_config * string => name it.1.2 = n) (entry_items job x) =
  if decide (name x = n) then entry_items job x else [].
Proof.
  unfold entry_items. generalize (py_sorted (tests x)) as l.
  induction l as [|t l IH]; simpl; [by case_decide|]. rewrite filter_cons, IH. simpl. by case_decide.
Qed.

Lemma test_items_filter_length manifest jobs n :
  length (filter (fun it : dict * xpi_config * string => name it.1.2 = n) (test_items manifest jobs)) =
  length jobs * sum_list (map (fun x => length (tests x)) (filter (fun x => name x = n) manifest)).
Proof.
  unfold test_items. induction jobs as [|job jobs IH]; [done|]. simpl.
  rewrite filter_app, length_app, IH. f_equal. clear IH.
  induction manifest as [|x m IHm]; [done|]. simpl.
  by rewrite filter_app, length_app, IHm, filter_cons, entry_items_filter; case_decide;
    rewrite ?entry_items_length.
Qed.

(** C9: The test transform yields one task per template, per manifest entry
    and per test target (not one per entry), in loop order with the
    targets sorted, each the expansion of its triple: the target is
    substituted into the template's command, the label combines target and
    name.  There are [length jobs * sum (length (tests x))] of them. *)
Theorem test_tasks_fanout manifest graph_config tc jobs tc' ts :
  test_tasks_from_manifest manifest graph_config tc jobs = (tc', Ok ts) ->
  length ts = length jobs * sum_list (map (fun x => length (tests x)) manifest) /\
  Forall2 (fun '(job, xpi, target) t => test_task_post job xpi target t) (test_items manifest jobs) ts.
Proof.
  intros [Hf _]%test_loop_Ok. split.
  - by rewrite <-(Forall2_length _ _ _ Hf), test_items_length.
  - eapply Forall2_impl; [exact Hf|]. intros [[job xpi] target] t Ht.
    by apply test_task_writes in Ht as [_ ?].
Qed.

(** C17: [test_count] is a counter of expanded tasks per sub-project that
    persists across calls: after a run that yields all its tasks, the
    count of [n] has grown by the number of templates times the number of
    test targets of the entries named [n]. *)
Theorem test_count_spec manifest graph_config tc jobs tc' ts :
  test_tasks_from_manifest manifest graph_config tc jobs = (tc', Ok ts) ->
  forall n, count_of tc' n =
    (count_of tc n + Z.of_nat (length jobs *
       sum_list (map (fun x => length (tests x)) (filter (fun x => name x = n) manifest))))%Z.
Proof.
  intros [_ Hn]%test_loop_Ok n. by rewrite Hn, test_items_filter_length.
Qed.

Lemma test_labels_one_entry graph_config tc job x tc' ts :
  test_tasks_from_manifest [x] graph_config tc [job] = (tc', Ok ts) ->
  map (fun t => lookup_at (VDict t) ["label"]) ts =
  map (fun target => Some (VStr ("t-" ++ target ++ "-" ++ name x))) (py_sorted (tests x)).
Proof.
  intros [H _]%test_loop_Ok. unfold test_items, entry_items in H. simpl in H.
  rewrite !app_nil_r, Forall2_fmap_l in H.
  apply Forall2_map_eq. eapply Forall2_impl; [exact H|].
  intros target t Ht. by apply test_task_writes in Ht as [_ [-> _]].
Qed.

(** The fan-out of the specification: the test transform run over one
    template and a manifest of one entry whose targets are distinct yields
    one task per target, in sorted order, labelled ["t-<target>-<name>"],
    and the labels are distinct. *)
Theorem test_fanout_one_entry graph_config tc job x tc' ts :
  test_tasks_from_manifest [x] graph_config tc [job] = (tc', Ok ts) -> NoDup (tests x) ->
  map (fun t => lookup_at (VDict t) ["label"]) ts =
    map (fun target => Some (VStr ("t-" ++ target ++ "-" ++ name x))) (py_sorted (tests x)) /\
  NoDup (map (fun t => lookup_at (VDict t) ["label"]) ts).
Proof.
  intros H Hnd. rewrite (test_labels_one_entry _ _ _ _ _ _ H). split; [done|].
  apply NoDup_map_inj; [|by rewrite py_sorted_Permutation].
  intros a b [= Hab]. apply str_app_inj_l in Hab. by apply str_app_inj_r in Hab.
Qed.

(** The command of a test task: when the template's [run.command] is
    text whose pieces around the [{target}] placeholders contain no brace,
    the expanded task's [run.command] is that text with every placeholder
    replaced by the target. *)
Theorem test_task_command graph_config job xpi target t parts :
  test_task graph_config job xpi target = Ok t ->
  lookup_at (VDict job) ["run"; "command"] = Some (VStr (String.concat "{target}" parts)) ->
  Forall (fun p => brace_free p = true) parts ->
  lookup_at (VDict t) ["run"; "command"] = Some (VStr (String.concat target parts)).
Proof.
  intros (_ & _ & _ & _ & _ & (c & c' & Hc & Hf & Ht) & _)%test_task_writes Hj Hp.
  rewrite Hj in Hc. injection Hc as <-. rewrite str_format_target_subst in Hf by done.
  by injection Hf as <-.
Qed.

(** C22: One manifest per process: after the build transform has run on the
    checkout [root], the test transform expands the manifest the build
    transform used, whatever the checkout [root'] looks like when it runs
    (the memo of [get_manifest] is shared process state). *)
Theorem transforms_share_manifest `{JD : JsonDecoder} root root' BASE_DIR graph_config jobs ts memo
    test_count graph_config' jobs' :
  build_transform root BASE_DIR None graph_config jobs = (Ok ts, memo) ->
  exists m, memo = Some m /\ tasks_from_manifest m graph_config jobs = Ok ts /\
    test_transform root' BASE_DIR memo test_count graph_config' jobs' =
    (let '(tc, r) := test_tasks_from_manifest m graph_config' test_count jobs' in
     (r, memo, tc)).
Proof.
  unfold build_transform. destruct (get_manifest root BASE_DIR None) as [r st] eqn:Hg.
  destruct r as [m|]; [|by intros [=]]. cbn [res_bind].
  destruct (tasks_from_manifest m graph_config jobs) as [ts'|] eqn:Ht; [|by intros [=]].
  intros [= <- <-]. apply get_manifest_Ok in Hg as (-> & _).
  exists m. by repeat split.
Qed.

(** ** Concrete runs *)

Definition job_test : dict :=
  [("run", VDict [("using", VStr "run-task"); ("command", VStr "yarn run {target}")])].

Definition entry3 : xpi_config :=
  {| name := "pkgA"; tests := ["test:unit"; "lint"; "test"]; install_type := "yarn"; directory := None |}.

Lemma test_fanout_one_entry_witness :
  exists tc' ts, test_tasks_from_manifest [entry3] [] [] [job_test] = (tc', Ok ts) /\
  NoDup (tests entry3) /\
  map (fun t => lookup_at (VDict t) ["label"]) ts =
    [Some (VStr "t-lint-pkgA"); Some (VStr "t-test-pkgA"); Some (VStr "t-test:unit-pkgA")] /\
  NoDup (map (fun t => lookup_at (VDict t) ["label"]) ts).
Proof.
  do 2 eexists. split; [vm_compute; reflexivity|]. split; [apply (bool_decide_unpack _); vm_compute; exact I|].
  split; [vm_compute; reflexivity|].
  apply (test_fanout_one_entry [] [] job_test entry3 [("pkgA", VNum 3)]);
    [vm_compute; reflexivity|apply (bool_decide_unpack _); vm_compute; exact I].
Defined.

Lemma test_tasks_fanout_witness :
  exists tc' ts, test_tasks_from_manifest [entry3; pkgA_record] [] [] [job_test] = (tc', Ok ts) /\
  length ts = 1 * (3 + 2) /\
  Forall2 (fun '(job, xpi, target) t => test_task_post job xpi target t)
          (test_items [entry3; pkgA_record] [job_test]) ts.
Proof.
  do 2 eexists. split; [vm_compute; reflexivity|].
  apply (test_tasks_fanout [entry3; pkgA_record] [] [] [job_test] [("pkgA", VNum 5)]).
  vm_compute. reflexivity.
Defined.

Lemma test_count_spec_witness :
  exists ts, test_tasks_from_manifest [entry3] [] [("pkgA", VNum 4)] [job_test; job_test] =
             ([("pkgA", VNum 10)], Ok ts) /\
  count_of [("pkgA", VNum 10)] "pkgA" = (4 + Z.of_nat (2 * 3))%Z.
Proof.
  eexists. split; [vm_compute; reflexivity|].
  eapply (test_count_spec [entry3] [] [("pkgA", VNum 4)] [job_test; job_test]). vm_compute; reflexivity.
Defined.

Definition job_test_ci : dict :=
  [("run", VDict [("command", VStr "yarn run {target} --ci")])].

Lemma test_task_command_witness :
  exists t, test_task [] job_test_ci pkgA_record "test" = Ok t /\
  lookup_at (VDict job_test_ci) ["run"; "command"] = Some (VStr (String.concat "{target}" ["yarn run "; " --ci"])) /\
  Forall (fun p => brace_free p = true) ["yarn run "; " --ci"] /\
  lookup_at (VDict t) ["run"; "command"] = Some (VStr "yarn run test --ci").
Proof.
  eexists. split; [vm_compute; reflexivity|]. split; [reflexivity|]. split; [repeat constructor|].
  apply (test_task_command [] job_test_ci pkgA_record "test" _ ["yarn run "; " --ci"]);
    [vm_compute; reflexivity|reflexivity|repeat constructor].
Defined.

(** A task whose expansion raises is counted: [test_count] is updated
    before the template is read, so a template without [run] leaves the
    count of [pkgA] at 1 while the transform raises [KeyError]. *)
Example test_count_counts_failed_task :
  test_tasks_from_manifest [pkgA_record] [] [] [[("label", VStr "x")]] =
  ([("pkgA", VNum 1)], Err (KeyError "run")).
Proof. vm_compute. reflexivity. Qed.

Definition checkout_label_clash : Fs.node :=
  Fs.Dir [("repo", Fs.Dir [("y", Fs.Dir [("package.json", Fs.File "test-x"); ("yarn.lock", Fs.File "")]);
                           ("x-y", Fs.Dir [("package.json", Fs.File "test"); ("yarn.lock", Fs.File "")])])].

(** Labels of the test transform are not unique across sub-projects:
    the validated manifest with the sub-project [y] (target [test-x]) and
    the sub-project [x-y] (target [test]) gives two tasks labelled
    ["t-test-x-y"]. *)
Example test_labels_clash :
  match test_transform (JD := scripts_decoder) checkout_label_clash "/repo" None [] [] [job_test] with
  | (Ok ts, _, _) => map (fun t => lookup_at (VDict t) ["label"]) ts
  | _ => []
  end = [Some (VStr "t-test-x-y"); Some (VStr "t-test-x-y")].
Proof. vm_compute. reflexivity. Qed.

Lemma transforms_share_manifest_witness :
  exists ts, build_transform (JD := scripts_decoder) checkout_pkgA "/repo" None [] [job_build] =
             (Ok ts, Some [pkgA_record]) /\
  exists m, Some [pkgA_record] = Some m /\ tasks_from_manifest m [] [job_build] = Ok ts /\
    test_transform (JD := scripts_decoder) checkout_label_clash "/repo" (Some [pkgA_record]) [] [] [job_test] =
    (let '(tc, r) := test_tasks_from_manifest m [] [] [job_test] in (r, Some [pkgA_record], tc)).
Proof.
  eexists. split; [vm_compute; reflexivity|].
  apply (transforms_share_manifest (JD := scripts_decoder) checkout_pkgA checkout_label_clash "/repo" [] [job_build]).
  vm_compute. reflexivity.
Defined.

End TestKind.
