(* ===== verification/TestGen.v ===== *)
(** * [test_tasks_from_manifest] as the generator it is

    [test.py]'s transform is a Python generator: taskgraph pulls one task
    at a time with [next()], and each call runs the loop nest up to its
    next [yield] (or to its end, or to an exception).  The module-level
    [test_count] is updated inside the loop, so what it holds depends on
    how far the consumer pulled.  [TestKind.test_loop] runs the whole
    generator at once; this file models one [next()] as a step relation
    [next_step] on the generator's state (the iterations still to run and
    [test_count], or a closed generator), with the event it produces:
    a yielded task, an exception, or [StopIteration].

    The theorems relate the two: a run of [next()] calls to the end is
    exactly [test_loop] (refinement), every state the generator can reach
    still reaches its end (liveness), and after [k] pulls that all yielded,
    [test_count] has counted exactly those [k] tasks (an invariant by
    induction on the run). *)

From Stdlib Require Import String ZArith.
From stdpp Require Import base list strings.
From S2P Require Import Prelude PyValue Manifest Build TestKind.

Local Open Scope py_scope.

Module TestGen.
Import PyValue Manifest Build TestKind.

(** What one [next()] call produces. *)
Inductive event :=
| Yield (t : dict)
| Raise (e : py_exc)
| StopIteration.

(** The generator between two calls: suspended at a [yield] with the
    iterations of the loop nest still to run ([test_items] flattens the
    three loops), or closed after its end or an exception; [test_count]
    is the module-level dict. *)
Inductive gen :=
| Running (pending : list (dict * xpi_config * string)) (test_count : dict)
| Closed (test_count : dict).

Definition gen_count (g : gen) : dict :=
  match g with Running _ tc | Closed tc => tc end.

Section Next.
Variable graph_config : dict.

(** One [next()] call, lines 27-53 of [test.py]: the body of the innermost
    loop for the next iteration, up to [yield task]. *)
Inductive next_step : gen -> event -> gen -> Prop :=
| next_yield job xpi target rest tc tc' t :
    count_test tc (name xpi) = Ok tc' ->
    test_task graph_config job xpi target = Ok t ->
    next_step (Running ((job, xpi, target) :: rest) tc) (Yield t) (Running rest tc')
| next_count_error job xpi target rest tc e :
    count_test tc (name xpi) = Err e ->
    next_step (Running ((job, xpi, target) :: rest) tc) (Raise e) (Closed tc)
| next_task_error job xpi target rest tc tc' e :
    count_test tc (name xpi) = Ok tc' ->
    test_task graph_config job xpi target = Err e ->
    next_step (Running ((job, xpi, target) :: rest) tc) (Raise e) (Closed tc')
| next_stop tc :
    next_step (Running [] tc) StopIteration (Closed tc).

(** A sequence of [next()] calls and the events they produce. *)
Inductive run : gen -> list event -> gen -> Prop :=
| run_nil g : run g [] g
| run_cons g ev g' evs g'' : next_step g ev g' -> run g' evs g'' -> run g (ev :: evs) g''.

(** What a consumer that iterates to the end ([list(gen)]) obtains from
    the events: the yielded tasks, or the first exception. *)
Fixpoint outcome (evs : list event) : result py_exc (list dict) :=
  match evs with
  | [] | StopIteration :: _ => Ok []
  | Yield t :: evs' => ts <- outcome evs' ;; Ok (t :: ts)
  | Raise e :: _ => Err e
  end.

(** [next()] as a function: the step is deterministic and total on a
    running generator. *)
Definition next (g : gen) : option (event * gen) :=
  match g with
  | Closed _ => None
  | Running [] tc => Some (StopIteration, Closed tc)
  | Running ((job, xpi, target) :: rest) tc =>
      match count_test tc (name xpi) with
      | Err e => Some (Raise e, Closed tc)
      | Ok tc' =>
          match test_task graph_config job xpi target with
          | Err e => Some (Raise e, Closed tc')
          | Ok t => Some (Yield t, Running rest tc')
          end
      end
  end.

(** [next()] called [fuel] times, or until the generator closes. *)
Fixpoint drive (fuel : nat) (g : gen) : list event * gen :=
  match fuel with
  | O => ([], g)
  | S fuel' =>
      match next g with
      | None => ([], g)
      | Some (ev, g') => let '(evs, g'') := drive fuel' g' in (ev :: evs, g'')
      end
  end.

(** The calls a generator can still take: one per pending iteration and
    the final [StopIteration]. *)
Definition calls_left (g : gen) : nat :=
  match g with Running p _ => S (length p) | Closed _ => 0 end.

End Next.

#[export] Hint Constructors next_step run : xpi.

Section GenLemmas.
Variable graph_config : dict.

Lemma next_step_next g ev g' :
  next_step graph_config g ev g' <-> next graph_config g = Some (ev, g').
Proof.
  split.
  - intros []; simpl; repeat match goal with H : _ = _ |- _ => rewrite H end; done.
  - destruct g as [[|[[job xpi] target] rest] tc|tc]; simpl; [intros [= <- <-]; constructor| |done].
    destruct (count_test tc (name xpi)) eqn:Hc; [|intros [= <- <-]; eauto with xpi].
    destruct (test_task graph_config job xpi target) eqn:Ht; intros [= <- <-]; eauto with xpi.
Qed.

(** A closed generator does nothing more. *)
Lemma run_closed tc evs g : run graph_config (Closed tc) evs g -> evs = [] /\ g = Closed tc.
Proof. inversion 1 as [|? ? ? ? ? Hs]; [done|inversion Hs]. Qed.

Lemma drive_run fuel g : run graph_config g (drive graph_config fuel g).1 (drive graph_config fuel g).2.
Proof.
  revert g; induction fuel as [|fuel IH]; intros g; simpl; [constructor|].
  destruct (next graph_config g) as [[ev g']|] eqn:Hn; [|constructor].
  specialize (IH g'). destruct (drive graph_config fuel g') as [evs g''].
  econstructor; [by apply next_step_next|exact IH].
Qed.

(** Each call uses up at least one of the calls left. *)
Lemma next_step_calls_left g ev g' :
  next_step graph_config g ev g' -> calls_left g' < calls_left g.
Proof. inversion 1; simpl; lia. Qed.

Lemma run_calls_left g evs g' :
  run graph_config g evs g' -> length evs + calls_left g' <= calls_left g.
Proof.
  induction 1 as [|g ev g' evs g'' Hs _ IH]; simpl; [lia|].
  pose proof (next_step_calls_left _ _ _ Hs). lia.
Qed.

(** From every state the generator closes. *)
Lemma run_to_closed g : exists evs tc', run graph_config g evs (Closed tc').
Proof.
  destruct g as [items tc|tc]; [|exists [], tc; constructor].
  revert tc; induction items as [|[[job xpi] target] rest IH]; intros tc.
  - exists [StopIteration], tc. eauto with xpi.
  - destruct (count_test tc (name xpi)) as [tc1|e] eqn:Hc; [|exists [Raise e], tc; eauto with xpi].
    destruct (test_task graph_config job xpi target) as [t|e] eqn:Ht; [|exists [Raise e], tc1; eauto with xpi].
    destruct (IH tc1) as (evs & tc' & H). exists (Yield t :: evs), tc'. eauto with xpi.
Qed.

(** Refinement: calling [next()] until the generator closes produces
    exactly what [test_loop] computes for the whole loop nest: the same
    final [test_count], and the yielded tasks or the first exception. *)
Theorem run_refines_test_loop items tc evs tc' :
  run graph_config (Running items tc) evs (Closed tc') ->
  test_loop graph_config tc items = (tc', outcome evs).
Proof.
  revert tc evs. induction items as [|[[job xpi] target] rest IH]; intros tc evs Hr;
    inversion Hr as [|? ev g' evs' ? Hs Hr']; subst; inversion Hs; subst;
    try (apply run_closed in Hr' as [-> [= ->]]); simpl; try done.
  - match goal with H1 : count_test _ _ = Ok _, H2 : test_task _ _ _ _ = Ok _ |- _ =>
      rewrite H1, H2 end.
    by rewrite (IH _ _ Hr').
  - match goal with H1 : count_test _ _ = Err _ |- _ => by rewrite H1 end.
  - match goal with H1 : count_test _ _ = Ok _, H2 : test_task _ _ _ _ = Err _ |- _ =>
      by rewrite H1, H2 end.
Qed.

(** Liveness: however many [next()] calls a consumer has made, the
    generator still closes (it yields every remaining task or raises),
    and the calls of the whole run number at most one per iteration of
    the loop nest plus the final [StopIteration]. *)
Theorem test_gen_eventually_closes items tc evs g :
  run graph_config (Running items tc) evs g ->
  exists evs' tc', run graph_config g evs' (Closed tc') /\
                   length evs + length evs' <= length items + 1.
Proof.
  intros Hr. destruct (run_to_closed g) as (evs' & tc' & Hc). exists evs', tc'. split; [done|].
  pose proof (run_calls_left _ _ _ Hr). pose proof (run_calls_left _ _ _ Hc). simpl in *. lia.
Qed.

(** C29: The interleaving of [test_count] with the consumer: after [k]
    calls that all yielded, the generator is suspended after the first
    [k] iterations of the loop nest, the [k] tasks are their expansions,
    and [test_count] has counted exactly those [k] tasks, not the
    iterations still to come. *)
Theorem test_gen_count_prefix items tc evs rest tc' :
  run graph_config (Running items tc) evs (Running rest tc') ->
  exists done, items = done ++ rest /\
    Forall2 (fun '(job, xpi, target) ev =>
               exists t, ev = Yield t /\ test_task graph_config job xpi target = Ok t) done evs /\
    forall n, count_of tc' n =
      (count_of tc n + Z.of_nat (length (filter (fun it : dict * xpi_config * string => name it.1.2 = n) done)))%Z.
Proof.
  remember (Running items tc) as g eqn:Eg. remember (Running rest tc') as g' eqn:Eg'.
  intros Hr. revert items tc Eg. induction Hr as [g|g ev g1 evs g2 Hs Hr IH]; intros items tc ->.
  - injection Eg' as -> ->. exists []. split; [done|]. split; [constructor|]. intros n. simpl. lia.
  - subst g2. inversion Hs as [job xpi target rest1 ? tc1 t Hc Ht| | |]; subst;
      try (apply run_closed in Hr as [_ [=]]).
    destruct (IH eq_refl rest1 tc1 eq_refl) as (done & -> & Hf & Hn).
    exists ((job, xpi, target) :: done). split; [done|]. split; [constructor; eauto|].
    intros n. rewrite Hn, (count_test_spec _ _ _ Hc), filter_cons. cbn [fst snd].
    case_bool_decide; case_decide; simpl; subst; try lia; congruence.
Qed.

End GenLemmas.

(** ** The generator on [entry3]: three targets, one template *)

Definition gen0 : gen := Running (test_items [entry3] [job_test]) [].

(** A consumer that stops after two tasks leaves [test_count] at 2, where
    consuming the generator to its end gives 3. *)
Example test_count_after_two_pulls :
  count_of (gen_count (drive [] 2 gen0).2) "pkgA" = 2%Z /\
  count_of (fst (test_loop [] [] (test_items [entry3] [job_test]))) "pkgA" = 3%Z.
Proof. split; vm_compute; reflexivity. Qed.

Lemma run_refines_test_loop_witness :
  run [] gen0 (drive [] 5 gen0).1 (Closed (gen_count (drive [] 5 gen0).2)) /\
  test_loop [] [] (test_items [entry3] [job_test]) =
    (gen_count (drive [] 5 gen0).2, outcome (drive [] 5 gen0).1).
Proof.
  assert (E : (drive [] 5 gen0).2 = Closed (gen_count (drive [] 5 gen0).2)) by (vm_compute; reflexivity).
  pose proof (drive_run [] 5 gen0) as H. rewrite E in H.
  split; [exact H|]. exact (run_refines_test_loop [] _ _ _ _ H).
Defined.

Lemma test_gen_eventually_closes_witness :
  run [] gen0 (drive [] 2 gen0).1 (drive [] 2 gen0).2 /\
  exists evs' tc', run [] (drive [] 2 gen0).2 evs' (Closed tc') /\
    length (drive [] 2 gen0).1 + length evs' <= length (test_items [entry3] [job_test]) + 1.
Proof.
  pose proof (drive_run [] 2 gen0) as H. split; [exact H|].
  exact (test_gen_eventually_closes [] _ _ _ _ H).
Defined.

Lemma test_gen_count_prefix_witness :
  run [] gen0 (drive [] 2 gen0).1 (Running [(job_test, entry3, "test:unit")] [("pkgA", VNum 2)]) /\
  exists done, test_items [entry3] [job_test] = done ++ [(job_test, entry3, "test:unit")] /\
    Forall2 (fun '(job, xpi, target) ev =>
               exists t, ev = Yield t /\ test_task [] job xpi target = Ok t) done (drive [] 2 gen0).1 /\
    forall n, count_of [("pkgA", VNum 2)] n =
      (count_of [] n + Z.of_nat (length (filter (fun it : dict * xpi_config * string => name it.1.2 = n) done)))%Z.
Proof.
  assert (E : (drive [] 2 gen0).2 = Running [(job_test, entry3, "test:unit")] [("pkgA", VNum 2)])
    by (vm_compute; reflexivity).
  pose proof (drive_run [] 2 gen0) as H. rewrite E in H.
  split; [exact H|]. exact (test_gen_count_prefix [] _ _ _ _ _ H).
Defined.

End TestGen.
