(* ===== verification/Signing.v ===== *)
(** * The signing transforms: [signing.py]

    Two transforms run in sequence over the tasks of the signing kind, each
    of which carries its build task as [task["primary-dependency"]], a
    taskgraph [Task] object with a [label], a [kind], [attributes] and the
    task definition [task].  [define_signing_flags] names the task after
    its dependency, merges the attributes, marks them [signed] and
    resolves the keyed-by fields [worker-type] and [worker.signing-type];
    [build_signing_task] drops every task unless [XPI_SIGNING_TYPE] names a
    known format, and otherwise wires the dependency, the upstream artifact
    [{artifact_prefix}/{xpi_name}.xpi], its format, the read scope of a
    non-public prefix, and removes the dependency object.

    [resolve_keyed_by] and [get_artifact_prefix] are functions of the
    taskgraph library: they are the interfaces [KeyedBy] and
    [ArtifactPrefix].  A task is its dict ([job_fields]) beside the
    dependency object it holds under ["primary-dependency"], which is not
    JSON; [del task["primary-dependency"]] empties that slot. *)

From Stdlib Require Import String Ascii ZArith.
From stdpp Require Import base list strings sets.
From S2P Require Import Prelude PyStr PyValue.

Local Open Scope string_scope.
Local Open Scope py_scope.

Module Signing.
Import PyValue.

Definition dict := list (string * value).

(** The taskgraph [Task] of the build task a signing task depends on. *)
Record dep_task := {
  dep_label : string;
  dep_kind : string;
  dep_attributes : dict;
  dep_task_def : dict
}.

Record signing_job := {
  job_fields : dict;
  primary_dependency : option dep_task
}.

(** [resolve_keyed_by(task, key, item_name, level=...)]: replaces the
    value at the dotted [key] of the task by the alternative its
    [by-<field>] keys select.  Its contract, used below: it changes
    nothing outside the first component of [key]. *)
Class KeyedBy := {
  resolve_keyed_by : dict -> string -> string -> string -> result py_exc dict;
  resolve_keyed_by_frame task key item_name level task' :
    resolve_keyed_by task key item_name level = Ok task' ->
    forall k rest, k <> hd "" (PyStr.split "."%char key) ->
    lookup_at (VDict task') (k :: rest) = lookup_at (VDict task) (k :: rest)
}.

(** [get_artifact_prefix(dep.task)] *)
Class ArtifactPrefix := get_artifact_prefix : dict -> string.

Definition FORMATS : dict :=
  [("privileged", VStr "privileged_webextension");
   ("system", VStr "system_addon");
   ("mozillaonline-privileged", VStr "privileged_webextension")].

(** [s[n:]] *)
Fixpoint py_slice_from (n : nat) (s : string) : string :=
  match n, s with
  | O, _ => s
  | S _, EmptyString => EmptyString
  | S n', String _ s' => py_slice_from n' s'
  end.

(** [_get_dependent_job_name_without_its_kind] *)
Definition get_dependent_job_name_without_its_kind (dep : dep_task) : string :=
  py_slice_from (String.length (dep_kind dep) + 1) (dep_label dep).

(** [d.update(other)] for a dict [other]: existing keys keep their place. *)
Definition dict_update (d other : dict) : dict :=
  fold_left (fun acc '(k, v) => dict_set acc k v) other d.

Definition get_primary_dependency (task : signing_job) : result py_exc dep_task :=
  match primary_dependency task with
  | Some dep => Ok dep
  | None => Err (KeyError "primary-dependency")
  end.

(** The loop body of [define_signing_flags], lines 31-48. *)
Definition define_signing_flags_task `{KeyedBy} (level : string) (task : signing_job) :
    result py_exc signing_job :=
  dep <- get_primary_dependency task ;;
  let name := get_dependent_job_name_without_its_kind dep in
  fields <- set_in (job_fields task) [] "name" (VStr name) ;;
  (* attributes = dep.attributes.copy(); if task.get("attributes"): update *)
  attributes <- (match dict_lookup fields "attributes" with
                 | Some v =>
                     if truthy v then
                       match v with
                       | VDict a => Ok (dict_update (dep_attributes dep) a)
                       | _ => Err (TypeError (type_name v))
                       end
                     else Ok (dep_attributes dep)
                 | None => Ok (dep_attributes dep)
                 end) ;;
  fields <- set_in fields [] "attributes" (VDict attributes) ;;
  fields <- set_in fields ["attributes"] "signed" (VBool true) ;;
  fields <- (match lookup_at (VDict fields) ["attributes"; "run_on_tasks_for"] with
             | Some v => setdefault_in fields [] "run-on-tasks-for" v
             | None => Ok fields
             end) ;;
  fields <- resolve_keyed_by fields "worker-type" name level ;;
  fields <- resolve_keyed_by fields "worker.signing-type" name level ;;
  Ok {| job_fields := fields; primary_dependency := Some dep |}.

Definition define_signing_flags `{KeyedBy} (level : string) (tasks : list signing_job) :
    result py_exc (list signing_job) :=
  res_mapM (define_signing_flags_task level) tasks.

(** [d[k1][k2]...] read through dicts, raising [KeyError] on the first
    missing key. *)
Fixpoint getitem_path (v : value) (path : list string) : result py_exc value :=
  match path with
  | [] => Ok v
  | k :: path' =>
      match v with
      | VDict d => match dict_lookup d k with
                   | Some v' => getitem_path v' path'
                   | None => Err (KeyError k)
                   end
      | _ => Err (TypeError (type_name v))
      end
  end.

(** The upstream artifact of line 71. *)
Definition upstream_artifact (path format : string) : value :=
  VDict [("taskId", VDict [("task-reference", VStr "<build>")]);
         ("taskType", VStr "build");
         ("paths", VList [VStr path]);
         ("formats", VList [VStr format])].

(** The loop body of [build_signing_task], lines 56-81, for the signing
    type [xpi_type]; [None] is a task the loop skips. *)
Definition build_signing_task_one `{ArtifactPrefix} (xpi_type : string) (task : signing_job) :
    result py_exc (option signing_job) :=
  match dict_lookup FORMATS xpi_type with
  | None => Ok None
  | Some format =>
      dep <- get_primary_dependency task ;;
      fields <- set_in (job_fields task) [] "dependencies" (VDict [("build", VStr (dep_label dep))]) ;;
      let artifact_prefix := get_artifact_prefix (dep_task_def dep) in
      fields <- (if PyStr.startswith artifact_prefix "public" then Ok fields
                 else
                   env_prefix <- getitem_path (VDict (dep_task_def dep)) ["payload"; "env"; "ARTIFACT_PREFIX"] ;;
                   env_prefix <- (match env_prefix with
                                  | VStr s => Ok s
                                  | v => Err (AttributeError (type_name v) "rstrip")
                                  end) ;;
                   append_in fields [] "scopes"
                     (VStr ("queue:get-artifact:" ++ PyStr.rstrip_char "/"%char env_prefix ++ "/*"))) ;;
      xpi_name <- getitem_path (VDict (dep_task_def dep)) ["extra"; "xpi-name"] ;;
      xpi_name_str <- (match xpi_name with
                       | VStr s => Ok s
                       | v => Err (TypeError (type_name v))
                       end) ;;
      let path := artifact_prefix ++ "/" ++ xpi_name_str ++ ".xpi" in
      format <- (match format with VStr f => Ok f | v => Err (TypeError (type_name v)) end) ;;
      fields <- set_in fields ["worker"] "upstream-artifacts" (VList [upstream_artifact path format]) ;;
      fields <- setdefault_in fields [] "extra" (VDict []) ;;
      fields <- set_in fields ["extra"] "xpi-name" xpi_name ;;
      Ok (Some {| job_fields := fields; primary_dependency := None |})
  end.

(** [build_signing_task(config, tasks)] with
    [xpi_type = os.environ.get("XPI_SIGNING_TYPE", "unknown")]. *)
Definition build_signing_task `{ArtifactPrefix} (XPI_SIGNING_TYPE : option string)
    (tasks : list signing_job) : result py_exc (list signing_job) :=
  let xpi_type := default "unknown" XPI_SIGNING_TYPE in
  outs <- res_mapM (build_signing_task_one xpi_type) tasks ;;
  Ok (omap id outs).

Local Open Scope list_scope.

(** ** The dependent job's name *)

Lemma py_slice_from_app s t : py_slice_from (String.length s) (s ++ t) = t.
Proof. induction s as [|c s IH]; [by rewrite str_app_nil_l|]. rewrite str_app_cons. exact IH. Qed.

(** C26: The signing task is named after its build task without the kind:
    a dependency labelled [kind ++ "-" ++ n] gives the name [n] (the
    signing kind prepends its own kind later). *)
Theorem dependent_job_name dep n :
  dep_label dep = (dep_kind dep ++ "-" ++ n)%string ->
  get_dependent_job_name_without_its_kind dep = n.
Proof.
  unfold get_dependent_job_name_without_its_kind. intros ->.
  replace (String.length (dep_kind dep) + 1) with (String.length (dep_kind dep ++ "-"))
    by (rewrite str_length_app; done).
  by rewrite str_app_assoc, py_slice_from_app.
Qed.

(** ** [define_signing_flags] *)

Lemma dict_lookup_update a b k :
  NoDup (map fst b) ->
  dict_lookup (dict_update a b) k = match dict_lookup b k with Some v => Some v | None => dict_lookup a k end.
Proof.
  unfold dict_update. revert a. induction b as [|[k' v'] b IH]; intros a Hnd; [done|].
  simpl in Hnd |- *. apply NoDup_cons in Hnd as [Hk' Hnd]. rewrite IH by done.
  case_bool_decide as Hk.
  - subst k'. by rewrite dict_lookup_notin, dict_lookup_set_eq.
  - by rewrite dict_lookup_set_ne.
Qed.

Section FlagsLemmas.
Context `{KB : KeyedBy}.
Variable level : string.

(** The merged attributes of a signing task: [signed] is true; any other
    key has the task's own value if it has one, the dependency's
    otherwise. *)
Definition merged_attribute (task : signing_job) (dep : dep_task) (k : string) : option value :=
  if bool_decide (k = "signed") then Some (VBool true)
  else match lookup_at (VDict (job_fields task)) ["attributes"; k] with
       | Some v => Some v
       | None => dict_lookup (dep_attributes dep) k
       end.

(** What [define_signing_flags] writes: the name, the merged attributes
    and [run-on-tasks-for]; the dependency is kept. *)
Definition define_signing_flags_post (task t : signing_job) : Prop :=
  exists dep, primary_dependency task = Some dep /\ primary_dependency t = Some dep /\
    lookup_at (VDict (job_fields t)) ["name"] = Some (VStr (get_dependent_job_name_without_its_kind dep)) /\
    (forall k, lookup_at (VDict (job_fields t)) ["attributes"; k] = merged_attribute task dep k) /\
    (forall v, merged_attribute task dep "run_on_tasks_for" = Some v ->
       lookup_at (VDict (job_fields t)) ["run-on-tasks-for"] =
       Some (default v (lookup_at (VDict (job_fields task)) ["run-on-tasks-for"]))).

(** Read a place through the two [resolve_keyed_by] calls. *)
Ltac keyed_step :=
  match goal with
  | H : resolve_keyed_by ?f ?key ?n ?l = Ok ?f' |- context [lookup_at (VDict ?f') (?k :: ?rest)] =>
      rewrite (resolve_keyed_by_frame f key n l f' H k rest) by (vm_compute; discriminate)
  end.

(** [attributes = dep.attributes.copy(); attributes.update(task["attributes"])]
    when the task has attributes. *)
Lemma merge_attributes fields dep attrs :
  (forall d, lookup_at (VDict fields) ["attributes"] = Some (VDict d) -> NoDup (map fst d)) ->
  (match lookup_at (VDict fields) ["attributes"] with
   | Some v => if truthy v then match v with
                                | VDict a => Ok (dict_update (dep_attributes dep) a)
                                | _ => Err (TypeError (type_name v))
                                end
               else Ok (dep_attributes dep)
   | None => Ok (dep_attributes dep)
   end) = Ok attrs ->
  forall k, dict_lookup attrs k =
    match lookup_at (VDict fields) ["attributes"; k] with
    | Some v => Some v
    | None => dict_lookup (dep_attributes dep) k
    end.
Proof.
  cbn [lookup_at]. intros Hnd H k.
  destruct (dict_lookup fields "attributes") as [a|]; [|by injection H as <-].
  destruct a as [| | | | |d]; cbn [truthy] in H;
    repeat match type of H with
    | (if ?b then _ else _) = _ => destruct b eqn:Hb
    end; try done; try (injection H as <-; done).
  - injection H as <-. rewrite dict_lookup_update by (by apply Hnd). by destruct (dict_lookup d k).
  - apply negb_false_iff, bool_decide_eq_true_1 in Hb as ->. by injection H as <-.
Qed.

Lemma define_signing_flags_task_post task t :
  (forall d, lookup_at (VDict (job_fields task)) ["attributes"] = Some (VDict d) -> NoDup (map fst d)) ->
  define_signing_flags_task level task = Ok t -> define_signing_flags_post task t.
Proof.
  intros Hnd H. unfold define_signing_flags_task in H. res_inv H.
  injection H as <-. unfold get_primary_dependency in E.
  destruct (primary_dependency task) as [dep|] eqn:Hdep; [injection E as <-|done].
  exists dep. do 2 (split; [done|]). cbn [job_fields primary_dependency].
  assert (forall k, dict_lookup t2 k =
    match lookup_at (VDict (job_fields task)) ["attributes"; k] with
    | Some v => Some v
    | None => dict_lookup (dep_attributes dep) k
    end) as Hm.
  { apply merge_attributes; [done|]. rewrite <-lookup_at_single in E1. revert E1. lookup_back. tauto. }
  assert (forall k, lookup_at (VDict t4) ["attributes"; k] = merged_attribute task dep k) as H4.
  { intros k. unfold merged_attribute. case_bool_decide as Hk; [subst k; by lookup_back|].
    lookup_back. by rewrite lookup_at_single, Hm. }
  split; [|split].
  - repeat keyed_step.
    destruct (lookup_at (VDict t4) _) in E4; [|injection E4 as <-]; by lookup_back.
  - intros k. repeat keyed_step.
    destruct (lookup_at (VDict t4) _) in E4;
      [rewrite (setdefault_in_frame_any _ _ _ _ _ _ E4) by prefix_solver|injection E4 as <-];
      apply H4.
  - intros v Hv. rewrite <-H4 in Hv. rewrite Hv in E4. repeat keyed_step.
    rewrite (setdefault_in_eq _ _ _ _ _ ["run-on-tasks-for"] E4 eq_refl). by lookup_back.
Qed.

End FlagsLemmas.

(** ** [build_signing_task] *)

Section SigningLemmas.
Context `{AP : ArtifactPrefix}.

(** C18: An unknown or missing [XPI_SIGNING_TYPE] drops every task: the
    transform yields nothing and raises nothing, whatever the tasks. *)
Theorem build_signing_task_skip XPI_SIGNING_TYPE tasks :
  dict_lookup FORMATS (default "unknown" XPI_SIGNING_TYPE) = None ->
  build_signing_task XPI_SIGNING_TYPE tasks = Ok [].
Proof.
  intros Hf. unfold build_signing_task. cbv zeta.
  assert (res_mapM (build_signing_task_one (default "unknown" XPI_SIGNING_TYPE)) tasks =
          Ok (map (fun _ => None) tasks)) as ->.
  { induction tasks as [|x l IH]; [done|]. simpl. unfold build_signing_task_one at 1.
    by rewrite Hf, IH. }
  simpl. by induction tasks.
Qed.

(** The read scope the code grants for a non-public prefix. *)
Definition artifact_scope (env_prefix : string) : string :=
  "queue:get-artifact:" ++ PyStr.rstrip_char "/"%char env_prefix ++ "/*".

(** What a signing task holds after [build_signing_task]. *)
Definition build_signing_task_post (xpi_type : string) (task t : signing_job) : Prop :=
  exists dep format xpi_name,
    primary_dependency task = Some dep /\ primary_dependency t = None /\
    dict_lookup FORMATS xpi_type = Some (VStr format) /\
    lookup_at (VDict (dep_task_def dep)) ["extra"; "xpi-name"] = Some (VStr xpi_name) /\
    lookup_at (VDict (job_fields t)) ["dependencies"] = Some (VDict [("build", VStr (dep_label dep))]) /\
    lookup_at (VDict (job_fields t)) ["worker"; "upstream-artifacts"] =
      Some (VList [upstream_artifact (get_artifact_prefix (dep_task_def dep) ++ "/" ++ xpi_name ++ ".xpi") format]) /\
    lookup_at (VDict (job_fields t)) ["extra"; "xpi-name"] = Some (VStr xpi_name) /\
    (PyStr.startswith (get_artifact_prefix (dep_task_def dep)) "public" = true ->
     lookup_at (VDict (job_fields t)) ["scopes"] = lookup_at (VDict (job_fields task)) ["scopes"]) /\
    (PyStr.startswith (get_artifact_prefix (dep_task_def dep)) "public" = false ->
     exists env_prefix,
       lookup_at (VDict (dep_task_def dep)) ["payload"; "env"; "ARTIFACT_PREFIX"] = Some (VStr env_prefix) /\
       lookup_at (VDict (job_fields t)) ["scopes"] =
         Some (VList (list_items (lookup_at (VDict (job_fields task)) ["scopes"]) ++
                      [VStr (artifact_scope env_prefix)]))).

Lemma getitem_path_Ok v path v' : getitem_path v path = Ok v' -> lookup_at v path = Some v'.
Proof.
  revert v. induction path as [|k path IH]; intros v; simpl; [by intros [= ->]|].
  destruct v as [| | | | |d]; try done. destruct (dict_lookup d k); [apply IH|done].
Qed.

Lemma build_signing_task_one_post xpi_type task t :
  build_signing_task_one xpi_type task = Ok (Some t) -> build_signing_task_post xpi_type task t.
Proof.
  unfold build_signing_task_one. destruct (dict_lookup FORMATS xpi_type) as [format|] eqn:Hf; [|done].
  intros H. res_inv H. injection H as <-. unfold get_primary_dependency in E.
  destruct (primary_dependency task) as [dep|] eqn:Hdep; [injection E as <-|done].
  destruct t3 as [| | |xpi_name| |]; try done. injection E3 as <-.
  destruct format as [| | |format| |]; try done. injection E4 as <-.
  apply getitem_path_Ok in E2.
  exists dep, format, xpi_name. do 4 (split; [done|]). cbn [job_fields].
  destruct (PyStr.startswith (get_artifact_prefix (dep_task_def dep)) "public") eqn:Hp.
  - injection E1 as <-. repeat split; [by lookup_back..| |done].
    intros _. by lookup_back.
  - res_inv E1.
    match goal with
    | Hg : getitem_path _ ["payload"; _; _] = Ok ?v, Hs : (match ?v with VStr _ => _ | _ => _ end) = Ok _ |- _ =>
        apply getitem_path_Ok in Hg; destruct v as [| | |env_prefix| |]; try done; injection Hs as <-
    end.
    repeat split; [by lookup_back..|done|].
    intros _. exists env_prefix. split; [done|]. by lookup_back.
Qed.

(** C10: With a known [XPI_SIGNING_TYPE], [build_signing_task] yields one
    task per input task, in order, each wired to its build task: the
    dependency edge [build], the upstream artifact
    [{artifact_prefix}/{xpi_name}.xpi] with the format of the type,
    [extra.xpi-name], the read scope of a non-public prefix appended to
    the task's scopes, and the dependency object removed. *)
Theorem build_signing_task_spec ty tasks ts :
  dict_lookup FORMATS ty <> None ->
  build_signing_task (Some ty) tasks = Ok ts ->
  Forall2 (build_signing_task_post ty) tasks ts.
Proof.
  intros Hf. unfold build_signing_task. intros H.
  change (default "unknown" (Some ty)) with ty in H. res_inv H. injection H as <-.
  apply res_mapM_Ok in E. induction E as [|task o tasks os Ho Hos IH]; [constructor|].
  destruct o as [t|].
  - constructor; [by apply build_signing_task_one_post|exact IH].
  - unfold build_signing_task_one in Ho. destruct (dict_lookup FORMATS ty); [|done].
    res_inv Ho. congruence.
Qed.

(** [queue:get-artifact:<pre>*] grants the artifacts whose path starts
    with [pre]. *)
Definition scope_grants (scope path : string) : Prop :=
  exists pre, scope = ("queue:get-artifact:" ++ pre ++ "*")%string /\ PyStr.startswith path pre = true.

(** C21: For a non-public artifact prefix, the scope the signing task gets
    grants its upstream artifact when the build task's environment names
    the same prefix (without a trailing slash) as [get_artifact_prefix]:
    the scope is taken from [payload.env.ARTIFACT_PREFIX], the path from
    [get_artifact_prefix]. *)
Theorem build_signing_task_scope ty task t dep format xpi_name :
  build_signing_task_one ty task = Ok (Some t) ->
  primary_dependency task = Some dep ->
  PyStr.startswith (get_artifact_prefix (dep_task_def dep)) "public" = false ->
  lookup_at (VDict (dep_task_def dep)) ["payload"; "env"; "ARTIFACT_PREFIX"] =
    Some (VStr (get_artifact_prefix (dep_task_def dep))) ->
  PyStr.ends_with_char "/"%char (get_artifact_prefix (dep_task_def dep)) = false ->
  lookup_at (VDict (job_fields t)) ["worker"; "upstream-artifacts"] =
    Some (VList [upstream_artifact (get_artifact_prefix (dep_task_def dep) ++ "/" ++ xpi_name ++ ".xpi") format]) ->
  exists scope, lookup_at (VDict (job_fields t)) ["scopes"] =
      Some (VList (list_items (lookup_at (VDict (job_fields task)) ["scopes"]) ++ [VStr scope])) /\
    scope_grants scope (get_artifact_prefix (dep_task_def dep) ++ "/" ++ xpi_name ++ ".xpi").
Proof.
  intros H Hdep Hp Henv Hslash Hup.
  destruct (build_signing_task_one_post _ _ _ H)
    as (dep' & format' & xpi' & Hdep' & _ & _ & _ & _ & _ & _ & _ & Hnp).
  rewrite Hdep in Hdep'. injection Hdep' as <-.
  destruct (Hnp Hp) as (env_prefix & Henv' & Hsc). rewrite Henv in Henv'. injection Henv' as <-.
  eexists. split; [exact Hsc|]. exists (get_artifact_prefix (dep_task_def dep) ++ "/")%string.
  unfold artifact_scope. rewrite PathNames.rstrip_char_no_trailing by done. split.
  - by rewrite <-!str_app_assoc.
  - unfold PyStr.startswith. by rewrite str_app_assoc, str_prefix_app.
Qed.

Lemma scope_grants_inv pre_s path :
  scope_grants ("queue:get-artifact:" ++ pre_s ++ "*") path -> PyStr.startswith path pre_s = true.
Proof. intros (pre & Hs & Hp). apply str_app_inj_l, str_app_inj_r in Hs. by subst. Qed.

(** C31: The read scope is derived from the build task's
    [payload.env.ARTIFACT_PREFIX], the artifact path from
    [get_artifact_prefix]: for a non-public prefix, when the upstream
    artifact's path does not start with the environment's prefix and a
    slash, the scope appended to the signing task does not grant the
    artifact it must fetch. *)
Theorem signing_scope_mismatch ty task t dep env_prefix path format :
  build_signing_task_one ty task = Ok (Some t) ->
  primary_dependency task = Some dep ->
  PyStr.startswith (get_artifact_prefix (dep_task_def dep)) "public" = false ->
  lookup_at (VDict (dep_task_def dep)) ["payload"; "env"; "ARTIFACT_PREFIX"] = Some (VStr env_prefix) ->
  PyStr.ends_with_char "/"%char env_prefix = false ->
  lookup_at (VDict (job_fields t)) ["worker"; "upstream-artifacts"] =
    Some (VList [upstream_artifact path format]) ->
  PyStr.startswith path (env_prefix ++ "/") = false ->
  exists scope, lookup_at (VDict (job_fields t)) ["scopes"] =
      Some (VList (list_items (lookup_at (VDict (job_fields task)) ["scopes"]) ++ [VStr scope])) /\
    ~ scope_grants scope path.
Proof.
  intros H Hdep Hp Henv Hslash Hup Hnot.
  destruct (build_signing_task_one_post _ _ _ H)
    as (dep' & format' & xpi' & Hdep' & _ & _ & _ & _ & _ & _ & _ & Hnp).
  rewrite Hdep in Hdep'. injection Hdep' as <-.
  destruct (Hnp Hp) as (env_prefix' & Henv' & Hsc). rewrite Henv in Henv'. injection Henv' as <-.
  eexists. split; [exact Hsc|]. unfold artifact_scope.
  rewrite PathNames.rstrip_char_no_trailing by done.
  change "/*" with ("/" ++ "*")%string. rewrite (str_app_assoc env_prefix "/" "*").
  intros Hg%scope_grants_inv. congruence.
Qed.

End SigningLemmas.

(** C15: [define_signing_flags] keeps one task per input task, in order,
    each named after its build task and carrying the merged, [signed]
    attributes and the defaulted [run-on-tasks-for], when the tasks'
    attribute dicts have distinct keys. *)
Theorem define_signing_flags_spec `{KB : KeyedBy} level tasks ts :
  Forall (fun task => forall d, lookup_at (VDict (job_fields task)) ["attributes"] = Some (VDict d) ->
                                NoDup (map fst d)) tasks ->
  define_signing_flags level tasks = Ok ts ->
  Forall2 define_signing_flags_post tasks ts.
Proof.
  unfold define_signing_flags. rewrite res_mapM_Ok. intros Hnd H.
  induction H as [|x y l k Hxy Hlk IH]; [constructor|].
  apply Forall_cons in Hnd as [Hx Hl]. constructor; [|by apply IH].
  by eapply define_signing_flags_task_post.
Qed.

(** ** Concrete signing runs

    [resolve_by_level] resolves [{"by-level": {...}}] by the level, falling
    back to ["default"], as taskgraph's [resolve_keyed_by] does for the
    keyed-by field [level]; [taskgraph_artifact_prefix] is taskgraph's
    [task.get("attributes", {}).get("artifact_prefix") or "public/build"]. *)

Definition resolve_by_level (task : dict) (key item_name level : string) : result py_exc dict :=
  let path := PyStr.split "."%char key in
  match lookup_at (VDict task) path with
  | Some (VDict [("by-level", VDict alts)]) =>
      match dict_lookup alts level, dict_lookup alts "default" with
      | Some v, _ | None, Some v => set_in task (removelast path) (List.last path "") v
      | None, None => Err (KeyError level)
      end
  | _ => Ok task
  end.

Lemma set_at_frame_head path k rest :
  k <> hd "" path ->
  is_prefix (removelast path ++ [List.last path ""]) (k :: rest) = false /\
  is_prefix (k :: rest) (removelast path) = false.
Proof.
  destruct path as [|a p]; intros Hk; cbn [hd] in Hk.
  - simpl. by rewrite bool_decide_eq_false_2 by congruence.
  - rewrite <-app_removelast_last by done. split.
    + simpl. by rewrite bool_decide_eq_false_2 by congruence.
    + destruct p as [|b p]; simpl; [done|]. by rewrite bool_decide_eq_false_2 by congruence.
Qed.

#[local] Program Instance by_level_resolver : KeyedBy := {| resolve_keyed_by := resolve_by_level |}.
Next Obligation.
  intros task key item_name level task' H k rest Hk. unfold resolve_by_level in H.
  destruct (set_at_frame_head (PyStr.split "."%char key) k rest Hk) as [H1 H2].
  repeat match type of H with
  | (match ?x with _ => _ end) = _ => destruct x
  end; try (by injection H as <-); try done;
  by eapply set_in_frame.
Qed.

#[local] Instance taskgraph_artifact_prefix : ArtifactPrefix :=
  fun task => match lookup_at (VDict task) ["attributes"; "artifact_prefix"] with
              | Some (VStr p) => if bool_decide (p = "") then "public/build" else p
              | _ => "public/build"
              end.

Definition dep_build : dep_task :=
  {| dep_label := "build-pkgA"; dep_kind := "build";
     dep_attributes := [("build-type", VStr "opt"); ("run_on_tasks_for", VList [VStr "github-push"])];
     dep_task_def := [("payload", VDict [("env", VDict [("ARTIFACT_PREFIX", VStr "public/build")])]);
                      ("extra", VDict [("xpi-name", VStr "pkgA")])] |}.

Definition by_level (level3 other : string) : value :=
  VDict [("by-level", VDict [("3", VStr level3); ("default", VStr other)])].

Definition signing_job_of (dep : dep_task) : signing_job :=
  {| job_fields := [("worker-type", by_level "signing3" "dep-signing");
                    ("worker", VDict [("signing-type", by_level "release-signing" "dep-signing")])];
     primary_dependency := Some dep |}.

(** Both transforms at level 3 with [XPI_SIGNING_TYPE=privileged]. *)
Example signing_pipeline_pkgA :
  (ts <- define_signing_flags "3" [signing_job_of dep_build] ;; build_signing_task (Some "privileged") ts) =
  Ok [{| job_fields :=
           [("worker-type", VStr "signing3");
            ("worker", VDict [("signing-type", VStr "release-signing");
                              ("upstream-artifacts",
                               VList [upstream_artifact "public/build/pkgA.xpi" "privileged_webextension"])]);
            ("name", VStr "pkgA");
            ("attributes", VDict [("build-type", VStr "opt");
                                  ("run_on_tasks_for", VList [VStr "github-push"]);
                                  ("signed", VBool true)]);
            ("run-on-tasks-for", VList [VStr "github-push"]);
            ("dependencies", VDict [("build", VStr "build-pkgA")]);
            ("extra", VDict [("xpi-name", VStr "pkgA")])];
         primary_dependency := None |}].
Proof. vm_compute. reflexivity. Qed.

(** A build task with a private prefix: its attributes say [xpi/build]. *)
Definition dep_private (env_prefix : string) : dep_task :=
  {| dep_label := "build-pkgA"; dep_kind := "build"; dep_attributes := [];
     dep_task_def := [("attributes", VDict [("artifact_prefix", VStr "xpi/build")]);
                      ("payload", VDict [("env", VDict [("ARTIFACT_PREFIX", VStr env_prefix)])]);
                      ("extra", VDict [("xpi-name", VStr "pkgA")])] |}.

Definition private_job (env_prefix : string) : signing_job :=
  {| job_fields := [("worker", VDict [])]; primary_dependency := Some (dep_private env_prefix) |}.

Definition signed_mismatch : signing_job :=
  {| job_fields :=
       [("worker", VDict [("upstream-artifacts",
                           VList [upstream_artifact "xpi/build/pkgA.xpi" "privileged_webextension"])]);
        ("dependencies", VDict [("build", VStr "build-pkgA")]);
        ("scopes", VList [VStr "queue:get-artifact:private/build/*"]);
        ("extra", VDict [("xpi-name", VStr "pkgA")])];
     primary_dependency := None |}.

(** The build task's environment names [private/build] and
    [get_artifact_prefix] gives [xpi/build]: the signing task is granted
    [private/build/*] and must fetch [xpi/build/pkgA.xpi]. *)
Example signing_scope_mismatch_run :
  build_signing_task_one "privileged" (private_job "private/build") = Ok (Some signed_mismatch).
Proof. vm_compute. reflexivity. Qed.

Lemma dependent_job_name_witness :
  dep_label dep_build = (dep_kind dep_build ++ "-" ++ "pkgA")%string /\
  get_dependent_job_name_without_its_kind dep_build = "pkgA".
Proof. split; [reflexivity|]. apply (dependent_job_name dep_build "pkgA"). reflexivity. Defined.

Lemma build_signing_task_skip_witness :
  dict_lookup FORMATS (default "unknown" (Some "dep")) = None /\
  build_signing_task (Some "dep") [signing_job_of dep_build; {| job_fields := []; primary_dependency := None |}] = Ok [].
Proof. split; [reflexivity|]. apply build_signing_task_skip. reflexivity. Defined.

Lemma build_signing_task_spec_witness :
  exists ts, dict_lookup FORMATS "system" <> None /\
  build_signing_task (Some "system") [private_job "xpi/build"; signing_job_of dep_build] = Ok ts /\
  Forall2 (build_signing_task_post "system") [private_job "xpi/build"; signing_job_of dep_build] ts.
Proof.
  eexists. split; [discriminate|]. split; [vm_compute; reflexivity|].
  apply build_signing_task_spec; [discriminate|vm_compute; reflexivity].
Defined.

Lemma build_signing_task_scope_witness :
  exists t, build_signing_task_one "privileged" (private_job "xpi/build") = Ok (Some t) /\
  exists scope, lookup_at (VDict (job_fields t)) ["scopes"] =
      Some (VList (list_items (lookup_at (VDict (job_fields (private_job "xpi/build"))) ["scopes"]) ++ [VStr scope])) /\
    scope_grants scope (get_artifact_prefix (dep_task_def (dep_private "xpi/build")) ++ "/" ++ "pkgA" ++ ".xpi").
Proof.
  eexists. split; [vm_compute; reflexivity|].
  apply (build_signing_task_scope "privileged" (private_job "xpi/build") _ (dep_private "xpi/build")
           "privileged_webextension" "pkgA"); vm_compute; reflexivity.
Defined.

Lemma define_signing_flags_spec_witness :
  exists ts, Forall (fun task => forall d, lookup_at (VDict (job_fields task)) ["attributes"] = Some (VDict d) ->
                                          NoDup (map fst d)) [signing_job_of dep_build] /\
  define_signing_flags "3" [signing_job_of dep_build] = Ok ts /\
  Forall2 define_signing_flags_post [signing_job_of dep_build] ts.
Proof.
  eexists. split; [repeat constructor; discriminate|]. split; [vm_compute; reflexivity|].
  apply (define_signing_flags_spec "3"); [repeat constructor; discriminate|vm_compute; reflexivity].
Defined.

Lemma signing_scope_mismatch_witness :
  exists scope, lookup_at (VDict (job_fields signed_mismatch)) ["scopes"] =
      Some (VList (list_items (lookup_at (VDict (job_fields (private_job "private/build"))) ["scopes"]) ++
                   [VStr scope])) /\
    ~ scope_grants scope "xpi/build/pkgA.xpi".
Proof.
  apply (signing_scope_mismatch "privileged" (private_job "private/build") signed_mismatch
           (dep_private "private/build") "private/build" "xpi/build/pkgA.xpi" "privileged_webextension");
    vm_compute; reflexivity.
Defined.

End Signing.
