(* ===== verification/Parameters.v ===== *)
(** * Decision parameters: [parameters.py]

    [get_decision_parameters(graph_config, parameters)] walks the
    repositories of [graph_config._config["taskgraph"]["repositories"]]
    and, for a repository [p] whose environment variable
    [P_SSH_SECRET_NAME] ([p] upper-cased) is set to a non-empty value,
    gives its config that value as [ssh-secret-name] unless it already has
    one.  [repo_config] is the dict inside the graph configuration, so the
    update is an update at the path [taskgraph.repositories.p] of it
    ([PyValue.setdefault_in]); [os.environ] is an association list. *)

From Stdlib Require Import String Ascii.
From stdpp Require Import base list strings sets.
From S2P Require Import Prelude PyValue.

Local Open Scope string_scope.
Local Open Scope py_scope.

Module Parameters.
Import PyValue.

Local Abbreviation dict := (list (string * value)).

(** [os.environ] *)
Definition environ := list (string * string).

(** [os.environ.get(k)] *)
Fixpoint environ_get (env : environ) (k : string) : option string :=
  match env with
  | [] => None
  | (k', v) :: env' => if bool_decide (k' = k) then Some v else environ_get env' k
  end.

(** [c.upper()] on an ASCII character. *)
Definition upper_char (c : ascii) : ascii :=
  let n := nat_of_ascii c in
  if ((97 <=? n) && (n <=? 122))%nat then ascii_of_nat (n - 32) else c.

(** [s.upper()] *)
Fixpoint py_upper (s : string) : string :=
  match s with
  | EmptyString => EmptyString
  | String c s' => String (upper_char c) (py_upper s')
  end.

(** [env_var = "{}_SSH_SECRET_NAME".format(repo_prefix.upper())] *)
Definition env_var_of (repo_prefix : string) : string :=
  py_upper repo_prefix ++ "_SSH_SECRET_NAME".

(** The secret the loop body uses for [repo_prefix]: [os.environ.get(env_var)]
    when it is truthy, that is a non-empty string. *)
Definition secret_of (env : environ) (repo_prefix : string) : option string :=
  match environ_get env (env_var_of repo_prefix) with
  | Some s => if bool_decide (s = "") then None else Some s
  | None => None
  end.

(** The loop over [repositories.items()], lines 18-21. *)
Fixpoint set_secret_names (env : environ) (config : dict) (items : dict) : result py_exc dict :=
  match items with
  | [] => Ok config
  | (repo_prefix, _) :: items' =>
      config <- (match secret_of env repo_prefix with
                 | Some s => setdefault_in config ["taskgraph"; "repositories"; repo_prefix]
                               "ssh-secret-name" (VStr s)
                 | None => Ok config
                 end) ;;
      set_secret_names env config items'
  end.

(** [get_decision_parameters]; [config] is [graph_config._config]. *)
Definition get_decision_parameters (env : environ) (config : dict) : result py_exc dict :=
  repositories <- (match lookup_at (VDict config) ["taskgraph"] with
                   | Some (VDict tg) =>
                       match dict_lookup tg "repositories" with
                       | Some r => Ok r
                       | None => Err (KeyError "repositories")
                       end
                   | Some v => Err (TypeError (type_name v))
                   | None => Err (KeyError "taskgraph")
                   end) ;;
  items <- (match repositories with
            | VDict r => Ok r
            | v => Err (AttributeError (type_name v) "items")
            end) ;;
  set_secret_names env config items.

Local Open Scope list_scope.

(** The place of a repository's secret name in the graph configuration. *)
Definition secret_loc (repo_prefix : string) : list string :=
  ["taskgraph"; "repositories"; repo_prefix; "ssh-secret-name"].

(** The value [get_decision_parameters] leaves there: the one the config
    had, or else the secret of the environment. *)
Definition expected_secret (env : environ) (config : dict) (repo_prefix : string) : option value :=
  match lookup_at (VDict config) (secret_loc repo_prefix) with
  | Some v => Some v
  | None => option_map VStr (secret_of env repo_prefix)
  end.

Lemma set_secret_names_frame env config items c' loc :
  set_secret_names env config items = Ok c' ->
  (forall p, p ∈ map fst items ->
     is_prefix (secret_loc p) loc = false /\ is_prefix loc ["taskgraph"; "repositories"; p] = false) ->
  lookup_at (VDict c') loc = lookup_at (VDict config) loc.
Proof.
  revert config. induction items as [|[p v] items IH]; intros config H Hloc; simpl in H.
  - by injection H as <-.
  - res_inv H. rewrite (IH _ H) by (intros; apply Hloc; set_solver).
    destruct (secret_of env p); [|by injection E as <-].
    destruct (Hloc p) as [H1 H2]; [set_solver|]. by eapply setdefault_in_frame_any.
Qed.

Lemma secret_loc_disjoint p q rest :
  p <> q -> is_prefix (secret_loc p) ("taskgraph" :: "repositories" :: q :: rest) = false /\
            is_prefix ("taskgraph" :: "repositories" :: q :: rest) ["taskgraph"; "repositories"; p] = false.
Proof.
  intros Hpq. unfold secret_loc. rewrite !is_prefix_cons_eq.
  split; apply is_prefix_cons_ne; congruence.
Qed.

Lemma set_secret_names_at env config items c' p :
  NoDup (map fst items) -> set_secret_names env config items = Ok c' -> p ∈ map fst items ->
  lookup_at (VDict c') (secret_loc p) = expected_secret env config p.
Proof.
  revert config. induction items as [|[q v] items IH]; intros config Hnd H Hp;
    cbn [set_secret_names map fst] in *; [set_solver|].
  apply NoDup_cons in Hnd as [Hq Hnd]. res_inv H. rewrite elem_of_cons in Hp.
  destruct (decide (p = q)) as [->|Hpq].
  - rewrite (set_secret_names_frame _ _ _ _ _ H).
    2:{ intros p' Hp'. apply secret_loc_disjoint. intros ->. contradiction. }
    unfold expected_secret.
    destruct (secret_of env q) as [s|].
    + rewrite (setdefault_in_eq _ _ _ _ _ (secret_loc q) E eq_refl).
      destruct (lookup_at (VDict config) (secret_loc q)); reflexivity.
    + injection E as <-. destruct (lookup_at (VDict config) (secret_loc q)); reflexivity.
  - destruct Hp as [->|Hp]; [done|]. rewrite (IH _ Hnd H Hp). unfold expected_secret.
    destruct (secret_of env q); [|by injection E as <-].
    destruct (secret_loc_disjoint q p ["ssh-secret-name"]) as [H1 H2]; [congruence|].
    unfold secret_loc. by rewrite (setdefault_in_frame_any _ _ _ _ _ _ E H1 H2).
Qed.

Lemma set_secret_names_total env config items :
  NoDup (map fst items) ->
  (forall p, p ∈ map fst items -> is_dict (lookup_at (VDict config) ["taskgraph"; "repositories"; p]) = true) ->
  exists c', set_secret_names env config items = Ok c'.
Proof.
  revert config. induction items as [|[q v] items IH]; intros config Hnd Hd;
    cbn [set_secret_names map fst] in *; [eauto|].
  apply NoDup_cons in Hnd as [Hq Hnd].
  assert (exists c1, (match secret_of env q with
                      | Some s => setdefault_in config ["taskgraph"; "repositories"; q] "ssh-secret-name" (VStr s)
                      | None => Ok config end) = Ok c1 /\
          forall p, p ∈ map fst items ->
            lookup_at (VDict c1) ["taskgraph"; "repositories"; p] =
            lookup_at (VDict config) ["taskgraph"; "repositories"; p]) as (c1 & -> & Hc1).
  { destruct (secret_of env q) as [s|]; [|by eauto].
    destruct (setdefault_in_total config ["taskgraph"; "repositories"; q] "ssh-secret-name" (VStr s))
      as [c1 Hc1]; [apply Hd; set_solver|].
    exists c1. split; [done|]. intros p Hp.
    destruct (secret_loc_disjoint q p []) as [H1 H2]; [intros ->; contradiction|].
    by eapply setdefault_in_frame_any. }
  simpl. apply IH; [done|]. intros p Hp. rewrite Hc1 by done. apply Hd. set_solver.
Qed.

(** C14: [get_decision_parameters] succeeds when the repositories are dicts
    of repository configs, sets the [ssh-secret-name] of each listed
    repository to the value it had or else to a non-empty
    [<PREFIX>_SSH_SECRET_NAME] of the environment, and changes nothing
    outside [taskgraph] and nothing else of a repository config. *)
Theorem get_decision_parameters_spec env config repos :
  lookup_at (VDict config) ["taskgraph"; "repositories"] = Some (VDict repos) ->
  NoDup (map fst repos) ->
  (forall p rc, dict_lookup repos p = Some rc -> exists d, rc = VDict d) ->
  exists c', get_decision_parameters env config = Ok c' /\
    (forall p, p ∈ map fst repos -> lookup_at (VDict c') (secret_loc p) = expected_secret env config p) /\
    (forall k rest, k <> "taskgraph" -> lookup_at (VDict c') (k :: rest) = lookup_at (VDict config) (k :: rest)) /\
    (forall p q rest, q <> "ssh-secret-name" ->
       lookup_at (VDict c') ("taskgraph" :: "repositories" :: p :: q :: rest) =
       lookup_at (VDict config) ("taskgraph" :: "repositories" :: p :: q :: rest)).
Proof.
  intros Hr Hnd Hd. unfold get_decision_parameters.
  assert ((match lookup_at (VDict config) ["taskgraph"] with
           | Some (VDict tg) => match dict_lookup tg "repositories" with
                                | Some r => Ok r | None => Err (KeyError "repositories") end
           | Some v => Err (TypeError (type_name v))
           | None => Err (KeyError "taskgraph")
           end) = Ok (VDict repos)) as ->.
  { revert Hr. cbn [lookup_at]. destruct (dict_lookup config "taskgraph") as [[| | | | |tg]|]; try done.
    cbn [lookup_at]. destruct (dict_lookup tg "repositories"); [|done]. by intros [= ->]. }
  rewrite !res_bind_ret.
  destruct (set_secret_names_total env config repos) as [c' Hc]; [done| |].
  { intros p Hp. destruct (dict_lookup_elem _ _ Hp) as [rc Hrc].
    destruct (Hd _ _ Hrc) as [d ->].
    rewrite (lookup_at_app _ ["taskgraph"; "repositories"] [p]), Hr. simpl. by rewrite Hrc. }
  exists c'. split; [done|]. split; [by intros; apply (set_secret_names_at _ _ repos)|]. split.
  - intros k rest Hk. apply (set_secret_names_frame _ _ _ _ _ Hc). intros p _.
    split; apply is_prefix_cons_ne; congruence.
  - intros p q rest Hq. apply (set_secret_names_frame _ _ _ _ _ Hc). intros p' _. unfold secret_loc.
    rewrite !is_prefix_cons_eq. destruct (decide (p' = p)) as [->|Hp].
    + rewrite !is_prefix_cons_eq. split; [apply is_prefix_cons_ne; congruence|done].
    + split; apply is_prefix_cons_ne; congruence.
Qed.

Lemma set_secret_names_dict_at env config items c' loc :
  set_secret_names env config items = Ok c' ->
  (forall p, p ∈ map fst items -> is_prefix loc ["taskgraph"; "repositories"; p] = true) ->
  is_dict (lookup_at (VDict config) loc) = true -> is_dict (lookup_at (VDict c') loc) = true.
Proof.
  revert config. induction items as [|[q v] items IH]; intros config H Hloc Hd;
    cbn [set_secret_names map fst] in *; [by injection H as <-|].
  res_inv H. apply (IH _ H); [intros; apply Hloc; set_solver|].
  destruct (secret_of env q); [|by injection E as <-].
  apply (modify_in_above _ _ _ _ _ _ E). apply Hloc. set_solver.
Qed.

(** A second pass finds every secret it would set already there. *)
Lemma set_secret_names_fixed env c items :
  (forall p, p ∈ map fst items -> secret_of env p = None \/
     exists inner v, lookup_at (VDict c) ["taskgraph"; "repositories"; p] = Some (VDict inner) /\
                     dict_lookup inner "ssh-secret-name" = Some v) ->
  set_secret_names env c items = Ok c.
Proof.
  induction items as [|[q w] items IH]; intros Hp; cbn [set_secret_names map fst] in *; [done|].
  destruct (Hp q) as [->|(inner & v & Hl & Hk)]; [set_solver| |].
  - rewrite res_bind_ret. apply IH. intros; apply Hp; set_solver.
  - destruct (secret_of env q); rewrite ?(setdefault_in_present _ _ _ _ _ _ Hl Hk), res_bind_ret;
      apply IH; intros; apply Hp; set_solver.
Qed.

Lemma get_decision_parameters_Ok env config c' :
  get_decision_parameters env config = Ok c' ->
  exists repos, lookup_at (VDict config) ["taskgraph"; "repositories"] = Some (VDict repos) /\
                set_secret_names env config repos = Ok c'.
Proof.
  unfold get_decision_parameters. cbn [lookup_at].
  destruct (dict_lookup config "taskgraph") as [[| | | | |tg]|]; try done. cbn [lookup_at].
  destruct (dict_lookup tg "repositories") as [[| | | | |repos]|]; try done. eauto.
Qed.

(** [get_decision_parameters] is idempotent: on the configuration it
    returns, a second call changes nothing, since every secret name it
    would set is already there ([setdefault] keeps it). *)
Theorem get_decision_parameters_idempotent env config c' :
  (forall repos, lookup_at (VDict config) ["taskgraph"; "repositories"] = Some (VDict repos) ->
                 NoDup (map fst repos)) ->
  get_decision_parameters env config = Ok c' -> get_decision_parameters env c' = Ok c'.
Proof.
  intros Hnd (repos & Hr & Hs)%get_decision_parameters_Ok. specialize (Hnd _ Hr).
  assert (is_dict (lookup_at (VDict c') ["taskgraph"; "repositories"]) = true) as Hd.
  { apply (set_secret_names_dict_at _ _ _ _ _ Hs); [|by rewrite Hr].
    intros p _. by rewrite !is_prefix_cons_eq. }
  unfold get_decision_parameters. revert Hd. cbn [lookup_at].
  destruct (dict_lookup c' "taskgraph") as [[| | | | |tg]|] eqn:Htg; try done. cbn [lookup_at].
  destruct (dict_lookup tg "repositories") as [[| | | | |repos']|] eqn:Hrp; try done. intros _.
  cbn [res_bind]. apply set_secret_names_fixed. intros p Hp.
  destruct (dict_lookup_elem _ _ Hp) as [x Hx].
  assert (p ∈ map fst repos) as Hin.
  { destruct (decide (p ∈ map fst repos)) as [|Hn]; [done|].
    assert (lookup_at (VDict c') ["taskgraph"; "repositories"; p] =
            lookup_at (VDict config) ["taskgraph"; "repositories"; p]) as Hf.
    { apply (set_secret_names_frame _ _ _ _ _ Hs). intros p' Hp'.
      apply secret_loc_disjoint. intros ->. contradiction. }
    assert (lookup_at (VDict c') ["taskgraph"; "repositories"] = Some (VDict repos')) as Hc'
      by (simpl; rewrite Htg; simpl; by rewrite Hrp).
    change ["taskgraph"; "repositories"; p] with (["taskgraph"; "repositories"] ++ [p]) in Hf.
    rewrite (lookup_at_snoc _ _ _ _ Hc'), (lookup_at_snoc _ _ _ _ Hr), Hx in Hf.
    by rewrite dict_lookup_notin in Hf. }
  pose proof (set_secret_names_at _ _ _ _ _ Hnd Hs Hin) as Ha.
  destruct (secret_of env p) as [s|] eqn:Hsec; [right|by left].
  unfold expected_secret in Ha. rewrite Hsec in Ha.
  assert (exists w, lookup_at (VDict c') (secret_loc p) = Some w) as [w Hw]
    by (rewrite Ha; destruct (lookup_at (VDict config) (secret_loc p)); eauto).
  unfold secret_loc in Hw.
  change ["taskgraph"; "repositories"; p; "ssh-secret-name"]
    with (["taskgraph"; "repositories"; p] ++ ["ssh-secret-name"]) in Hw.
  rewrite lookup_at_app in Hw.
  destruct (lookup_at (VDict c') ["taskgraph"; "repositories"; p]) as [[| | | | |inner]|]; try done.
  exists inner, w. split; [done|]. revert Hw. simpl. by destruct (dict_lookup inner _); intros [= ->].
Qed.

(** ** A decision run *)

Definition graph_config_repos : dict :=
  [("trust-domain", VStr "xpi");
   ("taskgraph", VDict [("repositories",
                         VDict [("xpi", VDict [("name", VStr "xpi-manifest")]);
                                ("private", VDict [("ssh-secret-name", VStr "kept")]);
                                ("public", VDict [])])])].

Definition environ_decision : environ :=
  [("XPI_SSH_SECRET_NAME", "project/xpi/clone"); ("PRIVATE_SSH_SECRET_NAME", "other");
   ("PUBLIC_SSH_SECRET_NAME", "")].

(** [xpi] gets the secret of [XPI_SSH_SECRET_NAME]; [private] keeps its
    own; the empty [PUBLIC_SSH_SECRET_NAME] is falsy and sets nothing. *)
Example get_decision_parameters_run :
  get_decision_parameters environ_decision graph_config_repos =
  Ok [("trust-domain", VStr "xpi");
      ("taskgraph", VDict [("repositories",
                            VDict [("xpi", VDict [("name", VStr "xpi-manifest");
                                                  ("ssh-secret-name", VStr "project/xpi/clone")]);
                                   ("private", VDict [("ssh-secret-name", VStr "kept")]);
                                   ("public", VDict [])])])].
Proof. vm_compute. reflexivity. Qed.

Definition repos_decision : dict :=
  [("xpi", VDict [("name", VStr "xpi-manifest")]);
   ("private", VDict [("ssh-secret-name", VStr "kept")]);
   ("public", VDict [])].

Lemma repos_decision_dicts p rc :
  dict_lookup repos_decision p = Some rc -> exists d, rc = VDict d.
Proof.
  unfold repos_decision. cbn [dict_lookup].
  repeat (case_bool_decide; [intros [= <-]; eauto|]). done.
Qed.

Lemma get_decision_parameters_spec_witness :
  lookup_at (VDict graph_config_repos) ["taskgraph"; "repositories"] = Some (VDict repos_decision) /\
  NoDup (map fst repos_decision) /\
  exists c', get_decision_parameters environ_decision graph_config_repos = Ok c' /\
    (forall p, p ∈ map fst repos_decision ->
       lookup_at (VDict c') (secret_loc p) = expected_secret environ_decision graph_config_repos p) /\
    (forall k rest, k <> "taskgraph" ->
       lookup_at (VDict c') (k :: rest) = lookup_at (VDict graph_config_repos) (k :: rest)) /\
    (forall p q rest, q <> "ssh-secret-name" ->
       lookup_at (VDict c') ("taskgraph" :: "repositories" :: p :: q :: rest) =
       lookup_at (VDict graph_config_repos) ("taskgraph" :: "repositories" :: p :: q :: rest)).
Proof.
  split; [reflexivity|]. split; [apply (bool_decide_unpack _); vm_compute; exact I|].
  apply get_decision_parameters_spec; [reflexivity|apply (bool_decide_unpack _); vm_compute; exact I|].
  apply repos_decision_dicts.
Defined.

Lemma get_decision_parameters_idempotent_witness :
  exists c', get_decision_parameters environ_decision graph_config_repos = Ok c' /\
    get_decision_parameters environ_decision c' = Ok c'.
Proof.
  eexists. split; [vm_compute; reflexivity|].
  apply (get_decision_parameters_idempotent environ_decision graph_config_repos); [|vm_compute; reflexivity].
  intros repos Hr. vm_compute in Hr. injection Hr as <-.
  apply (bool_decide_unpack _); vm_compute; exact I.
Defined.

End Parameters.
